(** * User API end-points: registration form, registration submission,
      email opt-in

    A shallow embedding of [openedx/core/djangoapps/user_api/views.py]:
    the construction of [RegistrationView], the form description its
    [get] builds, its [post], and [UpdateEmailOptInPreference.post].

    Python dictionaries are finite maps ([gmap]) keyed by strings, Python
    objects that are only passed around are records, and an exception is a
    [Raise] in the [result] type.  [ugettext] is the identity: labels are
    the untranslated catalogue strings. *)

From stdpp Require Import gmap strings list fin_maps pretty.

Set Warnings "-register-all".

(** ** Python values *)

Inductive value :=
  | VNone
  | VBool (b : bool)
  | VInt (z : Z)
  | VStr (s : string)
  | VList (l : list value)
  | VDict (d : list (string * value)).

(** Truth value of an object in a condition ([if x:], [x and y], [not x]). *)
Definition truthy (v : value) : bool :=
  match v with
  | VNone => false
  | VBool b => b
  | VInt z => negb (z =? 0)%Z
  | VStr s => negb (String.eqb s "")
  | VList l => match l with [] => false | _ => true end
  | VDict d => match d with [] => false | _ => true end
  end.

(** [str(x)], as far as the views need it: scalars and empty containers. *)
Definition py_str (v : value) : string :=
  match v with
  | VNone => "None"
  | VBool true => "True"
  | VBool false => "False"
  | VInt z => pretty z
  | VStr s => s
  | VList _ => "[]"
  | VDict _ => "{}"
  end.

(** Text is held as its UTF-8 bytes: it is ASCII when every byte is below
    128. *)
Fixpoint is_ascii (s : string) : bool :=
  match s with
  | EmptyString => true
  | String c s' => (Ascii.nat_of_ascii c <? 128)%nat && is_ascii s'
  end.

(** [lower] and [upper] on the ASCII letters; every other byte is kept.
    This is what the methods do on ASCII text.  The views compare the
    result of [lower] with "true" only, which no text outside ASCII
    lower-cases to.  What [upper] does to text outside ASCII is decided by
    the interpreter's case tables; see [py_upper]. *)
Definition lower_ascii (c : Ascii.ascii) : Ascii.ascii :=
  let n := Ascii.nat_of_ascii c in
  if (65 <=? n)%nat && (n <=? 90)%nat then Ascii.ascii_of_nat (n + 32) else c.

Definition upper_ascii (c : Ascii.ascii) : Ascii.ascii :=
  let n := Ascii.nat_of_ascii c in
  if (97 <=? n)%nat && (n <=? 122)%nat then Ascii.ascii_of_nat (n - 32) else c.

Fixpoint lower (s : string) : string :=
  match s with
  | EmptyString => EmptyString
  | String c s' => String (lower_ascii c) (lower s')
  end.

Fixpoint upper (s : string) : string :=
  match s with
  | EmptyString => EmptyString
  | String c s' => String (upper_ascii c) (upper s')
  end.

(** Keyword arguments and dictionary literals. *)
Definition kw (l : list (string * value)) : gmap string value := list_to_map l.

(** ** Exceptions *)

Inductive exn :=
  | ImproperlyConfigured (msg : string)
  | KeyError (key : string)
  | AttributeError (attr : string)
  | AssertionError
  | UnicodeEncodeError.

Inductive result (A : Type) :=
  | Ok (a : A)
  | Raise (e : exn).
Arguments Ok {A} a.
Arguments Raise {A} e.

(** ** Format strings

    A format string in parsed form: literal text and replacement fields
    [{name}].  [format] is [str.format] called with keyword arguments. *)

Inductive segment :=
  | Lit (text : string)
  | Field (name : string).

Definition template := list segment.

Fixpoint format (t : template) (kwargs : gmap string string) : result string :=
  match t with
  | [] => Ok ""
  | Lit text :: t' =>
      match format t' kwargs with
      | Ok rest => Ok (text +:+ rest)
      | Raise e => Raise e
      end
  | Field name :: t' =>
      match kwargs !! name with
      | None => Raise (KeyError name)
      | Some v =>
          match format t' kwargs with
          | Ok rest => Ok (v +:+ rest)
          | Raise e => Raise e
          end
      end
  end.

Definition template_fields (t : template) : list string :=
  omap (λ sg, match sg with Field name => Some name | Lit _ => None end) t.

(** The ASCII codec, which turns text into a byte string. *)
Definition encode_ascii (s : string) : result string :=
  if is_ascii s then Ok s else Raise UnicodeEncodeError.

(** [format] called on a byte string, which is what a literal without the
    [u] prefix is in this module: the result is a byte string too, so the
    text that fills a replacement field is first encoded with the ASCII
    codec. *)
Fixpoint str_format (t : template) (kwargs : gmap string string)
    : result string :=
  match t with
  | [] => Ok ""
  | Lit text :: t' =>
      match str_format t' kwargs with
      | Ok rest => Ok (text +:+ rest)
      | Raise e => Raise e
      end
  | Field name :: t' =>
      match kwargs !! name with
      | None => Raise (KeyError name)
      | Some v =>
          match encode_ascii v with
          | Raise e => Raise e
          | Ok bytes =>
              match str_format t' kwargs with
              | Ok rest => Ok (bytes +:+ rest)
              | Raise e => Raise e
              end
          end
      end
  end.

(** ** HTTP responses *)

Inductive content :=
  | NoContent
  | PlainText (text : string)
  | JsonObject (body : gmap string value)
  | JsonForm (method submit_url : string) (fields : list (gmap string value)).

Record HttpResponse := {
  status_code : Z;
  response_content : content;
  content_type : string;
  logged_in_cookies : option string;
}.

Definition HTTP_200_OK : Z := 200.

Definition JsonResponse (body : gmap string value) (status : Z) : HttpResponse :=
  {| status_code := status; response_content := JsonObject body;
     content_type := "application/json"; logged_in_cookies := None |}.

Definition HttpResponseForbidden (text : string) : HttpResponse :=
  {| status_code := 403; response_content := PlainText text;
     content_type := "text/html; charset=utf-8"; logged_in_cookies := None |}.

(** ** The form description helper *)

Module Helpers.

(** Modelled from the spec: [user_api.helpers.FormDescription] is not among
    the sources.  It is the "JSON structure describing a web form's fields,
    types, and validation": an ordered list of field dictionaries (field
    name, type, label, placeholder, instructions, restrictions, default,
    required flag, error messages, options list) and, per field name, the
    properties that "override defaults".  The views read the overrides as
    [form_desc._field_overrides.get('country', {}).get('defaultValue')], which
    fixes their shape: a dictionary of dictionaries in which the keyword
    [default] is stored under ["defaultValue"].  The helper's own validation
    of its arguments is not described and is not modelled. *)
Record FormDescription := {
  method : string;
  submit_url : string;
  fields : list (gmap string value);
  _field_overrides : gmap string (gmap string value);
}.

Definition new (method submit_url : string) : FormDescription :=
  {| method := method; submit_url := submit_url; fields := [];
     _field_overrides := ∅ |}.

(** Code that mutates a form description and may raise. *)
Definition M (A : Type) : Type := FormDescription → result (A * FormDescription).

Definition ret {A} (a : A) : M A := λ fd, Ok (a, fd).

Definition bind {A B} (c : M A) (k : A → M B) : M B := λ fd,
  match c fd with
  | Ok (a, fd') => k a fd'
  | Raise e => Raise e
  end.

Definition raise {A} (e : exn) : M A := λ _, Raise e.

Definition lift {A} (r : result A) : M A := λ fd,
  match r with
  | Ok a => Ok (a, fd)
  | Raise e => Raise e
  end.

Definition read_overrides : M (gmap string (gmap string value)) :=
  λ fd, Ok (_field_overrides fd, fd).

Fixpoint for_each {A} (l : list A) (body : A → M unit) : M unit :=
  match l with
  | [] => ret ()
  | x :: l' => bind (body x) (λ _, for_each l' body)
  end.

(** A keyword argument, or its default when it is not passed. *)
Definition arg (kwargs : gmap string value) (k : string) (d : value) : value :=
  default d (kwargs !! k).

(** A keyword argument whose default is [None], when it is passed and is
    not [None]. *)
Definition given (kwargs : gmap string value) (k : string) : option value :=
  match kwargs !! k with
  | Some VNone => None
  | o => o
  end.

Definition OVERRIDE_FIELD_PROPERTIES : list string :=
  ["label"; "type"; "defaultValue"; "placeholder"; "instructions";
   "required"; "restrictions"; "options"].

(** Modelled from the spec: [FormDescription.add_field] is not among the
    sources.  It appends the description of one field, built from the
    keyword arguments ([field_dict]), after applying the properties
    overridden for that field name (they "override defaults"). *)
Definition field_dict (name : string) (kwargs : gmap string value)
    : gmap string value :=
  let field_dict := kw [
    ("name", VStr name);
    ("label", arg kwargs "label" (VStr ""));
    ("type", arg kwargs "field_type" (VStr "text"));
    ("defaultValue", arg kwargs "default" (VStr ""));
    ("placeholder", arg kwargs "placeholder" (VStr ""));
    ("instructions", arg kwargs "instructions" (VStr ""));
    ("required", arg kwargs "required" (VBool true));
    ("restrictions", default (VDict []) (given kwargs "restrictions"));
    ("errorMessages", default (VDict []) (given kwargs "error_messages"));
    ("supplementalLink", arg kwargs "supplementalLink" (VStr ""));
    ("supplementalText", arg kwargs "supplementalText" (VStr ""))
  ] in
  match given kwargs "options" with
  | Some options => <["options" := options]> field_dict
  | None => field_dict
  end.

Definition add_field (name : string) (kwargs : gmap string value) : M unit :=
  λ fd,
  let field_dict := (_field_overrides fd !!! name) ∪ field_dict name kwargs in
  Ok ((), {| method := method fd; submit_url := submit_url fd;
             fields := fields fd ++ [field_dict];
             _field_overrides := _field_overrides fd |}).

(** Modelled from the spec: [FormDescription.override_field_properties] is
    not among the sources.  It records, for one field name, properties that
    take precedence over those given to [add_field]; the keywords
    [field_type] and [default] are stored under the keys of the field
    dictionary, ["type"] and ["defaultValue"].  [overridden_properties] is
    the dictionary it merges into the field's overrides. *)
Definition overridden_properties (kwargs : gmap string value)
    : gmap string value :=
  let kwargs :=
    match kwargs !! "field_type" with
    | Some v => <["type" := v]> kwargs
    | None => kwargs
    end in
  let kwargs :=
    match kwargs !! "default" with
    | Some v => <["defaultValue" := v]> kwargs
    | None => kwargs
    end in
  filter (λ kv, kv.1 ∈ OVERRIDE_FIELD_PROPERTIES) kwargs.

Definition override_field_properties (field_name : string)
    (kwargs : gmap string value) : M unit :=
  λ fd,
  Ok ((), {| method := method fd; submit_url := submit_url fd;
             fields := fields fd;
             _field_overrides :=
               <[field_name := overridden_properties kwargs
                               ∪ (_field_overrides fd !!! field_name)]>
                 (_field_overrides fd) |}).

Definition to_json (fd : FormDescription) : content :=
  JsonForm (method fd) (submit_url fd) (fields fd).

End Helpers.

Import Helpers.

#[global] Instance M_ret : MRet M := @ret.
#[global] Instance M_bind : MBind M := λ A B k c, bind c k.

(** ** Collaborators of the views

    What the views import from the rest of the platform and from Django.
    None of it is among the sources; it is taken as given. *)

(** The constants of [user_api.accounts]. *)
Record Accounts := {
  EMAIL_MIN_LENGTH : Z;
  EMAIL_MAX_LENGTH : Z;
  NAME_MAX_LENGTH : Z;
  USERNAME_MIN_LENGTH : Z;
  USERNAME_MAX_LENGTH : Z;
  PASSWORD_MIN_LENGTH : Z;
  PASSWORD_MAX_LENGTH : Z;
  REQUIRED_FIELD_CONFIRM_EMAIL_MSG : string;
  REQUIRED_FIELD_LEVEL_OF_EDUCATION_MSG : string;
  REQUIRED_FIELD_MAILING_ADDRESS_MSG : string;
  REQUIRED_FIELD_GOALS_MSG : string;
  REQUIRED_FIELD_CITY_MSG : string;
  REQUIRED_FIELD_COUNTRY_MSG : string;
  EMAIL_CONFLICT_MSG : template;
  USERNAME_CONFLICT_MSG : template;
}.

(** [django.conf.settings]; a field order of [None] is the empty list. *)
Record Settings := {
  REGISTRATION_EXTRA_FIELDS : gmap string string;
  REGISTRATION_FIELD_ORDER : list string;
  PLATFORM_NAME : string;
}.

(** What [configuration_helpers.get_value] finds in the site configuration;
    [None] when the site does not set the key. *)
Record SiteConfiguration := {
  site_REGISTRATION_EXTRA_FIELDS : option (gmap string string);
  site_REGISTRATION_FIELD_ORDER : option (list string);
  site_PLATFORM_NAME : option string;
}.

(** A field of the registration extension form; an attribute the field
    class does not have is [VNone]. *)
Record FormField := {
  field_class : string;
  label : value;
  initial : value;
  help_text : value;
  required : bool;
  max_length : value;
  min_length : value;
  choices : value;
  error_messages : value;
}.

(** The registration extension form: its fields in declaration order and
    [Meta.serialization_options] (empty when there is no [Meta]). *)
Record CustomForm := {
  form_fields : list (string * FormField);
  serialization_options : gmap string (gmap string value);
}.

(** A third-party-auth provider and a running pipeline. *)
Record Provider := {
  name : string;
  skip_registration_form : bool;
  get_register_form_data : value → gmap string value;
}.

Record Pipeline := {
  backend : string;
  pipeline_kwargs : value;
}.

Record HttpRequest := {
  POST : gmap string string;
  data : gmap string string;
  user : string;
  running_pipeline : option Pipeline;
}.

(** What [create_account_with_params] does: it returns the new user or
    raises one of the exceptions [RegistrationView.post] catches.  A
    [ValidationError] carries an error dictionary or a plain list. *)
Inductive validation_error :=
  | ErrorDict (error_dict : gmap string (list string))
  | ErrorList (error_list : list string).

Inductive account_creation :=
  | Created (new_user : string)
  | AccountValidationError (field message : string)
  | ValidationError (err : validation_error)
  | PermissionDenied.

Record CourseLocator := {
  org : string;
  course : string;
  run : string;
}.

Record Environment := {
  settings : Settings;
  site : SiteConfiguration;
  accounts : Accounts;
  LEVEL_OF_EDUCATION_CHOICES : list (string * string);
  GENDER_CHOICES : list (string * string);
  VALID_YEARS : list Z;
  countries : list (string * string);
  marketing_link : string → string;
  reverse : string → string;
  FIELD_TYPE_MAP : gmap string string;
  get_registration_extension_form : option CustomForm;
  third_party_auth_is_enabled : bool;
  get_from_pipeline : Pipeline → option Provider;
  enterprise_customer_for_request : HttpRequest → value;
  check_account_exists : option string → option string → list string;
  create_account_with_params :
    HttpRequest → gmap string string → account_creation;
  (** [CourseLocator.from_string]; [None] when it raises [InvalidKeyError]. *)
  from_string : string → option CourseLocator;
  (** The interpreter's [upper] on text outside ASCII. *)
  unicode_upper : string → string;
}.

(** Calls a view makes to collaborators that change the platform's state. *)
Inductive call :=
  | CreateAccountWithParams (params : gmap string string)
  | SetLoggedInCookies (new_user : string)
  | UpdateEmailOptIn (who organization : string) (opt_in : bool).

(** [(name, label)] pairs as the list of tuples handed to [add_field]. *)
Definition options_of (l : list (string * string)) : value :=
  VList ((λ p, VList [VStr p.1; VStr p.2]) <$> l).

Definition str_dict (l : list (string * string)) : value :=
  VDict ((λ p, (p.1, VStr p.2)) <$> l).

(** ** RegistrationView *)

Module RegistrationView.

Record RegistrationView := {
  _extra_fields_setting : gmap string string;
  field_order : list string;
}.

Definition DEFAULT_FIELDS : list string :=
  ["email"; "name"; "username"; "password"].

Definition EXTRA_FIELDS : list string :=
  ["confirm_email"; "first_name"; "last_name"; "city"; "state"; "country";
   "gender"; "year_of_birth"; "level_of_education"; "company"; "title";
   "mailing_address"; "goals"; "honor_code"; "terms_of_service"].

Definition valid_fields : list string := DEFAULT_FIELDS ++ EXTRA_FIELDS.

Definition _is_field_visible (self : RegistrationView) (field_name : string)
    : bool :=
  bool_decide (_extra_fields_setting self !! field_name
                 ∈ [Some "required"; Some "optional"]).

Definition _is_field_required (self : RegistrationView) (field_name : string)
    : bool :=
  bool_decide (_extra_fields_setting self !! field_name = Some "required").

Section WithEnvironment.
Context (env : Environment).

Definition platform_name : string :=
  default (PLATFORM_NAME (settings env)) (site_PLATFORM_NAME (site env)).

(** *** The field handlers, [_add_<field>_field] *)

Definition _add_email_field (required : bool) : M unit :=
  add_field "email" (kw [
    ("field_type", VStr "email");
    ("label", VStr "Email");
    ("placeholder", VStr "username@domain.com");
    ("instructions", VStr "This is what you will use to login.");
    ("restrictions", VDict [
       ("min_length", VInt (EMAIL_MIN_LENGTH (accounts env)));
       ("max_length", VInt (EMAIL_MAX_LENGTH (accounts env)))]);
    ("required", VBool required)]).

Definition _add_confirm_email_field (required : bool) : M unit :=
  add_field "confirm_email" (kw [
    ("label", VStr "Confirm Email");
    ("required", VBool required);
    ("error_messages", VDict [
       ("required", VStr (REQUIRED_FIELD_CONFIRM_EMAIL_MSG (accounts env)))])]).

Definition _add_name_field (required : bool) : M unit :=
  add_field "name" (kw [
    ("label", VStr "Full Name");
    ("placeholder", VStr "Jane Q. Learner");
    ("instructions",
       VStr "This name will be used on any certificates that you earn.");
    ("restrictions", VDict [
       ("max_length", VInt (NAME_MAX_LENGTH (accounts env)))]);
    ("required", VBool required)]).

Definition _add_username_field (required : bool) : M unit :=
  add_field "username" (kw [
    ("label", VStr "Public Username");
    ("instructions",
       VStr ("The name that will identify you in your courses. "
             +:+ "It cannot be changed later."));
    ("placeholder", VStr "Jane_Q_Learner");
    ("restrictions", VDict [
       ("min_length", VInt (USERNAME_MIN_LENGTH (accounts env)));
       ("max_length", VInt (USERNAME_MAX_LENGTH (accounts env)))]);
    ("required", VBool required)]).

Definition _add_password_field (required : bool) : M unit :=
  add_field "password" (kw [
    ("label", VStr "Password");
    ("field_type", VStr "password");
    ("restrictions", VDict [
       ("min_length", VInt (PASSWORD_MIN_LENGTH (accounts env)));
       ("max_length", VInt (PASSWORD_MAX_LENGTH (accounts env)))]);
    ("required", VBool required)]).

Definition _add_level_of_education_field (required : bool) : M unit :=
  add_field "level_of_education" (kw [
    ("label", VStr "Highest level of education completed");
    ("field_type", VStr "select");
    ("options", options_of (LEVEL_OF_EDUCATION_CHOICES env));
    ("include_default_option", VBool true);
    ("required", VBool required);
    ("error_messages", VDict [
       ("required",
          VStr (REQUIRED_FIELD_LEVEL_OF_EDUCATION_MSG (accounts env)))])]).

Definition _add_gender_field (required : bool) : M unit :=
  add_field "gender" (kw [
    ("label", VStr "Gender");
    ("field_type", VStr "select");
    ("options", options_of (GENDER_CHOICES env));
    ("include_default_option", VBool true);
    ("required", VBool required)]).

Definition _add_year_of_birth_field (required : bool) : M unit :=
  add_field "year_of_birth" (kw [
    ("label", VStr "Year of birth");
    ("field_type", VStr "select");
    ("options",
       options_of ((λ year : Z, (pretty year, pretty year)) <$> VALID_YEARS env));
    ("include_default_option", VBool true);
    ("required", VBool required)]).

Definition _add_mailing_address_field (required : bool) : M unit :=
  add_field "mailing_address" (kw [
    ("label", VStr "Mailing address");
    ("field_type", VStr "textarea");
    ("required", VBool required);
    ("error_messages", VDict [
       ("required", VStr (REQUIRED_FIELD_MAILING_ADDRESS_MSG (accounts env)))])]).

Definition _add_goals_field (required : bool) : M unit :=
  add_field "goals" (kw [
    ("label", VStr ("Tell us why you're interested in " +:+ platform_name));
    ("field_type", VStr "textarea");
    ("required", VBool required);
    ("error_messages", VDict [
       ("required", VStr (REQUIRED_FIELD_GOALS_MSG (accounts env)))])]).

Definition _add_city_field (required : bool) : M unit :=
  add_field "city" (kw [
    ("label", VStr "City");
    ("required", VBool required);
    ("error_messages", VDict [
       ("required", VStr (REQUIRED_FIELD_CITY_MSG (accounts env)))])]).

Definition _add_state_field (required : bool) : M unit :=
  add_field "state" (kw [
    ("label", VStr "State/Province/Region");
    ("required", VBool required)]).

Definition _add_company_field (required : bool) : M unit :=
  add_field "company" (kw [
    ("label", VStr "Company");
    ("required", VBool required)]).

Definition _add_title_field (required : bool) : M unit :=
  add_field "title" (kw [
    ("label", VStr "Title");
    ("required", VBool required)]).

Definition _add_first_name_field (required : bool) : M unit :=
  add_field "first_name" (kw [
    ("label", VStr "First Name");
    ("required", VBool required)]).

Definition _add_last_name_field (required : bool) : M unit :=
  add_field "last_name" (kw [
    ("label", VStr "Last Name");
    ("required", VBool required)]).

(** [default_country.upper()]: only a string has the method.  On ASCII
    text it maps a-z to A-Z and keeps the rest; on other text the result is
    the interpreter's. *)
Definition py_upper (v : value) : result value :=
  match v with
  | VStr s => Ok (VStr (if is_ascii s then upper s else unicode_upper env s))
  | _ => Raise (AttributeError "upper")
  end.

Definition _add_country_field (required : bool) : M unit :=
  overrides ← read_overrides;
  let default_country :=
    default VNone (default ∅ (overrides !! "country") !! "defaultValue") in
  (if truthy default_country
   then uppercased ← lift (py_upper default_country);
        override_field_properties "country" (kw [("default", uppercased)])
   else ret ());;
  add_field "country" (kw [
    ("label", VStr "Country");
    ("field_type", VStr "select");
    ("options", options_of (countries env));
    ("include_default_option", VBool true);
    ("required", VBool required);
    ("error_messages", VDict [
       ("required", VStr (REQUIRED_FIELD_COUNTRY_MSG (accounts env)))])]).

Definition _add_honor_code_field (self : RegistrationView) (required : bool)
    : M unit :=
  let '(terms_label, terms_link, terms_text) :=
    if _is_field_visible self "terms_of_service"
    then ("Honor Code", marketing_link env "HONOR", "Review the Honor Code")
    else ("Terms of Service and Honor Code", marketing_link env "HONOR",
          "Review the Terms of Service and Honor Code") in
  let label :=
    "I agree to the " +:+ platform_name +:+ " " +:+ terms_label in
  let error_msg :=
    "You must agree to the " +:+ platform_name +:+ " " +:+ terms_label in
  add_field "honor_code" (kw [
    ("label", VStr label);
    ("field_type", VStr "checkbox");
    ("default", VBool false);
    ("required", VBool required);
    ("error_messages", VDict [("required", VStr error_msg)]);
    ("supplementalLink", VStr terms_link);
    ("supplementalText", VStr terms_text)]).

Definition _add_terms_of_service_field (required : bool) : M unit :=
  let terms_label := "Terms of Service" in
  let terms_link := marketing_link env "TOS" in
  let terms_text := "Review the Terms of Service" in
  let label :=
    "I agree to the " +:+ platform_name +:+ " " +:+ terms_label in
  let error_msg :=
    "You must agree to the " +:+ platform_name +:+ " " +:+ terms_label in
  add_field "terms_of_service" (kw [
    ("label", VStr label);
    ("field_type", VStr "checkbox");
    ("default", VBool false);
    ("required", VBool required);
    ("error_messages", VDict [("required", VStr error_msg)]);
    ("supplementalLink", VStr terms_link);
    ("supplementalText", VStr terms_text)]).

(** [self.field_handlers]: every valid field name mapped to the bound method
    [_add_<field_name>_field]. *)
Definition field_handlers (self : RegistrationView)
    : gmap string (bool → M unit) :=
  list_to_map [
    ("email", _add_email_field);
    ("name", _add_name_field);
    ("username", _add_username_field);
    ("password", _add_password_field);
    ("confirm_email", _add_confirm_email_field);
    ("first_name", _add_first_name_field);
    ("last_name", _add_last_name_field);
    ("city", _add_city_field);
    ("state", _add_state_field);
    ("country", _add_country_field);
    ("gender", _add_gender_field);
    ("year_of_birth", _add_year_of_birth_field);
    ("level_of_education", _add_level_of_education_field);
    ("company", _add_company_field);
    ("title", _add_title_field);
    ("mailing_address", _add_mailing_address_field);
    ("goals", _add_goals_field);
    ("honor_code", _add_honor_code_field self);
    ("terms_of_service", _add_terms_of_service_field)].

(** [self.field_handlers[field_name](form_desc, required=required)] *)
Definition call_handler (self : RegistrationView) (field_name : string)
    (required : bool) : M unit :=
  match field_handlers self !! field_name with
  | Some handler => handler required
  | None => raise (KeyError field_name)
  end.

(** *** Construction *)

Definition MSG_EXTRA_FIELDS : string :=
  "Setting REGISTRATION_EXTRA_FIELDS values must be either required, optional, or hidden.".

(** The loop that checks the setting, over the names still to check. *)
Fixpoint check_extra_fields (extra_fields_setting : gmap string string)
    (names : list string) : result unit :=
  match names with
  | [] => Ok ()
  | field_name :: names' =>
      if bool_decide (default "hidden" (extra_fields_setting !! field_name)
                        ∉ ["required"; "optional"; "hidden"])
      then Raise (ImproperlyConfigured MSG_EXTRA_FIELDS)
      else check_extra_fields extra_fields_setting names'
  end.

(** The mapping the constructor starts from: the site's value, or the
    Django setting when the site has none or an empty one. *)
Definition configured_extra_fields : gmap string string :=
  match site_REGISTRATION_EXTRA_FIELDS (site env) with
  | Some d => if decide (d = ∅) then REGISTRATION_EXTRA_FIELDS (settings env)
              else d
  | None => REGISTRATION_EXTRA_FIELDS (settings env)
  end.

Definition configured_field_order : list string :=
  match site_REGISTRATION_FIELD_ORDER (site env) with
  | Some (x :: l) => x :: l
  | _ =>
      match REGISTRATION_FIELD_ORDER (settings env) with
      | [] => valid_fields
      | l => l
      end
  end.

Definition __init__ : result RegistrationView :=
  let extra_fields_setting := configured_extra_fields in
  let extra_fields_setting :=
    <["honor_code" := default "required" (extra_fields_setting !! "honor_code")]>
      extra_fields_setting in
  match check_extra_fields extra_fields_setting EXTRA_FIELDS with
  | Raise e => Raise e
  | Ok _ =>
      let field_order := configured_field_order in
      let field_order :=
        if bool_decide ((list_to_set valid_fields : gset string)
                          ≠ list_to_set field_order)
        then valid_fields
        else field_order in
      Ok {| _extra_fields_setting := extra_fields_setting;
            field_order := field_order |}
  end.

(** *** The registration form *)

(** The body of the loop of [_apply_third_party_auth_overrides] over the
    field names. *)
Definition override_from_provider (field_overrides : gmap string value)
    (hide_registration_fields_except_tos : bool) (field_name : string)
    : M unit :=
  match field_overrides !! field_name with
  | Some override =>
      override_field_properties field_name (kw [("default", override)]);;
      if bool_decide (field_name ∉ ["terms_of_service"; "honor_code"])
         && truthy override
         && hide_registration_fields_except_tos
      then override_field_properties field_name (kw [
             ("field_type", VStr "hidden");
             ("label", VStr "");
             ("instructions", VStr "")])
      else ret ()
  | None => ret ()
  end.

Definition _apply_third_party_auth_overrides (request : HttpRequest) : M unit :=
  if third_party_auth_is_enabled env then
    match running_pipeline request with
    | Some running_pipeline =>
        match get_from_pipeline env running_pipeline with
        | Some current_provider =>
            let field_overrides :=
              get_register_form_data current_provider
                (pipeline_kwargs running_pipeline) in
            let hide_registration_fields_except_tos :=
              skip_registration_form current_provider
              && truthy (enterprise_customer_for_request env request) in
            for_each (DEFAULT_FIELDS ++ EXTRA_FIELDS)
              (override_from_provider field_overrides
                 hide_registration_fields_except_tos);;
            override_field_properties "password" (kw [
              ("default", VStr "");
              ("field_type", VStr "hidden");
              ("required", VBool false);
              ("label", VStr "");
              ("instructions", VStr "");
              ("restrictions", VDict [])]);;
            add_field "social_auth_provider" (kw [
              ("field_type", VStr "hidden");
              ("label", VStr "");
              ("default",
                 VStr (if bool_decide (name current_provider ≠ "")
                       then name current_provider else "Third Party"));
              ("required", VBool false)])
        | None => ret ()
        end
    | None => ret ()
    end
  else ret ().

(** [field_options.get('field_type',
    FormDescription.FIELD_TYPE_MAP.get(field.__class__))] for one field of
    the registration extension form. *)
Definition custom_field_type (custom_form : CustomForm)
    (entry : string * FormField) : value :=
  let field_options :=
    default ∅ (serialization_options custom_form !! entry.1) in
  default (from_option VStr VNone (FIELD_TYPE_MAP env !! field_class entry.2))
          (field_options !! "field_type").

(** One field of the registration extension form. *)
Definition add_custom_field (custom_form : CustomForm)
    (entry : string * FormField) : M unit :=
  let '(field_name, field) := entry in
  let restrictions := [] in
  let restrictions :=
    if truthy (max_length field)
    then restrictions ++ [("max_length", max_length field)]
    else restrictions in
  let restrictions :=
    if truthy (min_length field)
    then restrictions ++ [("min_length", min_length field)]
    else restrictions in
  let field_options :=
    default ∅ (serialization_options custom_form !! field_name) in
  let field_type := custom_field_type custom_form entry in
  if negb (truthy field_type)
  then raise (ImproperlyConfigured
         ("Field type '" +:+ py_str field_type
          +:+ "' not recognized for registration extension field '"
          +:+ field_name +:+ "'."))
  else add_field field_name (kw [
         ("label", label field);
         ("default", default VNone (field_options !! "default"));
         ("field_type", custom_field_type custom_form entry);
         ("placeholder", initial field);
         ("instructions", help_text field);
         ("required", VBool (required field));
         ("restrictions", VDict restrictions);
         ("options", choices field);
         ("error_messages", error_messages field);
         ("include_default_option",
            default VNone (field_options !! "include_default_option"))]).

(** What [get] does to the form description between creating it and
    serialising it. *)
Definition describe (self : RegistrationView) (request : HttpRequest)
    : M unit :=
  _apply_third_party_auth_overrides request;;
  match get_registration_extension_form env with
  | Some custom_form =>
      for_each DEFAULT_FIELDS (λ field_name,
        call_handler self field_name true);;
      for_each (form_fields custom_form) (add_custom_field custom_form);;
      for_each EXTRA_FIELDS (λ field_name,
        if _is_field_visible self field_name
        then call_handler self field_name (_is_field_required self field_name)
        else ret ())
  | None =>
      for_each (field_order self) (λ field_name,
        if bool_decide (field_name ∈ DEFAULT_FIELDS)
        then call_handler self field_name true
        else if _is_field_visible self field_name
        then call_handler self field_name (_is_field_required self field_name)
        else ret ())
  end.

Definition get (self : RegistrationView) (request : HttpRequest)
    : result HttpResponse :=
  let form_desc := new "post" (reverse env "user_api_registration") in
  match describe self request form_desc with
  | Ok (_, form_desc) =>
      Ok {| status_code := HTTP_200_OK;
            response_content := to_json form_desc;
            content_type := "application/json";
            logged_in_cookies := None |}
  | Raise e => Raise e
  end.

(** *** Submission *)

Definition NON_FIELD_ERRORS : string := "__all__".

Definition str_opt (o : option string) : string := default "None" o.

Definition user_message (message : string) : value :=
  VDict [("user_message", VStr message)].

(** [{field: [{"user_message": conflict_messages[field]}] for field in
    conflicts}], entry by entry. *)
Fixpoint conflict_errors (conflict_messages : gmap string string)
    (conflicts : list string) (errors : gmap string value)
    : result (gmap string value) :=
  match conflicts with
  | [] => Ok errors
  | field :: conflicts' =>
      match conflict_messages !! field with
      | Some message =>
          conflict_errors conflict_messages conflicts'
            (<[field := VList [user_message message]]> errors)
      | None => Raise (KeyError field)
      end
  end.

(** [err.message_dict]; a [ValidationError] without an error dictionary has
    no such attribute. *)
Definition message_dict (err : validation_error)
    : result (gmap string (list string)) :=
  match err with
  | ErrorDict d => Ok d
  | ErrorList _ => Raise (AttributeError "error_dict")
  end.

Definition post (request : HttpRequest) : list call * result HttpResponse :=
  let data := POST request in
  let email := data !! "email" in
  let username := data !! "username" in
  let conflicts := check_account_exists env email username in
  match conflicts with
  | _ :: _ =>
      match format (EMAIL_CONFLICT_MSG (accounts env))
                   {["email_address" := str_opt email]} with
      | Raise e => ([], Raise e)
      | Ok email_message =>
          match format (USERNAME_CONFLICT_MSG (accounts env))
                       {["username" := str_opt username]} with
          | Raise e => ([], Raise e)
          | Ok username_message =>
              let conflict_messages : gmap string string :=
                <["email" := email_message]>
                  {["username" := username_message]} in
              match conflict_errors conflict_messages conflicts ∅ with
              | Raise e => ([], Raise e)
              | Ok errors => ([], Ok (JsonResponse errors 409))
              end
          end
      end
  | [] =>
      let data :=
        match data !! "honor_code" with
        | Some honor_code =>
            if negb (String.eqb honor_code "")
               && bool_decide (data !! "terms_of_service" = None)
            then <["terms_of_service" := honor_code]> data
            else data
        | None => data
        end in
      let calls := [CreateAccountWithParams data] in
      match create_account_with_params env request data with
      | Created new_user =>
          let response := JsonResponse {["success" := VBool true]} 200 in
          (calls ++ [SetLoggedInCookies new_user],
           Ok {| status_code := status_code response;
                 response_content := response_content response;
                 content_type := content_type response;
                 logged_in_cookies := Some new_user |})
      | AccountValidationError field message =>
          (calls,
           Ok (JsonResponse {[field := VList [user_message message]]} 409))
      | ValidationError err =>
          match message_dict err with
          | Raise e => (calls, Raise e)
          | Ok d =>
              if bool_decide (is_Some (d !! NON_FIELD_ERRORS))
              then (calls, Raise AssertionError)
              else
                let errors :=
                  (λ error_list : list string,
                     VList ((λ error, user_message error) <$> error_list))
                    <$> d in
                (calls, Ok (JsonResponse errors 400))
          end
      | PermissionDenied =>
          (calls, Ok (HttpResponseForbidden "Account creation not allowed."))
      end
  end.

End WithEnvironment.

End RegistrationView.

(** ** UpdateEmailOptInPreference *)

Module UpdateEmailOptInPreference.

Section WithEnvironment.
Context (env : Environment).

(** The byte string ["No course '{course_id}' found"]. *)
Definition NO_COURSE_FOUND : template :=
  [Lit "No course '"; Field "course_id"; Lit "' found"].

(** The body of [post]; [require_post_params] and [ensure_csrf_cookie] wrap
    it and are not part of it.  [course_id] is text of the request. *)
Definition post (request : HttpRequest) : list call * result HttpResponse :=
  match data request !! "course_id" with
  | None => ([], Raise (KeyError "course_id"))
  | Some course_id =>
      match from_string env course_id with
      | None =>
          match str_format NO_COURSE_FOUND {["course_id" := course_id]} with
          | Raise e => ([], Raise e)
          | Ok text =>
              ([], Ok {| status_code := 400;
                         response_content := PlainText text;
                         content_type := "text/plain";
                         logged_in_cookies := None |})
          end
      | Some course_key =>
          let org := org course_key in
          match data request !! "email_opt_in" with
          | None => ([], Raise (KeyError "email_opt_in"))
          | Some raw =>
              let email_opt_in := bool_decide (lower raw = "true") in
              ([UpdateEmailOptIn (user request) org email_opt_in],
               Ok {| status_code := HTTP_200_OK;
                     response_content := NoContent;
                     content_type := "text/html; charset=utf-8";
                     logged_in_cookies := None |})
          end
      end
  end.

End WithEnvironment.

End UpdateEmailOptInPreference.

(** ** Stored preferences *)

(** Modelled from the spec: [preferences.api.update_email_opt_in] is not
    among the sources.  It "upserts a boolean opt-in preference for that
    organization"; the preference is identified by the user and the
    organization code. *)
Definition update_email_opt_in (who organization : string) (opt_in : bool)
    (preferences : gmap (string * string) bool) : gmap (string * string) bool :=
  <[(who, organization) := opt_in]> preferences.

(** The effect on the stored opt-in preferences of the calls a view made. *)
Definition perform (c : call) (preferences : gmap (string * string) bool)
    : gmap (string * string) bool :=
  match c with
  | UpdateEmailOptIn who organization opt_in =>
      update_email_opt_in who organization opt_in preferences
  | _ => preferences
  end.

Definition perform_all (calls : list call)
    (preferences : gmap (string * string) bool) : gmap (string * string) bool :=
  foldl (λ p c, perform c p) preferences calls.

(** ** Reading a response *)

Definition form_fields_of (response : HttpResponse) : list (gmap string value) :=
  match response_content response with
  | JsonForm _ _ fields => fields
  | _ => []
  end.

Definition json_body_of (response : HttpResponse) : gmap string value :=
  match response_content response with
  | JsonObject body => body
  | _ => ∅
  end.

(** [s] occurs in [text]. *)
Definition mentions (text s : string) : Prop :=
  ∃ before after, text = before +:+ s +:+ after.

(** ** A sample deployment *)

Module Sample.

Definition sample_accounts : Accounts := {|
  EMAIL_MIN_LENGTH := 3; EMAIL_MAX_LENGTH := 254;
  NAME_MAX_LENGTH := 255;
  USERNAME_MIN_LENGTH := 2; USERNAME_MAX_LENGTH := 30;
  PASSWORD_MIN_LENGTH := 2; PASSWORD_MAX_LENGTH := 75;
  REQUIRED_FIELD_CONFIRM_EMAIL_MSG := "The email addresses do not match.";
  REQUIRED_FIELD_LEVEL_OF_EDUCATION_MSG := "Select the highest level of education you have completed.";
  REQUIRED_FIELD_MAILING_ADDRESS_MSG := "Enter your mailing address.";
  REQUIRED_FIELD_GOALS_MSG := "Tell us your goals.";
  REQUIRED_FIELD_CITY_MSG := "Enter your city.";
  REQUIRED_FIELD_COUNTRY_MSG := "Select your country or region of residence.";
  EMAIL_CONFLICT_MSG :=
    [Lit "It looks like "; Field "email_address";
     Lit " belongs to an existing account. Try again with a different email address."];
  USERNAME_CONFLICT_MSG :=
    [Lit "It looks like "; Field "username";
     Lit " belongs to an existing account. Try again with a different username."];
|}.

Definition provider : Provider := {|
  name := "Example IdP";
  skip_registration_form := true;
  get_register_form_data := λ _,
    kw [("email", VStr "pat@example.com"); ("username", VStr "")];
|}.

Definition pipeline : Pipeline :=
  {| backend := "tpa-saml"; pipeline_kwargs := VDict [] |}.

Definition request (post_data : list (string * string))
    (running : option Pipeline) : HttpRequest := {|
  POST := list_to_map post_data;
  data := list_to_map post_data;
  user := "pat";
  running_pipeline := running;
|}.

(** A deployment with the given extra-field setting, field order, extension
    form and account-creation collaborator. *)
Definition env (extra_fields : list (string * string))
    (order : list string) (form : option CustomForm)
    (known : list string) (creation : account_creation) : Environment := {|
  settings := {| REGISTRATION_EXTRA_FIELDS := list_to_map extra_fields;
                 REGISTRATION_FIELD_ORDER := order;
                 PLATFORM_NAME := "edX" |};
  site := {| site_REGISTRATION_EXTRA_FIELDS := None;
             site_REGISTRATION_FIELD_ORDER := None;
             site_PLATFORM_NAME := None |};
  accounts := sample_accounts;
  LEVEL_OF_EDUCATION_CHOICES := [("p", "Doctorate"); ("b", "Bachelor's degree")];
  GENDER_CHOICES := [("m", "Male"); ("f", "Female"); ("o", "Other")];
  VALID_YEARS := [2017; 2016]%Z;
  countries := [("FR", "France"); ("US", "United States")];
  marketing_link := λ page, "/" +:+ page;
  reverse := λ view, "/user_api/v1/registration/";
  FIELD_TYPE_MAP := list_to_map [("CharField", "text"); ("ChoiceField", "select")];
  get_registration_extension_form := form;
  third_party_auth_is_enabled := true;
  get_from_pipeline := λ _, Some provider;
  enterprise_customer_for_request := λ _, VStr "enterprise";
  check_account_exists := λ email username,
    (if bool_decide (email ∈ (Some <$> known)) then ["email"] else [])
    ++ (if bool_decide (username ∈ (Some <$> known)) then ["username"] else []);
  create_account_with_params := λ _ _, creation;
  from_string := λ course_id,
    if bool_decide (course_id = "course-v1:edX+DemoX+2017")
    then Some {| org := "edX"; course := "DemoX"; run := "2017" |}
    else None;
  (* every text of the sample data that reaches [upper] is ASCII *)
  unicode_upper := λ s, s;
|}.

Definition extension_form : CustomForm := {|
  form_fields := [("favorite_movie",
    {| field_class := "CharField"; label := VStr "Fav Flick";
       initial := VNone; help_text := VStr ""; required := false;
       max_length := VInt 40; min_length := VNone; choices := VNone;
       error_messages := VDict [] |})];
  serialization_options := ∅;
|}.

(** The default deployment, the view it constructs, and a request made in
    the middle of a third-party-auth pipeline. *)
Definition plain_env : Environment := env [] [] None [] PermissionDenied.

Definition view : RegistrationView.RegistrationView := {|
  RegistrationView._extra_fields_setting := {["honor_code" := "required"]};
  RegistrationView.field_order := RegistrationView.valid_fields;
|}.

Definition tpa_request : HttpRequest := request [] (Some pipeline).

(** A submission that ticks nothing: the honor code is sent empty. *)
Definition empty_honor_code_request : HttpRequest :=
  request [("email", "pat@example.com"); ("username", "pat");
           ("honor_code", "")] None.

(** A deployment in which account creation rejects the username for two
    reasons. *)
Definition USERNAME_TOO_SHORT : string :=
  "Username must be minimum of two characters long".

Definition USERNAME_INVALID : string :=
  "Usernames can only contain Roman letters, western numerals (0-9), underscores (_), and hyphens (-).".

Definition two_errors_env : Environment :=
  env [] [] None []
    (ValidationError
       (ErrorDict {["username" := [USERNAME_TOO_SHORT; USERNAME_INVALID]]})).

Definition short_username_request : HttpRequest :=
  request [("email", "pat@example.com"); ("username", "!")] None.

(** A deployment in which one email address is taken. *)
Definition taken_env : Environment :=
  env [] [] None ["pat@example.com"] PermissionDenied.

Definition taken_email_request : HttpRequest :=
  request [("email", "pat@example.com"); ("username", "pat")] None.

(** A deployment in which that address and the user name pat are taken, and
    a submission of the user name with a fresh address. *)
Definition taken_both_env : Environment :=
  env [] [] None ["pat@example.com"; "pat"] PermissionDenied.

Definition taken_name_request : HttpRequest :=
  request [("email", "sam@example.com"); ("username", "pat")] None.

(** Opt-in submissions. *)
Definition opt_in_request : HttpRequest :=
  request [("course_id", "course-v1:edX+DemoX+2017"); ("email_opt_in", "True")]
          None.

Definition bad_course_request : HttpRequest :=
  request [("course_id", "no such course"); ("email_opt_in", "True")] None.

(** The same with a course id outside ASCII: the last letter is e with an
    acute accent, two bytes in UTF-8. *)
Definition accented_course_request : HttpRequest :=
  request [("course_id", "café"); ("email_opt_in", "True")] None.

(** A deployment whose setting has a key the view does not know. *)
Definition unknown_key_env : Environment :=
  env [("favourite_colour", "mauve")] [] None [] PermissionDenied.

(** A deployment that marks the city neither required, optional nor
    hidden. *)
Definition bad_city_env : Environment :=
  env [("city", "mandatory")] [] None [] PermissionDenied.

(** A deployment with an optional city, a required country and a field
    order of its own; one with the sample extension form. *)
Definition city_env : Environment :=
  env [("city", "optional"); ("country", "required");
       ("terms_of_service", "hidden")]
      ["username"; "email"; "password"; "name"; "honor_code"; "country";
       "city"; "confirm_email"; "first_name"; "last_name"; "state";
       "gender"; "year_of_birth"; "level_of_education"; "company"; "title";
       "mailing_address"; "goals"; "terms_of_service"]
      None [] PermissionDenied.

Definition extension_env : Environment :=
  env [("city", "optional")] [] (Some extension_form) [] PermissionDenied.

(** The view a deployment constructs. *)
Definition view_of (e : Environment) : RegistrationView.RegistrationView :=
  match RegistrationView.__init__ e with
  | Ok self => self
  | Raise _ => view
  end.

Definition plain_request : HttpRequest := request [] None.

End Sample.

(** ** Vocabulary of the statements *)

Section Vocabulary.
Context (env : Environment).

(** The provider of the request's running pipeline, when third-party auth
    is enabled, a pipeline is running and its provider is registered. *)
Definition current_provider (request : HttpRequest) : option Provider :=
  if third_party_auth_is_enabled env
  then running_pipeline request ≫= get_from_pipeline env
  else None.

(** The values that provider supplies for the registration form. *)
Definition register_form_data (request : HttpRequest) : gmap string value :=
  match running_pipeline request, current_provider request with
  | Some running, Some provider =>
      get_register_form_data provider (pipeline_kwargs running)
  | _, _ => ∅
  end.

(** The provider skips the registration form and the request is in an
    enterprise context. *)
Definition hides_registration_fields (request : HttpRequest) : bool :=
  match current_provider request with
  | Some provider =>
      skip_registration_form provider
      && truthy (enterprise_customer_for_request env request)
  | None => false
  end.

(** Every field of the registration extension form, if there is one, has a
    field type. *)
Definition extension_form_typed : bool :=
  match get_registration_extension_form env with
  | Some custom_form =>
      forallb (λ entry,
                 truthy (RegistrationView.custom_field_type env custom_form entry))
              (form_fields custom_form)
  | None => true
  end.

(** The country the provider supplies, if any, is a string or is falsy. *)
Definition country_is_text (request : HttpRequest) : bool :=
  match register_form_data request !! "country" with
  | None | Some (VStr _) => true
  | Some v => negb (truthy v)
  end.

(** The overrides in force when [get] starts adding fields. *)
Definition initial_overrides (request : HttpRequest)
    : gmap string (gmap string value) :=
  match RegistrationView._apply_third_party_auth_overrides env request
          (new "post" (reverse env "user_api_registration")) with
  | Ok (_, form_desc) => _field_overrides form_desc
  | Raise _ => ∅
  end.

End Vocabulary.

(** Every default field is in the form and is marked required. *)
Definition default_fields_required (response : HttpResponse) : Prop :=
  ∀ n, n ∈ RegistrationView.DEFAULT_FIELDS →
    ∃ f, f ∈ form_fields_of response ∧ f !! "name" = Some (VStr n)
      ∧ f !! "required" = Some (VBool true).

(** A field is hidden, with blank label and instructions. *)
Definition hidden_and_blank (f : gmap string value) : Prop :=
  f !! "type" = Some (VStr "hidden")
  ∧ f !! "label" = Some (VStr "")
  ∧ f !! "instructions" = Some (VStr "").

(** Every field but the two checkboxes is hidden and blank. *)
Definition all_but_terms_hidden (response : HttpResponse) : Prop :=
  ∀ f, f ∈ form_fields_of response →
    f !! "name" ≠ Some (VStr "terms_of_service") →
    f !! "name" ≠ Some (VStr "honor_code") →
    hidden_and_blank f.

(** Boolean readings of a field's properties, for evaluating a form. *)
Definition is_str (o : option value) (s : string) : bool :=
  match o with
  | Some (VStr s') => String.eqb s' s
  | _ => false
  end.

Definition is_bool (o : option value) (b : bool) : bool :=
  match o with
  | Some (VBool b') => Bool.eqb b' b
  | _ => false
  end.

Definition default_fields_requiredb (response : HttpResponse) : bool :=
  forallb (λ n,
      existsb (λ f, is_str (f !! "name") n && is_bool (f !! "required") true)
              (form_fields_of response))
    RegistrationView.DEFAULT_FIELDS.

Definition hidden_and_blankb (f : gmap string value) : bool :=
  is_str (f !! "type") "hidden" && is_str (f !! "label") ""
  && is_str (f !! "instructions") "".

Definition all_but_terms_hiddenb (response : HttpResponse) : bool :=
  forallb (λ f,
      is_str (f !! "name") "terms_of_service"
      || is_str (f !! "name") "honor_code"
      || hidden_and_blankb f)
    (form_fields_of response).

(** The response of a view that returned one. *)
Definition is_ok {A} (r : result A) : bool :=
  match r with
  | Ok _ => true
  | Raise _ => false
  end.

Definition response_of (r : result HttpResponse) : HttpResponse :=
  match r with
  | Ok response => response
  | Raise _ =>
      {| status_code := 500; response_content := NoContent;
         content_type := ""; logged_in_cookies := None |}
  end.

(** The values of the extra-field setting. *)
Definition VISIBILITY : list string := ["required"; "optional"; "hidden"].

(** ** Invariants of a form description under construction *)

Section Invariants.

Implicit Types (fd : FormDescription) (ovs base : gmap string (gmap string value)).
Implicit Types (f : gmap string value) (n k : string).

(** Only overridable properties are ever recorded. *)
Definition keys_ok ovs : Prop :=
  ∀ n k, is_Some ((ovs !!! n) !! k) → k ∈ OVERRIDE_FIELD_PROPERTIES.

(** [ovs] agrees with [base] everywhere but, possibly, on the default value
    of the country. *)
Definition same_but_country base ovs : Prop :=
  ∀ n k, (n, k) ≠ ("country", "defaultValue") →
    (ovs !!! n) !! k = (base !!! n) !! k.

(** An overridden, truthy default country is a string. *)
Definition country_ok ovs : Prop :=
  ∀ v, (ovs !!! "country") !! "defaultValue" = Some v →
    truthy v = true → ∃ s, v = VStr s.

(** A field dictionary carries its name and every property that [base]
    overrides for that name. *)
Definition field_ok base f : Prop :=
  ∃ n, f !! "name" = Some (VStr n)
    ∧ ∀ k v, (n, k) ≠ ("country", "defaultValue") →
        (base !!! n) !! k = Some v → f !! k = Some v.

(** The overrides that hide a field and blank its label and instructions. *)
Definition hidden_at ovs n : Prop :=
  (ovs !!! n) !! "type" = Some (VStr "hidden")
  ∧ (ovs !!! n) !! "label" = Some (VStr "")
  ∧ (ovs !!! n) !! "instructions" = Some (VStr "").

(** The overrides that replace the password field by a hidden, optional,
    empty one. *)
Definition password_hidden ovs : Prop :=
  hidden_at ovs "password"
  ∧ (ovs !!! "password") !! "defaultValue" = Some (VStr "")
  ∧ (ovs !!! "password") !! "required" = Some (VBool false)
  ∧ (ovs !!! "password") !! "restrictions" = Some (VDict []).

(** What holds of the overrides while the provider's values are recorded. *)
Definition provider_inv (field_overrides : gmap string value) fd : Prop :=
  fields fd = []
  ∧ keys_ok (_field_overrides fd)
  ∧ (∀ n, (_field_overrides fd !!! n) !! "required" = None)
  ∧ (∀ n v, (_field_overrides fd !!! n) !! "defaultValue" = Some v →
       field_overrides !! n = Some v).

(** The keyword arguments of the override that hides the password field. *)
Definition password_kwargs : gmap string value :=
  kw [("default", VStr ""); ("field_type", VStr "hidden");
      ("required", VBool false); ("label", VStr "");
      ("instructions", VStr ""); ("restrictions", VDict [])].

Definition form_inv base fd : Prop :=
  same_but_country base (_field_overrides fd)
  ∧ country_ok (_field_overrides fd)
  ∧ Forall (field_ok base) (fields fd).

(** What calling the handler of field [n] with [required=r] achieves. *)
Definition handler_post base n (r : bool) fd (c : M unit) : Prop :=
  ∃ fd' f, c fd = Ok ((), fd')
    ∧ form_inv base fd'
    ∧ fields fd' = fields fd ++ [f]
    ∧ f !! "name" = Some (VStr n)
    ∧ ((base !!! n) !! "required" = None → f !! "required" = Some (VBool r)).

(** The form has a field named [n], required as [r] says unless [base]
    overrides that. *)
Definition has_field base n (r : bool) (l : list (gmap string value)) : Prop :=
  ∃ f, f ∈ l ∧ f !! "name" = Some (VStr n)
    ∧ ((base !!! n) !! "required" = None → f !! "required" = Some (VBool r)).

(** Fields are only ever appended. *)
Definition grows fd fd' : Prop := ∀ f, f ∈ fields fd → f ∈ fields fd'.

End Invariants.

(** * Further views *)

(** ** LoginSessionView *)

Module LoginSessionView.

Section WithEnvironment.
Context (env : Environment).

(** The form description [get] builds before serialising it. *)
Definition describe : M unit :=
  add_field "email" (kw [
    ("field_type", VStr "email");
    ("label", VStr "Email");
    ("placeholder", VStr "username@domain.com");
    ("instructions",
       VStr ("The email address you used to register with "
             +:+ RegistrationView.platform_name env));
    ("restrictions", VDict [
       ("min_length", VInt (EMAIL_MIN_LENGTH (accounts env)));
       ("max_length", VInt (EMAIL_MAX_LENGTH (accounts env)))])]);;
  add_field "password" (kw [
    ("label", VStr "Password");
    ("field_type", VStr "password");
    ("restrictions", VDict [
       ("min_length", VInt (PASSWORD_MIN_LENGTH (accounts env)));
       ("max_length", VInt (PASSWORD_MAX_LENGTH (accounts env)))])]);;
  add_field "remember" (kw [
    ("field_type", VStr "checkbox");
    ("label", VStr "Remember me");
    ("default", VBool false);
    ("required", VBool false)]).

Definition get (request : HttpRequest) : result HttpResponse :=
  let form_desc := new "post" (reverse env "user_api_login_session") in
  match describe form_desc with
  | Ok (_, form_desc) =>
      Ok {| status_code := HTTP_200_OK;
            response_content := to_json form_desc;
            content_type := "application/json";
            logged_in_cookies := None |}
  | Raise e => Raise e
  end.

End WithEnvironment.

End LoginSessionView.

(** ** PasswordResetView *)

Module PasswordResetView.

Section WithEnvironment.
Context (env : Environment).

Definition describe : M unit :=
  add_field "email" (kw [
    ("field_type", VStr "email");
    ("label", VStr "Email");
    ("placeholder", VStr "username@domain.com");
    ("instructions",
       VStr ("The email address you used to register with "
             +:+ RegistrationView.platform_name env));
    ("restrictions", VDict [
       ("min_length", VInt (EMAIL_MIN_LENGTH (accounts env)));
       ("max_length", VInt (EMAIL_MAX_LENGTH (accounts env)))])]).

Definition get (request : HttpRequest) : result HttpResponse :=
  let form_desc := new "post" (reverse env "password_change_request") in
  match describe form_desc with
  | Ok (_, form_desc) =>
      Ok {| status_code := HTTP_200_OK;
            response_content := to_json form_desc;
            content_type := "application/json";
            logged_in_cookies := None |}
  | Raise e => Raise e
  end.

End WithEnvironment.

End PasswordResetView.

(** ** ForumRoleUsersListView *)

Module ForumRoleUsersListView.

(** A row of the forum roles table with the names of its users. *)
Record Role := {
  role_course_id : string;
  role_name : string;
  role_users : list string;
}.

(** How [get_queryset] ends: with the users of the role, or with one of the
    exceptions it lets through. *)
Inductive outcome :=
  | Users (users : list string)
  | ParseError (detail : string)
  | InvalidKeyError
  | MultipleObjectsReturned
  | MissingKwarg (key : string).

Definition matches (course_id name : string) (role : Role) : bool :=
  String.eqb (role_course_id role) course_id
  && String.eqb (role_name role) name.

(** [Role.objects.get_or_create(course_id=course_id, name=name)[0]] on the
    rows of the table: the only matching row, or a new row without users
    appended to the table; two matching rows make [get] raise. *)
Definition get_or_create (course_id name : string) (roles : list Role)
    : option Role * list Role :=
  match List.filter (matches course_id name) roles with
  | [] =>
      let role := {| role_course_id := course_id; role_name := name;
                     role_users := [] |} in
      (Some role, roles ++ [role])
  | [role] => (Some role, roles)
  | _ => (None, roles)
  end.

Section WithParser.
(** [SlashSeparatedCourseKey.from_deprecated_string], as the string of the
    key it parses; [None] when it raises [InvalidKeyError]. *)
Context (from_deprecated_string : string → option string).

Definition get_queryset (kwargs query_params : gmap string string)
    (roles : list Role) : outcome * list Role :=
  match kwargs !! "name" with
  | None => (MissingKwarg "name", roles)
  | Some name =>
      match query_params !! "course_id" with
      | None | Some "" => (ParseError "course_id must be specified", roles)
      | Some course_id_string =>
          match from_deprecated_string course_id_string with
          | None => (InvalidKeyError, roles)
          | Some course_id =>
              match get_or_create course_id name roles with
              | (Some role, roles') => (Users (role_users role), roles')
              | (None, roles') => (MultipleObjectsReturned, roles')
              end
          end
      end
  end.

End WithParser.

End ForumRoleUsersListView.

(** * Vocabulary for whole forms *)

Section FormVocabulary.
Context (env : Environment).

(** The field a computation adds to a form description that has no
    overrides. *)
Definition first_field (c : M unit) : option (gmap string value) :=
  match c (new "" "") with
  | Ok (_, form_desc) => head (fields form_desc)
  | Raise _ => None
  end.

(** The field the handler of [n] adds when nothing is overridden. *)
Definition pristine (self : RegistrationView.RegistrationView) (n : string)
    (r : bool) : option (gmap string value) :=
  first_field (RegistrationView.call_handler env self n r).

(** [f] is [p] with the overrides of [n] in [base] applied, up to the
    default country. *)
Definition overlaid (base : gmap string (gmap string value)) (n : string)
    (f p : gmap string value) : Prop :=
  ∃ ov : gmap string value, f = ov ∪ p
    ∧ ∀ k, (n, k) ≠ ("country", "defaultValue") → ov !! k = (base !!! n) !! k.

(** [f] is the field the handler of [n] adds under the overrides [base]. *)
Definition handler_field (self : RegistrationView.RegistrationView)
    (base : gmap string (gmap string value)) (n : string) (r : bool)
    (f : gmap string value) : Prop :=
  ∃ p, pristine self n r = Some p
    ∧ p !! "name" = Some (VStr n)
    ∧ p !! "required" = Some (VBool r)
    ∧ overlaid base n f p.

(** What running a handler of [n] achieves, with the field it adds. *)
Definition exact_post (base : gmap string (gmap string value)) (n : string)
    (r : bool) (fd : FormDescription) (c : M unit) : Prop :=
  ∃ fd' f p, c fd = Ok ((), fd')
    ∧ form_inv base fd'
    ∧ fields fd' = fields fd ++ [f]
    ∧ first_field c = Some p
    ∧ p !! "name" = Some (VStr n)
    ∧ p !! "required" = Some (VBool r)
    ∧ overlaid base n f p.

(** Whether [get] adds the field [n], and how it passes [required]. *)
Definition shown (self : RegistrationView.RegistrationView) (n : string)
    : bool :=
  bool_decide (n ∈ RegistrationView.DEFAULT_FIELDS)
  || RegistrationView._is_field_visible self n.

Definition shown_required (self : RegistrationView.RegistrationView)
    (n : string) : bool :=
  if bool_decide (n ∈ RegistrationView.DEFAULT_FIELDS) then true
  else RegistrationView._is_field_required self n.

(** The fields in the form when [get] starts adding fields. *)
Definition initial_fields (request : HttpRequest)
    : list (gmap string value) :=
  match RegistrationView._apply_third_party_auth_overrides env request
          (new "post" (reverse env "user_api_registration")) with
  | Ok (_, form_desc) => fields form_desc
  | Raise _ => []
  end.

(** What the loop over the provider's values records for one field
    name. *)
Definition provider_overrides (field_overrides : gmap string value)
    (hide : bool) (n : string) : gmap string value :=
  match field_overrides !! n with
  | Some v =>
      (if bool_decide (n ∉ ["terms_of_service"; "honor_code"])
          && truthy v && hide
       then kw [("type", VStr "hidden"); ("label", VStr "");
                ("instructions", VStr "")]
       else ∅)
      ∪ {["defaultValue" := v]}
  | None => ∅
  end.

(** The field that tells the client a third-party-auth pipeline is
    running. *)
Definition social_auth_field (provider : Provider) : gmap string value :=
  field_dict "social_auth_provider" (kw [
    ("field_type", VStr "hidden");
    ("label", VStr "");
    ("default",
       VStr (if bool_decide (name provider ≠ "")
             then name provider else "Third Party"));
    ("required", VBool false)]).

(** The overrides of the password field. *)
Definition password_overrides : gmap string value :=
  kw [("defaultValue", VStr ""); ("type", VStr "hidden");
      ("required", VBool false); ("label", VStr "");
      ("instructions", VStr ""); ("restrictions", VDict [])].

End FormVocabulary.

(** The spellings of "true", in any mix of upper and lower case. *)
Definition TRUE_SPELLINGS : list string :=
  c1 ← ["t"; "T"]; c2 ← ["r"; "R"]; c3 ← ["u"; "U"]; c4 ← ["e"; "E"];
  [c1 +:+ c2 +:+ c3 +:+ c4].

(** The names of the fields of a form, in order. *)
Definition field_names (l : list (gmap string value)) : list (option value) :=
  (λ f, f !! "name") <$> l.

Definition names (l : list string) : list (option value) :=
  (λ n, Some (VStr n)) <$> l.

(** * Properties *)

(** Evaluate the lookups of a key in a dictionary literal. *)
Ltac eval_lookup :=
  repeat match goal with
  | |- context [kw ?l !! ?k] =>
      let r := eval vm_compute in (kw l !! k) in
      change (kw l !! k) with r
  end.


(** ** The form description helper *)

Section HelperFacts.

Implicit Types (fd : FormDescription) (ovs base : gmap string (gmap string value)).
Implicit Types (kwargs f : gmap string value) (n k : string).

Lemma no_overrides n : (∅ : gmap string (gmap string value)) !!! n = ∅.
Proof. rewrite lookup_total_alt, lookup_empty. reflexivity. Qed.

Lemma keys_ok_empty : keys_ok ∅.
Proof.
  intros n k [v Hv]. rewrite no_overrides, lookup_empty in Hv. done.
Qed.

Lemma overridden_properties_keys kwargs k :
  is_Some (overridden_properties kwargs !! k) → k ∈ OVERRIDE_FIELD_PROPERTIES.
Proof.
  intros [v Hv]. unfold overridden_properties in Hv.
  apply map_lookup_filter_Some in Hv as [_ Hk]. exact Hk.
Qed.

Lemma override_run field_name kwargs fd :
  ∃ fd', override_field_properties field_name kwargs fd = Ok ((), fd')
    ∧ fields fd' = fields fd
    ∧ ∀ n k, (_field_overrides fd' !!! n) !! k =
        if decide (n = field_name)
        then match overridden_properties kwargs !! k with
             | Some v => Some v
             | None => (_field_overrides fd !!! n) !! k
             end
        else (_field_overrides fd !!! n) !! k.
Proof.
  eexists. split; [reflexivity|]. split; [reflexivity|].
  intros n k. simpl. case_decide as Hn.
  - subst n. rewrite lookup_total_insert_eq.
    destruct (overridden_properties kwargs !! k) eqn:Hk.
    + by apply lookup_union_Some_l.
    + by apply lookup_union_r.
  - by rewrite lookup_total_insert_ne.
Qed.

Lemma override_keys_ok field_name kwargs fd fd' :
  override_field_properties field_name kwargs fd = Ok ((), fd') →
  keys_ok (_field_overrides fd) → keys_ok (_field_overrides fd').
Proof.
  intros Hrun Hok n k Hsome.
  destruct (override_run field_name kwargs fd) as (fd2 & Hrun2 & _ & Hlk).
  rewrite Hrun in Hrun2. injection Hrun2 as <-.
  rewrite Hlk in Hsome. case_decide; [|by eapply Hok].
  destruct (overridden_properties kwargs !! k) eqn:Hk; [|by eapply Hok].
  apply (overridden_properties_keys kwargs). by rewrite Hk.
Qed.


Lemma field_dict_name name kwargs :
  field_dict name kwargs !! "name" = Some (VStr name).
Proof.
  unfold field_dict. destruct (given kwargs "options"); reflexivity.
Qed.

Lemma field_dict_required name kwargs :
  field_dict name kwargs !! "required"
  = Some (arg kwargs "required" (VBool true)).
Proof.
  unfold field_dict. destruct (given kwargs "options"); reflexivity.
Qed.

Lemma same_but_country_refl base : same_but_country base base.
Proof. by intros n k _. Qed.

Lemma add_field_spec base name kwargs fd :
  keys_ok base → form_inv base fd →
  ∃ fd' f, add_field name kwargs fd = Ok ((), fd')
    ∧ _field_overrides fd' = _field_overrides fd
    ∧ form_inv base fd'
    ∧ fields fd' = fields fd ++ [f]
    ∧ f !! "name" = Some (VStr name)
    ∧ ((base !!! name) !! "required" = None →
       f !! "required" = Some (arg kwargs "required" (VBool true))).
Proof.
  intros Hkeys (Hsame & Hcountry & Hfields).
  assert (Hname : (_field_overrides fd !!! name) !! "name" = None).
  { rewrite Hsame by (intros [=]).
    destruct ((base !!! name) !! "name") eqn:E; [|done].
    assert (Hin : "name" ∈ OVERRIDE_FIELD_PROPERTIES) by (eapply Hkeys; eauto).
    exfalso. revert Hin. compute_done. }
  eexists _, _. split; [reflexivity|]. simpl.
  assert (Hf : ((_field_overrides fd !!! name) ∪ field_dict name kwargs) !! "name"
               = Some (VStr name)).
  { rewrite lookup_union_r by done. apply field_dict_name. }
  repeat split; try done.
  - apply Forall_app. split; [done|]. apply Forall_singleton.
    exists name. split; [done|]. intros k v Hne Hv.
    apply lookup_union_Some_l. by rewrite Hsame.
  - intros Hreq. rewrite lookup_union_r; [apply field_dict_required|].
    rewrite Hsame by (intros [=]). done.
Qed.

Lemma bind_run {A B} (c : M A) (k : A → M B) fd a fd' :
  c fd = Ok (a, fd') → (c ≫= k) fd = k a fd'.
Proof. intros Hc. unfold mbind, M_bind, bind. by rewrite Hc. Qed.

(** A loop over a list: an invariant [P], a transitive record [S] of what
    an iteration may change, and per-element facts [Q] that later
    iterations keep. *)
Lemma for_each_spec {A} (P : FormDescription → Prop)
    (S : FormDescription → FormDescription → Prop)
    (Q : A → FormDescription → Prop) (l : list A) (body : A → M unit) :
  (∀ fd, S fd fd) →
  (∀ fd1 fd2 fd3, S fd1 fd2 → S fd2 fd3 → S fd1 fd3) →
  (∀ x fd fd', Q x fd → S fd fd' → Q x fd') →
  (∀ x fd, x ∈ l → P fd →
     ∃ fd', body x fd = Ok ((), fd') ∧ P fd' ∧ S fd fd' ∧ Q x fd') →
  ∀ fd, P fd →
    ∃ fd', for_each l body fd = Ok ((), fd') ∧ P fd' ∧ S fd fd'
      ∧ ∀ x, x ∈ l → Q x fd'.
Proof.
  intros Hrefl Htrans Hstable. induction l as [|x l IH]; intros Hbody fd HP.
  - exists fd. repeat split; auto. intros x Hx. by apply elem_of_nil in Hx.
  - destruct (Hbody x fd) as (fd1 & Hrun & HP1 & HS1 & HQ1);
      [left | done |].
    destruct IH with (fd := fd1) as (fd2 & Hrest & HP2 & HS2 & HQ2).
    { intros y fd0 Hy. apply Hbody. by right. }
    { done. }
    exists fd2. repeat split.
    + simpl. unfold bind. by rewrite Hrun.
    + done.
    + by eapply Htrans.
    + intros y [-> | Hy]%elem_of_cons; [by eapply Hstable | by apply HQ2].
Qed.

Lemma overridden_default v :
  overridden_properties (kw [("default", v)]) = {["defaultValue" := v]}.
Proof. reflexivity. Qed.

End HelperFacts.

(** ** The field handlers *)

Section HandlerFacts.
Context (env : Environment).

Implicit Types (fd : FormDescription) (base : gmap string (gmap string value)).
Implicit Types (self : RegistrationView.RegistrationView).

Import RegistrationView.

Lemma simple_handler base n kwargs r fd :
  kwargs !! "required" = Some (VBool r) →
  keys_ok base → form_inv base fd →
  handler_post base n r fd (add_field n kwargs).
Proof.
  intros Hreq Hkeys Hinv.
  destruct (add_field_spec base n kwargs fd)
    as (fd' & f & H1 & _ & H2 & H3 & H4 & H5);
    [done..|].
  exists fd', f. refine (conj H1 (conj H2 (conj H3 (conj H4 _)))).
  intros Hnone. rewrite H5 by done. unfold arg. by rewrite Hreq.
Qed.

Lemma handler_post_step base n r fd fd1 (c c1 : M unit) :
  c fd = c1 fd1 → fields fd1 = fields fd →
  handler_post base n r fd1 c1 → handler_post base n r fd c.
Proof.
  intros Heq Hfields (fd' & f & H1 & H2 & H3 & H4 & H5).
  exists fd', f. rewrite Heq, <- Hfields. done.
Qed.

Lemma country_handler base r fd :
  keys_ok base → form_inv base fd →
  handler_post base "country" r fd (_add_country_field env r).
Proof.
  intros Hkeys (Hsame & Hcountry & Hfields).
  assert (Htotal : default ∅ (_field_overrides fd !! "country")
                   = _field_overrides fd !!! "country")
    by by rewrite lookup_total_alt.
  destruct (truthy (default VNone
              ((_field_overrides fd !!! "country") !! "defaultValue")))
    eqn:Htruthy.
  - destruct ((_field_overrides fd !!! "country") !! "defaultValue")
      as [v|] eqn:Hv; [|done]. change (truthy v = true) in Htruthy.
    destruct (Hcountry v) as [s ->]; [done..|].
    destruct (override_run "country"
                (kw [("default",
                      VStr (if is_ascii s then upper s
                            else unicode_upper env s))]) fd)
      as (fd1 & Hrun & Hf1 & Hlk).
    eapply (handler_post_step _ _ _ _ fd1 _ (add_field "country" _)).
    + unfold _add_country_field. erewrite bind_run by reflexivity.
      rewrite Htotal, Hv.
      change (default VNone (Some (VStr s))) with (VStr s). rewrite Htruthy.
      erewrite bind_run; [reflexivity|].
      erewrite bind_run by reflexivity. exact Hrun.
    + done.
    + apply simple_handler; [reflexivity | done |].
      split; [|split].
      * intros n k Hne. rewrite Hlk, overridden_default. case_decide; [|auto].
        subst n. rewrite lookup_singleton_ne by congruence. auto.
      * intros v. rewrite Hlk, overridden_default. simpl.
        rewrite lookup_singleton_eq. intros [= <-] _. eauto.
      * by rewrite Hf1.
  - eapply (handler_post_step _ _ _ _ fd _ (add_field "country" _)).
    + unfold _add_country_field. erewrite bind_run by reflexivity.
      rewrite Htotal, Htruthy.
      erewrite bind_run by reflexivity. reflexivity.
    + done.
    + apply simple_handler; [reflexivity | done | done].
Qed.

Lemma field_handlers_spec self n :
  n ∈ valid_fields →
  ∃ handler, field_handlers env self !! n = Some handler
    ∧ ∀ base r fd, keys_ok base → form_inv base fd →
        handler_post base n r fd (handler r).
Proof.
  intros Hn.
  unfold valid_fields, DEFAULT_FIELDS, EXTRA_FIELDS in Hn. simpl in Hn.
  repeat (apply elem_of_cons in Hn as [-> | Hn]);
    [..| by apply elem_of_nil in Hn];
    (eexists; split; [reflexivity|]; cbn [snd]; intros base r fd Hkeys Hinv).
  all: try (apply country_handler; done).
  all: try (unfold _add_honor_code_field;
            destruct (_is_field_visible self "terms_of_service")).
  all: apply simple_handler; [reflexivity | done | done].
Qed.

Lemma call_handler_spec self base n r fd :
  n ∈ valid_fields → keys_ok base → form_inv base fd →
  handler_post base n r fd (call_handler env self n r).
Proof.
  intros Hn Hkeys Hinv.
  destruct (field_handlers_spec self n Hn) as (handler & Hlookup & Hpost).
  unfold call_handler. rewrite Hlookup. by apply Hpost.
Qed.

End HandlerFacts.

(** ** Overrides from third-party auth *)

Section ProviderFacts.
Context (env : Environment).

Implicit Types (fd : FormDescription) (field_overrides : gmap string value).

Import RegistrationView.

Lemma overridden_hidden :
  overridden_properties (kw [("field_type", VStr "hidden");
                             ("label", VStr ""); ("instructions", VStr "")])
  = kw [("type", VStr "hidden"); ("label", VStr "");
        ("instructions", VStr "")].
Proof. reflexivity. Qed.

Lemma overridden_password :
  overridden_properties (kw [("default", VStr ""); ("field_type", VStr "hidden");
                             ("required", VBool false); ("label", VStr "");
                             ("instructions", VStr "");
                             ("restrictions", VDict [])])
  = kw [("defaultValue", VStr ""); ("type", VStr "hidden");
        ("required", VBool false); ("label", VStr "");
        ("instructions", VStr ""); ("restrictions", VDict [])].
Proof. reflexivity. Qed.

(** Recording a default keeps a field hidden. *)
Lemma override_default_hidden field_name v fd fd' n :
  override_field_properties field_name (kw [("default", v)]) fd = Ok ((), fd') →
  hidden_at (_field_overrides fd) n → hidden_at (_field_overrides fd') n.
Proof.
  intros Hrun (Htype & Hlabel & Hinstr).
  destruct (override_run field_name (kw [("default", v)]) fd)
    as (fd2 & Hrun2 & _ & Hlk).
  rewrite Hrun in Hrun2. injection Hrun2 as <-.
  unfold hidden_at. rewrite !Hlk, overridden_default.
  case_decide; [|done]. subst n.
  rewrite !lookup_singleton_ne by done. done.
Qed.

Lemma override_hide_hidden field_name fd fd' n :
  override_field_properties field_name (kw [("field_type", VStr "hidden");
    ("label", VStr ""); ("instructions", VStr "")]) fd = Ok ((), fd') →
  (n = field_name ∨ hidden_at (_field_overrides fd) n) →
  hidden_at (_field_overrides fd') n.
Proof.
  intros Hrun Hn.
  destruct (override_run field_name (kw [("field_type", VStr "hidden");
    ("label", VStr ""); ("instructions", VStr "")]) fd)
    as (fd2 & Hrun2 & _ & Hlk).
  rewrite Hrun in Hrun2. injection Hrun2 as <-.
  unfold hidden_at. rewrite !Hlk, overridden_hidden.
  case_decide as Heq; [done|].
  destruct Hn as [-> | Hn]; [done | exact Hn].
Qed.

Lemma override_from_provider_spec field_overrides hide n fd :
  provider_inv field_overrides fd →
  ∃ fd', override_from_provider field_overrides hide n fd = Ok ((), fd')
    ∧ provider_inv field_overrides fd'
    ∧ (∀ m, hidden_at (_field_overrides fd) m →
            hidden_at (_field_overrides fd') m)
    ∧ (∀ v, hide = true → n ∉ ["terms_of_service"; "honor_code"] →
            field_overrides !! n = Some v → truthy v = true →
            hidden_at (_field_overrides fd') n).
Proof.
  intros (Hfields & Hkeys & Hreq & Hdef).
  unfold override_from_provider.
  destruct (field_overrides !! n) as [v|] eqn:Hfo.
  2: { exists fd. split; [done|]. split; [done|]. split; [done|].
       intros v _ _ [=]. }
  destruct (override_run n (kw [("default", v)]) fd)
    as (fd1 & Hrun1 & Hf1 & Hlk1).
  assert (Hinv1 : provider_inv field_overrides fd1).
  { split; [congruence|]. split; [by eapply override_keys_ok|]. split.
    - intros m. rewrite Hlk1, overridden_default.
      case_decide; [|done]. rewrite lookup_singleton_ne by done. done.
    - intros m w. rewrite Hlk1, overridden_default.
      case_decide; [|by auto]. subst m. rewrite lookup_singleton_eq.
      by intros [= <-]. }
  erewrite bind_run by exact Hrun1.
  destruct (bool_decide (n ∉ ["terms_of_service"; "honor_code"])
            && truthy v && hide) eqn:Hcond.
  - destruct (override_run n (kw [("field_type", VStr "hidden");
        ("label", VStr ""); ("instructions", VStr "")]) fd1)
      as (fd2 & Hrun2 & Hf2 & Hlk2).
    destruct Hinv1 as (Hfields1 & Hkeys1 & Hreq1 & Hdef1).
    exists fd2. split; [done|]. split; [|split].
    + split; [congruence|]. split; [by eapply override_keys_ok|]. split.
      * intros m. rewrite Hlk2, overridden_hidden. eval_lookup.
        destruct (decide (m = n)); apply Hreq1.
      * intros m w. rewrite Hlk2, overridden_hidden. eval_lookup.
        destruct (decide (m = n)); by auto.
    + intros m Hm. eapply override_hide_hidden; [exact Hrun2|]. right.
      eapply override_default_hidden; [exact Hrun1 | exact Hm].
    + intros w _ _ _ _. eapply override_hide_hidden; [exact Hrun2|]. by left.
  - exists fd1. split; [done|]. split; [done|]. split.
    + intros m Hm. eapply override_default_hidden; [exact Hrun1 | exact Hm].
    + intros w Hhide Hn [= <-] Hw. exfalso.
      rewrite Hhide, Hw, bool_decide_eq_true_2 in Hcond by done. done.
Qed.

Lemma provider_loop field_overrides hide fd :
  provider_inv field_overrides fd →
  ∃ fd', for_each (DEFAULT_FIELDS ++ EXTRA_FIELDS)
           (override_from_provider field_overrides hide) fd = Ok ((), fd')
    ∧ provider_inv field_overrides fd'
    ∧ (hide = true → ∀ n v, n ∈ valid_fields →
         n ∉ ["terms_of_service"; "honor_code"] →
         field_overrides !! n = Some v → truthy v = true →
         hidden_at (_field_overrides fd') n).
Proof.
  intros Hinv.
  edestruct (for_each_spec (provider_inv field_overrides)
    (λ fd1 fd2, ∀ m, hidden_at (_field_overrides fd1) m →
                     hidden_at (_field_overrides fd2) m)
    (λ n fd1, ∀ v, hide = true → n ∉ ["terms_of_service"; "honor_code"] →
       field_overrides !! n = Some v → truthy v = true →
       hidden_at (_field_overrides fd1) n)
    (DEFAULT_FIELDS ++ EXTRA_FIELDS)
    (override_from_provider field_overrides hide))
    as (fd' & Hrun & Hinv' & _ & Hall).
  - auto.
  - auto.
  - intros n fd1 fd2 HQ HS v Hhide Hne Hv Htruthy. eauto.
  - intros n fd1 _ Hinv1. by apply override_from_provider_spec.
  - exact Hinv.
  - exists fd'. split; [done|]. split; [done|].
    intros Hhide n v Hn Hne Hv Htruthy. by eapply Hall.
Qed.

Lemma tpa_run_none request fd :
  current_provider env request = None →
  _apply_third_party_auth_overrides env request fd = Ok ((), fd).
Proof.
  unfold current_provider, _apply_third_party_auth_overrides.
  destruct (third_party_auth_is_enabled env); [|done].
  destruct (running_pipeline request) as [running|]; [|done]. simpl.
  by intros ->.
Qed.

Lemma tpa_run_some request provider fd :
  current_provider env request = Some provider →
  _apply_third_party_auth_overrides env request fd
  = (for_each (DEFAULT_FIELDS ++ EXTRA_FIELDS)
       (override_from_provider (register_form_data env request)
          (hides_registration_fields env request));;
     override_field_properties "password" password_kwargs;;
     add_field "social_auth_provider" (kw [
       ("field_type", VStr "hidden");
       ("label", VStr "");
       ("default",
          VStr (if bool_decide (name provider ≠ "")
                then name provider else "Third Party"));
       ("required", VBool false)])) fd.
Proof.
  unfold register_form_data, hides_registration_fields.
  unfold current_provider, _apply_third_party_auth_overrides.
  destruct (third_party_auth_is_enabled env); [|done].
  destruct (running_pipeline request) as [running|]; [|done]. simpl.
  by intros ->.
Qed.

Lemma tpa_spec request :
  country_is_text env request = true →
  ∃ fd, _apply_third_party_auth_overrides env request
          (new "post" (reverse env "user_api_registration")) = Ok ((), fd)
    ∧ _field_overrides fd = initial_overrides env request
    ∧ keys_ok (_field_overrides fd)
    ∧ form_inv (_field_overrides fd) fd
    ∧ (∀ n, n ≠ "password" ∨ current_provider env request = None →
         (_field_overrides fd !!! n) !! "required" = None)
    ∧ (is_Some (current_provider env request) →
         password_hidden (_field_overrides fd))
    ∧ (hides_registration_fields env request = true →
         ∀ n v, n ∈ valid_fields →
           n ∉ ["terms_of_service"; "honor_code"] →
           register_form_data env request !! n = Some v → truthy v = true →
           hidden_at (_field_overrides fd) n).
Proof.
  intros Hcountry.
  cut (∃ fd, _apply_third_party_auth_overrides env request
          (new "post" (reverse env "user_api_registration")) = Ok ((), fd)
    ∧ keys_ok (_field_overrides fd)
    ∧ form_inv (_field_overrides fd) fd
    ∧ (∀ n, n ≠ "password" ∨ current_provider env request = None →
         (_field_overrides fd !!! n) !! "required" = None)
    ∧ (is_Some (current_provider env request) →
         password_hidden (_field_overrides fd))
    ∧ (hides_registration_fields env request = true →
         ∀ n v, n ∈ valid_fields →
           n ∉ ["terms_of_service"; "honor_code"] →
           register_form_data env request !! n = Some v → truthy v = true →
           hidden_at (_field_overrides fd) n)).
  { intros (fd & Hrun & H). exists fd. split; [done|]. split; [|done].
    unfold initial_overrides. by rewrite Hrun. }
  destruct (current_provider env request) as [provider|] eqn:Hprovider.
  2: { eexists. split; [by apply tpa_run_none|]. simpl.
       split; [apply keys_ok_empty|]. split.
       { split; [apply same_but_country_refl|]. split; [|by constructor].
         intros v. by rewrite no_overrides, lookup_empty. }
       split; [intros n _; by rewrite no_overrides, lookup_empty|].
       split; [by intros [? [=]]|].
       unfold hides_registration_fields. by rewrite Hprovider. }
  rewrite (tpa_run_some request provider) by done.
  set (field_overrides := register_form_data env request) in *.
  destruct (provider_loop field_overrides (hides_registration_fields env request)
              (new "post" (reverse env "user_api_registration")))
    as (fd1 & Hrun1 & (Hf1 & Hkeys1 & Hreq1 & Hdef1) & Hhidden1).
  { split; [done|]. split; [apply keys_ok_empty|].
    split; intros n; rewrite no_overrides, lookup_empty; done. }
  destruct (override_run "password" password_kwargs fd1)
    as (fd2 & Hrun2 & Hf2 & Hlk2).
  assert (Hkeys2 : keys_ok (_field_overrides fd2)) by by eapply override_keys_ok.
  assert (Hinv2 : form_inv (_field_overrides fd2) fd2).
  { split; [apply same_but_country_refl|]. split.
    - intros v. rewrite Hlk2. destruct (decide _) as [[=]|_].
      intros Hv%Hdef1 Htruthy.
      unfold country_is_text in Hcountry. fold field_overrides in Hcountry.
      rewrite Hv in Hcountry. destruct v; try (by eauto).
      all: by rewrite Htruthy in Hcountry.
    - rewrite Hf2, Hf1. constructor. }
  edestruct (add_field_spec (_field_overrides fd2) "social_auth_provider")
    with (fd := fd2) as (fd3 & f & Hrun3 & Hov3 & Hinv3 & Hf3 & _); [done..|].
  exists fd3. split.
  { erewrite bind_run by exact Hrun1. erewrite bind_run by exact Hrun2.
    exact Hrun3. }
  rewrite Hov3. split; [done|]. split; [done|]. split; [|split].
  - intros n [Hn | [=]]. rewrite Hlk2.
    destruct (decide (n = "password")); [contradiction | apply Hreq1].
  - intros _. unfold password_hidden, hidden_at.
    rewrite !Hlk2. unfold password_kwargs. rewrite overridden_password.
    eval_lookup.
    destruct (decide ("password" = "password")); [by repeat split | congruence].
  - intros Hhide n v Hn Hne Hv Htruthy.
    destruct (Hhidden1 Hhide n v) as (Ht & Hl & Hi); [done..|].
    unfold hidden_at. rewrite !Hlk2. unfold password_kwargs.
    rewrite overridden_password. eval_lookup.
    destruct (decide (n = "password")); by repeat split.
Qed.

End ProviderFacts.

(** ** Construction *)

Section ConstructionFacts.
Context (env : Environment).

Import RegistrationView.

Lemma check_extra_fields_raises extra names n :
  n ∈ names →
  default "hidden" (extra !! n) ∉ ["required"; "optional"; "hidden"] →
  check_extra_fields extra names = Raise (ImproperlyConfigured MSG_EXTRA_FIELDS).
Proof.
  induction names as [|m names IH]; intros Hn Hbad.
  - by apply elem_of_nil in Hn.
  - simpl. case_bool_decide as Hm; [done|].
    apply elem_of_cons in Hn as [-> | Hn]; [done | by apply IH].
Qed.

Lemma init_extra_fields self :
  __init__ env = Ok self →
  _extra_fields_setting self
  = <["honor_code" := default "required"
                        (configured_extra_fields env !! "honor_code")]>
      (configured_extra_fields env).
Proof.
  unfold __init__. destruct (check_extra_fields _ _); [|done].
  by intros [= <-].
Qed.

Lemma same_elements (l1 l2 : list string) n :
  (list_to_set l1 : gset string) = list_to_set l2 → n ∈ l2 ↔ n ∈ l1.
Proof.
  intros Heq. rewrite <- (elem_of_list_to_set (C := gset string) n l1), Heq.
  symmetry. apply elem_of_list_to_set.
Qed.

Lemma init_field_order self n :
  __init__ env = Ok self → n ∈ field_order self ↔ n ∈ valid_fields.
Proof.
  unfold __init__. destruct (check_extra_fields _ _); [|done].
  intros [= <-]. cbn [field_order].
  destruct (bool_decide _) eqn:Hset; [done|].
  apply bool_decide_eq_false, dec_stable in Hset.
  exact (same_elements valid_fields (configured_field_order env) n Hset).
Qed.

Lemma extra_not_default n : n ∈ EXTRA_FIELDS → n ∉ DEFAULT_FIELDS.
Proof.
  intros Hn Hd. unfold EXTRA_FIELDS in Hn.
  repeat (apply elem_of_cons in Hn as [-> | Hn]);
    [..| by apply elem_of_nil in Hn]; revert Hd; compute_done.
Qed.

End ConstructionFacts.

(** ** The registration form *)

Section FormFacts.
Context (env : Environment).

Implicit Types (fd : FormDescription) (base : gmap string (gmap string value)).
Implicit Types (self : RegistrationView.RegistrationView).

Import RegistrationView.

Lemma grows_refl fd : grows fd fd.
Proof. by intros f. Qed.

Lemma grows_trans fd1 fd2 fd3 : grows fd1 fd2 → grows fd2 fd3 → grows fd1 fd3.
Proof. intros H12 H23 f Hf. by apply H23, H12. Qed.

Lemma has_field_grows base n r fd fd' :
  has_field base n r (fields fd) → grows fd fd' →
  has_field base n r (fields fd').
Proof. intros (f & Hf & Hrest) Hgrows. exists f. split; [by apply Hgrows | done]. Qed.

Lemma handler_step self base n r fd :
  n ∈ valid_fields → keys_ok base → form_inv base fd →
  ∃ fd', call_handler env self n r fd = Ok ((), fd')
    ∧ form_inv base fd' ∧ grows fd fd' ∧ has_field base n r (fields fd').
Proof.
  intros Hn Hkeys Hinv.
  destruct (call_handler_spec env self base n r fd)
    as (fd' & f & Hrun & Hinv' & Hfields & Hname & Hreq); [done..|].
  exists fd'. split; [done|]. split; [done|]. split.
  - intros g Hg. rewrite Hfields. apply elem_of_app. by left.
  - exists f. split; [|done]. rewrite Hfields. apply elem_of_app. right.
    by apply list_elem_of_singleton.
Qed.

Lemma custom_field_step custom_form base entry fd :
  truthy (custom_field_type env custom_form entry) = true →
  keys_ok base → form_inv base fd →
  ∃ fd', add_custom_field env custom_form entry fd = Ok ((), fd')
    ∧ form_inv base fd' ∧ grows fd fd'.
Proof.
  intros Htyped Hkeys Hinv. unfold add_custom_field.
  destruct entry as [field_name field]. rewrite Htyped. cbn [negb].
  edestruct (add_field_spec base field_name) with (fd := fd)
    as (fd' & f & Hrun & _ & Hinv' & Hfields & _); [done..|].
  exists fd'. split; [exact Hrun|]. split; [done|].
  intros g Hg. rewrite Hfields. apply elem_of_app. by left.
Qed.

(** What [get] has built when it serialises the form description. *)
Lemma describe_spec self request :
  __init__ env = Ok self →
  extension_form_typed env = true →
  country_is_text env request = true →
  ∃ fd, describe env self request
          (new "post" (reverse env "user_api_registration")) = Ok ((), fd)
    ∧ Forall (field_ok (initial_overrides env request)) (fields fd)
    ∧ (∀ n, n ∈ DEFAULT_FIELDS →
         has_field (initial_overrides env request) n true (fields fd))
    ∧ (∀ n, n ∈ EXTRA_FIELDS → _is_field_visible self n = true →
         has_field (initial_overrides env request) n
           (_is_field_required self n) (fields fd)).
Proof.
  intros Hinit Htyped Hcountry.
  destruct (tpa_spec env request Hcountry)
    as (fd0 & Hrun0 & Hov0 & Hkeys & Hinv0 & _).
  rewrite <- Hov0. set (base := _field_overrides fd0) in *.
  unfold describe. erewrite bind_run by exact Hrun0.
  unfold extension_form_typed in Htyped.
  destruct (get_registration_extension_form env) as [custom_form|].
  - edestruct (for_each_spec (form_inv base) grows
      (λ n fd, has_field base n true (fields fd)) DEFAULT_FIELDS
      (λ field_name, call_handler env self field_name true))
      as (fd1 & Hrun1 & Hinv1 & Hgrows1 & Hdefault).
    { apply grows_refl. } { apply grows_trans. }
    { intros n fd fd'. apply has_field_grows. }
    { intros n fd Hn Hinv. apply handler_step; [|done..].
      apply elem_of_app. by left. }
    { exact Hinv0. }
    edestruct (for_each_spec (form_inv base) grows (λ _ _, True)
      (form_fields custom_form) (add_custom_field env custom_form))
      as (fd2 & Hrun2 & Hinv2 & Hgrows2 & _).
    { apply grows_refl. } { apply grows_trans. } { done. }
    { intros entry fd Hentry Hinv.
      destruct (custom_field_step custom_form base entry fd)
        as (fd' & Hrun & Hinv' & Hgrows); [|done..|by eauto].
      rewrite forallb_forall in Htyped. apply Htyped.
      by apply list_elem_of_In. }
    { exact Hinv1. }
    edestruct (for_each_spec (form_inv base) grows
      (λ n fd, _is_field_visible self n = true →
               has_field base n (_is_field_required self n) (fields fd))
      EXTRA_FIELDS
      (λ field_name,
         if _is_field_visible self field_name
         then call_handler env self field_name
                (_is_field_required self field_name)
         else ret ()))
      as (fd3 & Hrun3 & Hinv3 & Hgrows3 & Hextra).
    { apply grows_refl. } { apply grows_trans. }
    { intros n fd fd' Hhas Hgrows Hvisible. eapply has_field_grows; eauto. }
    { intros n fd Hn Hinv. destruct (_is_field_visible self n).
      - destruct (handler_step self base n (_is_field_required self n) fd)
          as (fd' & Hrun & Hinv' & Hgrows & Hhas); [|done..|by eauto 10].
        apply elem_of_app. by right.
      - exists fd. split; [done|]. split; [done|]. split; [apply grows_refl|].
        done. }
    { exact Hinv2. }
    exists fd3. split.
    { erewrite bind_run by exact Hrun1. erewrite bind_run by exact Hrun2.
      exact Hrun3. }
    split; [apply Hinv3|]. split.
    + intros n Hn. eapply has_field_grows; [by apply Hdefault|].
      by eapply grows_trans.
    + intros n Hn Hvisible. by apply Hextra.
  - edestruct (for_each_spec (form_inv base) grows
      (λ n fd,
         (n ∈ DEFAULT_FIELDS → has_field base n true (fields fd))
         ∧ (n ∉ DEFAULT_FIELDS → _is_field_visible self n = true →
            has_field base n (_is_field_required self n) (fields fd)))
      (field_order self)
      (λ field_name,
         if bool_decide (field_name ∈ DEFAULT_FIELDS)
         then call_handler env self field_name true
         else if _is_field_visible self field_name
         then call_handler env self field_name
                (_is_field_required self field_name)
         else ret ()))
      as (fd1 & Hrun1 & Hinv1 & Hgrows1 & Hall).
    { apply grows_refl. } { apply grows_trans. }
    { intros n fd fd' [Hd He] Hgrows.
      split; intros; eapply has_field_grows; eauto. }
    { intros n fd Hn%(init_field_order env self n Hinit) Hinv.
      case_bool_decide as Hdefault.
      - destruct (handler_step self base n true fd)
          as (fd' & Hrun & Hinv' & Hgrows & Hhas); [done..|].
        exists fd'. split; [done|]. split; [done|]. split; [done|].
        split; [done|]. by intros [].
      - destruct (_is_field_visible self n).
        + destruct (handler_step self base n (_is_field_required self n) fd)
            as (fd' & Hrun & Hinv' & Hgrows & Hhas); [done..|].
          exists fd'. split; [done|]. split; [done|]. split; [done|].
          split; [done|]. by intros _ _.
        + exists fd. split; [done|]. split; [done|].
          split; [apply grows_refl|]. split; [done|]. by intros _ [=]. }
    { exact Hinv0. }
    exists fd1. split; [exact Hrun1|]. split; [apply Hinv1|]. split.
    + intros n Hn. apply Hall; [|done].
      apply (init_field_order env self n Hinit), elem_of_app. by left.
    + intros n Hn Hvisible. apply Hall; [| by apply extra_not_default | done].
      apply (init_field_order env self n Hinit), elem_of_app. by right.
Qed.

End FormFacts.

Section GetFacts.
Context (env : Environment).

Import RegistrationView.

(** [get] returns the form built by [describe], and the overrides recorded
    from third-party auth are those of [tpa_spec]. *)
Lemma get_spec (self : RegistrationView) request :
  __init__ env = Ok self →
  extension_form_typed env = true →
  country_is_text env request = true →
  let base := initial_overrides env request in
  ∃ response, get env self request = Ok response
    ∧ status_code response = 200%Z
    ∧ Forall (field_ok base) (form_fields_of response)
    ∧ (∀ n, n ∈ DEFAULT_FIELDS →
         has_field base n true (form_fields_of response))
    ∧ (∀ n, n ∈ EXTRA_FIELDS → _is_field_visible self n = true →
         has_field base n (_is_field_required self n)
           (form_fields_of response))
    ∧ (∀ n, n ≠ "password" ∨ current_provider env request = None →
         (base !!! n) !! "required" = None)
    ∧ (is_Some (current_provider env request) → password_hidden base)
    ∧ (hides_registration_fields env request = true →
         ∀ n v, n ∈ valid_fields →
           n ∉ ["terms_of_service"; "honor_code"] →
           register_form_data env request !! n = Some v → truthy v = true →
           hidden_at base n).
Proof.
  intros Hinit Htyped Hcountry base.
  destruct (describe_spec env self request Hinit Htyped Hcountry)
    as (fd & Hrun & Hfields & Hdefault & Hextra).
  destruct (tpa_spec env request Hcountry)
    as (fd0 & _ & Hov0 & _ & _ & Hreq & Hpassword & Hhidden).
  rewrite Hov0 in Hreq, Hpassword, Hhidden.
  eexists. split; [unfold get; rewrite Hrun; reflexivity|].
  unfold form_fields_of, to_json. cbn [status_code response_content].
  split; [reflexivity|]. split; [exact Hfields|]. split; [exact Hdefault|].
  split; [exact Hextra|]. split; [exact Hreq|]. split; [exact Hpassword|].
  exact Hhidden.
Qed.

(** A field that carries its name carries the overrides of that name. *)
Lemma field_ok_lookup base (f : gmap string value) n k v :
  field_ok base f → f !! "name" = Some (VStr n) →
  (n, k) ≠ ("country", "defaultValue") →
  (base !!! n) !! k = Some v → f !! k = Some v.
Proof.
  intros (m & Hm & Hall) Hn Hne Hv. rewrite Hm in Hn.
  injection Hn as ->. by apply Hall.
Qed.

End GetFacts.

(** ** Evaluating a response *)

Lemma response_of_ok (r : result HttpResponse) :
  is_ok r = true → r = Ok (response_of r).
Proof. by destruct r. Qed.

Lemma is_str_true (o : option value) s : o = Some (VStr s) → is_str o s = true.
Proof. intros ->. apply String.eqb_refl. Qed.

Lemma is_str_not (o : option value) s : is_str o s = false → o ≠ Some (VStr s).
Proof. intros Hfalse Heq. by rewrite (is_str_true _ _ Heq) in Hfalse. Qed.

Lemma is_bool_true (o : option value) b : o = Some (VBool b) → is_bool o b = true.
Proof. intros ->. by destruct b. Qed.

Lemma default_fields_required_eval response :
  default_fields_required response → default_fields_requiredb response = true.
Proof.
  intros Hall. apply forallb_forall. intros n Hn%list_elem_of_In.
  destruct (Hall n Hn) as (f & Hf & Hname & Hreq).
  apply existsb_exists. exists f. split; [by apply list_elem_of_In|].
  by rewrite (is_str_true _ _ Hname), (is_bool_true _ _ Hreq).
Qed.

Lemma all_but_terms_hidden_eval response :
  all_but_terms_hidden response → all_but_terms_hiddenb response = true.
Proof.
  intros Hall. apply forallb_forall. intros f Hf%list_elem_of_In.
  destruct (is_str (f !! "name") "terms_of_service") eqn:Ht; [done|].
  destruct (is_str (f !! "name") "honor_code") eqn:Hh; [done|].
  apply is_str_not in Ht, Hh.
  destruct (Hall f Hf Ht Hh) as (H1 & H2 & H3). unfold hidden_and_blankb.
  by rewrite (is_str_true _ _ H1), (is_str_true _ _ H2), (is_str_true _ _ H3).
Qed.

(** * Specified behaviour *)

Import RegistrationView.

(** ** C1: the default fields *)

(** C1, as the code has it: when the view has been constructed, every field
    of the extension form (if any) has a field type and a country supplied
    by the provider is text, [get] returns a registration form that
    contains each of email, name, username and password; each is marked
    required, except that the password is marked not required while a
    third-party-auth pipeline with a registered provider is running. *)
Theorem default_fields_present env self request :
  __init__ env = Ok self →
  extension_form_typed env = true →
  country_is_text env request = true →
  ∃ response, get env self request = Ok response
    ∧ ∀ n, n ∈ DEFAULT_FIELDS →
        ∃ f, f ∈ form_fields_of response
          ∧ f !! "name" = Some (VStr n)
          ∧ f !! "required"
            = Some (VBool (negb (bool_decide
                (n = "password" ∧ is_Some (current_provider env request))))).
Proof.
  intros Hinit Htyped Hcountry.
  destruct (get_spec env self request Hinit Htyped Hcountry)
    as (response & Hget & _ & Hfields & Hdefault & _ & Hreq & Hpassword & _).
  exists response. split; [done|]. intros n Hn.
  destruct (Hdefault n Hn) as (f & Hf & Hname & Hrequired).
  exists f. split; [done|]. split; [done|].
  case_bool_decide as Hcase; cbn [negb].
  - destruct Hcase as [-> Hsome].
    destruct (Hpassword Hsome) as (_ & _ & Hfalse & _).
    eapply field_ok_lookup; [|exact Hname| |exact Hfalse].
    + by eapply Forall_forall in Hfields.
    + intros [=].
  - apply Hrequired, Hreq.
    destruct (decide (n = "password")) as [->|]; [right | by left].
    destruct (current_provider env request) eqn:Hprovider; [|done].
    exfalso. apply Hcase. split; [done | by eexists].
Qed.

Lemma default_fields_present_witness :
  ∃ response, get Sample.plain_env Sample.view Sample.tpa_request = Ok response
    ∧ ∀ n, n ∈ DEFAULT_FIELDS →
        ∃ f, f ∈ form_fields_of response
          ∧ f !! "name" = Some (VStr n)
          ∧ f !! "required"
            = Some (VBool (negb (bool_decide
                (n = "password"
                 ∧ is_Some (current_provider Sample.plain_env
                              Sample.tpa_request))))).
Proof.
  apply (default_fields_present Sample.plain_env Sample.view Sample.tpa_request);
    vm_compute; reflexivity.
Defined.

(** C1, as stated, fails while a third-party-auth pipeline is running: the
    form then has no password field marked required. *)
Lemma default_fields_required_counterexample :
  ∃ response,
    get Sample.plain_env Sample.view Sample.tpa_request = Ok response
    ∧ ¬ default_fields_required response.
Proof.
  exists (response_of (get Sample.plain_env Sample.view Sample.tpa_request)).
  split; [apply response_of_ok; vm_compute; reflexivity|].
  intros Hall%default_fields_required_eval. vm_compute in Hall. discriminate.
Qed.

(** ** C7: the password field under third-party auth *)

(** C7: while a third-party-auth pipeline with a registered provider is
    running, the registration form has a password field, and a field of
    that name is of type hidden, with an empty default, not required, with
    blank label and instructions and no restrictions. *)
Theorem password_field_hidden env self request :
  is_Some (current_provider env request) →
  __init__ env = Ok self →
  extension_form_typed env = true →
  country_is_text env request = true →
  ∃ response, get env self request = Ok response
    ∧ (∃ f, f ∈ form_fields_of response
         ∧ f !! "name" = Some (VStr "password"))
    ∧ ∀ f, f ∈ form_fields_of response →
        f !! "name" = Some (VStr "password") →
        f !! "type" = Some (VStr "hidden")
        ∧ f !! "defaultValue" = Some (VStr "")
        ∧ f !! "required" = Some (VBool false)
        ∧ f !! "label" = Some (VStr "")
        ∧ f !! "instructions" = Some (VStr "")
        ∧ f !! "restrictions" = Some (VDict []).
Proof.
  intros Hprovider Hinit Htyped Hcountry.
  destruct (get_spec env self request Hinit Htyped Hcountry)
    as (response & Hget & _ & Hfields & Hdefault & _ & _ & Hpassword & _).
  destruct (Hpassword Hprovider)
    as ((Htype & Hlabel & Hinstr) & Hvalue & Hreq & Hrestr).
  exists response. split; [done|]. split.
  - destruct (Hdefault "password") as (f & Hf & Hname & _); [compute_done|].
    by exists f.
  - intros f Hf Hname.
    assert (Hok : field_ok (initial_overrides env request) f)
      by by eapply Forall_forall in Hfields.
    repeat split;
      (eapply field_ok_lookup; [exact Hok | exact Hname | intros [=] |]);
      done.
Qed.

Lemma password_field_hidden_witness :
  is_Some (current_provider Sample.plain_env Sample.tpa_request)
  ∧ ∃ response,
      get Sample.plain_env Sample.view Sample.tpa_request = Ok response
      ∧ (∃ f, f ∈ form_fields_of response
           ∧ f !! "name" = Some (VStr "password"))
      ∧ ∀ f, f ∈ form_fields_of response →
          f !! "name" = Some (VStr "password") →
          f !! "type" = Some (VStr "hidden")
          ∧ f !! "defaultValue" = Some (VStr "")
          ∧ f !! "required" = Some (VBool false)
          ∧ f !! "label" = Some (VStr "")
          ∧ f !! "instructions" = Some (VStr "")
          ∧ f !! "restrictions" = Some (VDict []).
Proof.
  assert (Hprovider :
    is_Some (current_provider Sample.plain_env Sample.tpa_request))
    by (eexists; vm_compute; reflexivity).
  split; [exact Hprovider|].
  apply (password_field_hidden Sample.plain_env Sample.view
           Sample.tpa_request Hprovider); vm_compute; reflexivity.
Defined.

(** ** C3: fields hidden when the provider skips the registration form *)

(** C3, as the code has it: when the provider of the running pipeline skips
    the registration form and the request is in an enterprise context, a
    field of the registration form other than the two checkboxes is hidden,
    with blank label and instructions, if the provider supplied a non-empty
    value for it; so is the password field. *)
Theorem provided_fields_hidden env self request :
  hides_registration_fields env request = true →
  __init__ env = Ok self →
  extension_form_typed env = true →
  country_is_text env request = true →
  ∃ response, get env self request = Ok response
    ∧ (∀ f n v, f ∈ form_fields_of response →
         f !! "name" = Some (VStr n) →
         n ∈ valid_fields →
         n ∉ ["terms_of_service"; "honor_code"] →
         register_form_data env request !! n = Some v →
         truthy v = true →
         hidden_and_blank f)
    ∧ (∀ f, f ∈ form_fields_of response →
         f !! "name" = Some (VStr "password") →
         hidden_and_blank f).
Proof.
  intros Hhides Hinit Htyped Hcountry.
  destruct (get_spec env self request Hinit Htyped Hcountry)
    as (response & Hget & _ & Hfields & _ & _ & _ & Hpassword & Hhidden).
  exists response. split; [done|].
  assert (Hlift : ∀ f n, f ∈ form_fields_of response →
            f !! "name" = Some (VStr n) →
            hidden_at (initial_overrides env request) n → hidden_and_blank f).
  { intros f n Hf Hname (Htype & Hlabel & Hinstr).
    assert (Hok : field_ok (initial_overrides env request) f)
      by by eapply Forall_forall in Hfields.
    repeat split;
      (eapply field_ok_lookup; [exact Hok | exact Hname | intros [=] |]);
      done. }
  split.
  - intros f n v Hf Hname Hn Hne Hv Htruthy.
    apply (Hlift f n Hf Hname). by eapply Hhidden.
  - intros f Hf Hname. apply (Hlift f "password" Hf Hname).
    apply Hpassword. unfold hides_registration_fields in Hhides.
    by destruct (current_provider env request).
Qed.

Lemma provided_fields_hidden_witness :
  hides_registration_fields Sample.plain_env Sample.tpa_request = true
  ∧ ∃ response,
      get Sample.plain_env Sample.view Sample.tpa_request = Ok response
      ∧ (∀ f n v, f ∈ form_fields_of response →
           f !! "name" = Some (VStr n) →
           n ∈ valid_fields →
           n ∉ ["terms_of_service"; "honor_code"] →
           register_form_data Sample.plain_env Sample.tpa_request !! n
             = Some v →
           truthy v = true →
           hidden_and_blank f)
      ∧ (∀ f, f ∈ form_fields_of response →
           f !! "name" = Some (VStr "password") →
           hidden_and_blank f).
Proof.
  split; [vm_compute; reflexivity|].
  apply (provided_fields_hidden Sample.plain_env Sample.view
           Sample.tpa_request); vm_compute; reflexivity.
Defined.

(** C3, as stated, fails: the sample provider skips the registration form in
    an enterprise context and supplies an email address only, and the form
    still shows the name and username fields. *)
Lemma all_fields_hidden_counterexample :
  is_Some (current_provider Sample.plain_env Sample.tpa_request)
  ∧ hides_registration_fields Sample.plain_env Sample.tpa_request = true
  ∧ ∃ response,
      get Sample.plain_env Sample.view Sample.tpa_request = Ok response
      ∧ ¬ all_but_terms_hidden response.
Proof.
  split; [eexists; vm_compute; reflexivity|].
  split; [vm_compute; reflexivity|].
  exists (response_of (get Sample.plain_env Sample.view Sample.tpa_request)).
  split; [apply response_of_ok; vm_compute; reflexivity|].
  intros Hall%all_but_terms_hidden_eval. vm_compute in Hall. discriminate.
Qed.

(** The field that stays visible there is the full name. *)
Example name_field_stays_visible :
  existsb (λ f, is_str (f !! "name") "name" && is_str (f !! "type") "text"
                && is_str (f !! "label") "Full Name")
    (form_fields_of
       (response_of (get Sample.plain_env Sample.view Sample.tpa_request)))
  = true.
Proof. vm_compute. reflexivity. Qed.

(** ** C9: the honor code is required by default *)

(** C9: when the configured REGISTRATION_EXTRA_FIELDS has no key
    "honor_code", the constructed view holds "required" for it, and the
    registration form contains the honor_code field, marked required. *)
Theorem honor_code_required_by_default env self request :
  configured_extra_fields env !! "honor_code" = None →
  __init__ env = Ok self →
  extension_form_typed env = true →
  country_is_text env request = true →
  _extra_fields_setting self !! "honor_code" = Some "required"
  ∧ ∃ response, get env self request = Ok response
      ∧ ∃ f, f ∈ form_fields_of response
          ∧ f !! "name" = Some (VStr "honor_code")
          ∧ f !! "required" = Some (VBool true).
Proof.
  intros Hmissing Hinit Htyped Hcountry.
  assert (Hsetting : _extra_fields_setting self !! "honor_code"
                     = Some "required").
  { rewrite (init_extra_fields env self Hinit), Hmissing.
    apply lookup_insert_eq. }
  split; [done|].
  destruct (get_spec env self request Hinit Htyped Hcountry)
    as (response & Hget & _ & _ & _ & Hextra & Hreq & _).
  exists response. split; [done|].
  destruct (Hextra "honor_code") as (f & Hf & Hname & Hrequired).
  { compute_done. }
  { unfold _is_field_visible. rewrite Hsetting. compute_done. }
  exists f. split; [done|]. split; [done|].
  rewrite Hrequired by (apply Hreq; by left).
  unfold _is_field_required. rewrite Hsetting.
  by rewrite bool_decide_eq_true_2.
Qed.

Lemma honor_code_required_by_default_witness :
  configured_extra_fields Sample.plain_env !! "honor_code" = None
  ∧ _extra_fields_setting Sample.view !! "honor_code" = Some "required"
  ∧ ∃ response,
      get Sample.plain_env Sample.view Sample.tpa_request = Ok response
      ∧ ∃ f, f ∈ form_fields_of response
          ∧ f !! "name" = Some (VStr "honor_code")
          ∧ f !! "required" = Some (VBool true).
Proof.
  split; [vm_compute; reflexivity|].
  apply (honor_code_required_by_default Sample.plain_env Sample.view
           Sample.tpa_request); vm_compute; reflexivity.
Defined.

(** ** C2: a misconfigured visibility *)

(** C2, as the code has it: when the configured REGISTRATION_EXTRA_FIELDS
    maps one of the view's EXTRA_FIELDS to a value that is not "required",
    "optional" or "hidden", construction raises ImproperlyConfigured. *)
Theorem misconfigured_extra_field_raises env field_name v :
  field_name ∈ EXTRA_FIELDS →
  configured_extra_fields env !! field_name = Some v →
  v ∉ VISIBILITY →
  __init__ env = Raise (ImproperlyConfigured MSG_EXTRA_FIELDS).
Proof.
  intros Hfield Hv Hbad. unfold __init__.
  rewrite (check_extra_fields_raises _ _ field_name); [done | done |].
  destruct (decide (field_name = "honor_code")) as [->|Hne].
  - rewrite lookup_insert_eq, Hv. exact Hbad.
  - rewrite lookup_insert_ne, Hv by done. exact Hbad.
Qed.

Lemma misconfigured_extra_field_raises_witness :
  "city" ∈ EXTRA_FIELDS
  ∧ configured_extra_fields Sample.bad_city_env !! "city" = Some "mandatory"
  ∧ ("mandatory" ∉ VISIBILITY)
  ∧ __init__ Sample.bad_city_env
    = Raise (ImproperlyConfigured MSG_EXTRA_FIELDS).
Proof.
  assert (H1 : "city" ∈ EXTRA_FIELDS) by compute_done.
  assert (H2 : configured_extra_fields Sample.bad_city_env !! "city"
               = Some "mandatory") by (vm_compute; reflexivity).
  assert (H3 : "mandatory" ∉ VISIBILITY) by compute_done.
  split; [exact H1|]. split; [exact H2|]. split; [exact H3|].
  exact (misconfigured_extra_field_raises Sample.bad_city_env "city"
           "mandatory" H1 H2 H3).
Defined.

(** C2, as stated, fails for a key that is not one of the view's
    EXTRA_FIELDS: the view is constructed. *)
Lemma unknown_key_counterexample :
  configured_extra_fields Sample.unknown_key_env !! "favourite_colour"
    = Some "mauve"
  ∧ ("mauve" ∉ VISIBILITY)
  ∧ is_ok (__init__ Sample.unknown_key_env) = true.
Proof.
  split; [vm_compute; reflexivity|]. split; [compute_done|].
  vm_compute. reflexivity.
Qed.

(** ** C4: the honor code stands for the terms of service *)

(** C4, as the code has it: when the submitted data has a non-empty
    honor_code and no terms_of_service, and no account conflicts, the data
    handed to [create_account_with_params] is the submitted data with
    terms_of_service set to the submitted honor_code. *)
Theorem honor_code_copied env request honor_code :
  POST request !! "honor_code" = Some honor_code →
  honor_code ≠ "" →
  POST request !! "terms_of_service" = None →
  check_account_exists env (POST request !! "email")
    (POST request !! "username") = [] →
  ∃ params later,
    (post env request).1 = CreateAccountWithParams params :: later
    ∧ params = <["terms_of_service" := honor_code]> (POST request)
    ∧ params !! "terms_of_service" = Some honor_code.
Proof.
  intros Hhonor Hne Hterms Hfree.
  exists (<["terms_of_service" := honor_code]> (POST request)).
  assert (Hcond : negb (String.eqb honor_code "")
                  && bool_decide (POST request !! "terms_of_service" = None)
                  = true).
  { rewrite bool_decide_eq_true_2 by done.
    apply String.eqb_neq in Hne. by rewrite Hne. }
  unfold post. rewrite Hfree, Hhonor, Hcond.
  destruct (create_account_with_params env request _) as [| | err |].
  - eexists. split; [reflexivity|]. by rewrite lookup_insert_eq.
  - eexists. split; [reflexivity|]. by rewrite lookup_insert_eq.
  - destruct (message_dict err) as [d|];
      [destruct (bool_decide (is_Some (d !! NON_FIELD_ERRORS)))|];
      (eexists; split; [reflexivity|]; by rewrite lookup_insert_eq).
  - eexists. split; [reflexivity|]. by rewrite lookup_insert_eq.
Qed.

Lemma honor_code_copied_witness :
  ∃ params later,
    (post Sample.plain_env
       (Sample.request [("honor_code", "true")] None)).1
    = CreateAccountWithParams params :: later
    ∧ params = <["terms_of_service" := "true"]>
                 (POST (Sample.request [("honor_code", "true")] None))
    ∧ params !! "terms_of_service" = Some "true".
Proof.
  apply (honor_code_copied Sample.plain_env
           (Sample.request [("honor_code", "true")] None) "true");
    [vm_compute; reflexivity | discriminate
    | vm_compute; reflexivity | vm_compute; reflexivity].
Defined.

(** C4, as stated, fails for an empty honor_code: the data handed to
    [create_account_with_params] has no terms_of_service. *)
Lemma empty_honor_code_counterexample :
  POST Sample.empty_honor_code_request !! "honor_code" = Some ""
  ∧ POST Sample.empty_honor_code_request !! "terms_of_service" = None
  ∧ check_account_exists Sample.plain_env
      (POST Sample.empty_honor_code_request !! "email")
      (POST Sample.empty_honor_code_request !! "username") = []
  ∧ ∃ params later,
      (post Sample.plain_env Sample.empty_honor_code_request).1
      = CreateAccountWithParams params :: later
      ∧ params !! "terms_of_service" ≠ Some "".
Proof.
  split; [vm_compute; reflexivity|]. split; [vm_compute; reflexivity|].
  split; [vm_compute; reflexivity|].
  exists (POST Sample.empty_honor_code_request), [].
  split; [vm_compute; reflexivity|]. vm_compute. discriminate.
Qed.

(** ** C5: validation errors *)

(** What [post] answers when account creation raises a field-keyed
    ValidationError: status 400 and, for each failing field, the messages
    of all its errors. *)
Lemma validation_error_response env request d :
  check_account_exists env (POST request !! "email")
    (POST request !! "username") = [] →
  (∀ params, create_account_with_params env request params
             = ValidationError (ErrorDict d)) →
  d !! NON_FIELD_ERRORS = None →
  ∃ response, (post env request).2 = Ok response
    ∧ status_code response = 400%Z
    ∧ ∀ field, json_body_of response !! field
        = (λ error_list : list string, VList (user_message <$> error_list))
            <$> d !! field.
Proof.
  intros Hfree Hraise Hfields. unfold post. rewrite Hfree, Hraise.
  cbn [message_dict]. rewrite bool_decide_eq_false_2.
  2: { rewrite Hfields. by intros [? [=]]. }
  eexists. split; [reflexivity|]. split; [reflexivity|].
  intros field. cbn [json_body_of JsonResponse response_content].
  by rewrite lookup_fmap.
Qed.

(** C5 at a submission whose username fails two validations: the body
    carries both messages, not only the first. *)
Lemma validation_errors_all_returned :
  ∃ response,
    (post Sample.two_errors_env Sample.short_username_request).2 = Ok response
    ∧ status_code response = 400%Z
    ∧ json_body_of response !! "username"
      = Some (VList [user_message Sample.USERNAME_TOO_SHORT;
                     user_message Sample.USERNAME_INVALID]).
Proof.
  exists (response_of
            (post Sample.two_errors_env Sample.short_username_request).2).
  split; [apply response_of_ok; vm_compute; reflexivity|].
  split; vm_compute; reflexivity.
Qed.

(** ** C6: conflicting accounts *)

Lemma string_app_assoc (s1 s2 s3 : string) :
  (s1 +:+ s2) +:+ s3 = s1 +:+ s2 +:+ s3.
Proof.
  induction s1 as [|c s1 IH]; [done|].
  change (String c ((s1 +:+ s2) +:+ s3) = String c (s1 +:+ s2 +:+ s3)).
  by f_equal.
Qed.

(** A format string whose fields are all [k] can be formatted with [k]. *)
Lemma format_singleton_ok (t : template) k v :
  Forall (λ name, name = k) (template_fields t) →
  ∃ message, format t {[k := v]} = Ok message.
Proof.
  induction t as [|[text|name] t IH]; intros Hfields.
  - by eexists.
  - destruct (IH Hfields) as [rest Hrest]. simpl. rewrite Hrest. by eexists.
  - simpl in Hfields. apply Forall_cons in Hfields as [-> Hfields].
    destruct (IH Hfields) as [rest Hrest]. simpl.
    rewrite lookup_singleton_eq, Hrest. by eexists.
Qed.

(** The formatted message contains the value of a field it refers to. *)
Lemma format_mentions (t : template) k v message :
  k ∈ template_fields t →
  format t {[k := v]} = Ok message →
  mentions message v.
Proof.
  revert message. induction t as [|[text|name] t IH]; intros message Hk Hfmt.
  - by apply elem_of_nil in Hk.
  - simpl in Hfmt. destruct (format t _) as [rest|] eqn:Hrest; [|done].
    injection Hfmt as <-.
    destruct (IH rest Hk eq_refl) as (before & after & ->).
    exists (text +:+ before), after. by rewrite string_app_assoc.
  - simpl in Hfmt. destruct (_ !! name) as [w|] eqn:Hw; [|done].
    apply lookup_singleton_Some in Hw as [-> ->].
    destruct (format t _) as [rest|]; [|done]. injection Hfmt as <-.
    by exists "", rest.
Qed.

Lemma conflict_errors_spec (conflict_messages : gmap string string)
    (conflicts : list string) (errors : gmap string value) :
  Forall (λ field, is_Some (conflict_messages !! field)) conflicts →
  ∃ errors', conflict_errors conflict_messages conflicts errors = Ok errors'
    ∧ ∀ field, errors' !! field =
        if decide (field ∈ conflicts)
        then (λ message, VList [user_message message])
               <$> conflict_messages !! field
        else errors !! field.
Proof.
  revert errors. induction conflicts as [|c conflicts IH]; intros errors Hall.
  - exists errors. split; [done|]. intros field.
    case_decide as Hin; [by apply elem_of_nil in Hin | done].
  - apply Forall_cons in Hall as [[message Hmessage] Hall]. simpl.
    rewrite Hmessage.
    destruct (IH (<[c := VList [user_message message]]> errors) Hall)
      as (errors' & Hrun & Hlookup).
    exists errors'. split; [done|]. intros field. rewrite Hlookup.
    destruct (decide (field ∈ conflicts)) as [Hin|Hnotin].
    + rewrite decide_True; [done | by right].
    + destruct (decide (field = c)) as [->|Hne].
      * rewrite decide_True by left. by rewrite lookup_insert_eq, Hmessage.
      * rewrite decide_False, lookup_insert_ne; [done..|].
        by intros [?|?]%elem_of_cons.
Qed.

(** C6: when [check_account_exists] reports a conflict, [post] returns 409
    with a JSON body that has an entry for each conflicting field and for
    no other.  The entry keyed "email" is the one-element list
    [[{"user_message": message}]] whose message is the email conflict text
    formatted with the submitted address; the message contains that address
    whenever the text has the replacement field.  Likewise the entry keyed
    "username" and the submitted user name, also when the user name alone
    conflicts. *)
Theorem conflict_response env request :
  let email := POST request !! "email" in
  let username := POST request !! "username" in
  let conflicts := check_account_exists env email username in
  conflicts ≠ [] →
  Forall (λ field, field ∈ ["email"; "username"]) conflicts →
  Forall (λ name, name = "email_address")
         (template_fields (EMAIL_CONFLICT_MSG (accounts env))) →
  Forall (λ name, name = "username")
         (template_fields (USERNAME_CONFLICT_MSG (accounts env))) →
  ∃ response body,
    post env request = ([], Ok response)
    ∧ status_code response = 409%Z
    ∧ response_content response = JsonObject body
    ∧ (∀ field, field ∉ conflicts → body !! field = None)
    ∧ ("email" ∈ conflicts →
       ∃ message,
         body !! "email"
         = Some (VList [VDict [("user_message", VStr message)]])
         ∧ format (EMAIL_CONFLICT_MSG (accounts env))
                  {["email_address" := default "None" email]} = Ok message
         ∧ ∀ address,
             email = Some address →
             "email_address"
               ∈ template_fields (EMAIL_CONFLICT_MSG (accounts env)) →
             mentions message address)
    ∧ ("username" ∈ conflicts →
       ∃ message,
         body !! "username"
         = Some (VList [VDict [("user_message", VStr message)]])
         ∧ format (USERNAME_CONFLICT_MSG (accounts env))
                  {["username" := default "None" username]} = Ok message
         ∧ ∀ name,
             username = Some name →
             "username"
               ∈ template_fields (USERNAME_CONFLICT_MSG (accounts env)) →
             mentions message name).
Proof.
  intros email username conflicts Hconflict Hknown Hetemplate Hutemplate.
  destruct (format_singleton_ok _ "email_address" (default "None" email)
              Hetemplate) as [email_message Hemsg].
  destruct (format_singleton_ok _ "username" (default "None" username)
              Hutemplate) as [username_message Humsg].
  destruct (conflict_errors_spec
              (<["email" := email_message]> {["username" := username_message]})
              conflicts ∅) as (errors & Herrors & Hlookup).
  { eapply Forall_impl; [exact Hknown|]. intros field Hfield. simpl in Hfield.
    apply elem_of_cons in Hfield as [->|Hfield].
    - rewrite lookup_insert_eq. by eexists.
    - apply list_elem_of_singleton in Hfield as ->.
      rewrite lookup_insert_ne, lookup_singleton_eq by done. by eexists. }
  exists (JsonResponse errors 409), errors.
  split.
  { unfold post, str_opt. fold email username conflicts.
    destruct conflicts as [|c rest] eqn:Hconflicts; [done|].
    by rewrite Hemsg, Humsg, Herrors. }
  split; [reflexivity|]. split; [reflexivity|]. split; [|split].
  - intros field Hfield. rewrite Hlookup, decide_False by done.
    apply lookup_empty.
  - intros Hin. exists email_message. split; [|split].
    + rewrite Hlookup, decide_True by done. by rewrite lookup_insert_eq.
    + exact Hemsg.
    + intros address Haddress Hfield. rewrite Haddress in Hemsg.
      by eapply format_mentions.
  - intros Hin. exists username_message. split; [|split].
    + rewrite Hlookup, decide_True by done.
      by rewrite lookup_insert_ne, lookup_singleton_eq.
    + exact Humsg.
    + intros name Hname Hfield. rewrite Hname in Humsg.
      by eapply format_mentions.
Qed.

Lemma conflict_response_witness :
  ∃ response body,
    post Sample.taken_both_env Sample.taken_email_request = ([], Ok response)
    ∧ status_code response = 409%Z
    ∧ response_content response = JsonObject body
    ∧ (∀ field,
         field ∉ check_account_exists Sample.taken_both_env
                   (POST Sample.taken_email_request !! "email")
                   (POST Sample.taken_email_request !! "username") →
         body !! field = None)
    ∧ ("email" ∈ check_account_exists Sample.taken_both_env
                   (POST Sample.taken_email_request !! "email")
                   (POST Sample.taken_email_request !! "username") →
       ∃ message,
         body !! "email"
         = Some (VList [VDict [("user_message", VStr message)]])
         ∧ format (EMAIL_CONFLICT_MSG (accounts Sample.taken_both_env))
                  {["email_address" :=
                      default "None"
                        (POST Sample.taken_email_request !! "email")]}
           = Ok message
         ∧ ∀ address,
             POST Sample.taken_email_request !! "email" = Some address →
             "email_address"
               ∈ template_fields
                   (EMAIL_CONFLICT_MSG (accounts Sample.taken_both_env)) →
             mentions message address)
    ∧ ("username" ∈ check_account_exists Sample.taken_both_env
                      (POST Sample.taken_email_request !! "email")
                      (POST Sample.taken_email_request !! "username") →
       ∃ message,
         body !! "username"
         = Some (VList [VDict [("user_message", VStr message)]])
         ∧ format (USERNAME_CONFLICT_MSG (accounts Sample.taken_both_env))
                  {["username" :=
                      default "None"
                        (POST Sample.taken_email_request !! "username")]}
           = Ok message
         ∧ ∀ name,
             POST Sample.taken_email_request !! "username" = Some name →
             "username"
               ∈ template_fields
                   (USERNAME_CONFLICT_MSG (accounts Sample.taken_both_env)) →
             mentions message name).
Proof.
  apply (conflict_response Sample.taken_both_env Sample.taken_email_request);
    [vm_compute; discriminate | compute_done..].
Defined.

(** The two bodies in full: an address and a user name that are both
    taken, and a user name taken by itself. *)
Example both_conflicts_body :
  (post Sample.taken_both_env Sample.taken_email_request).2
  = Ok (JsonResponse
          (<["email" := VList [VDict [("user_message", VStr
              "It looks like pat@example.com belongs to an existing account. Try again with a different email address.")]]]>
             {["username" := VList [VDict [("user_message", VStr
              "It looks like pat belongs to an existing account. Try again with a different username.")]]]})
          409).
Proof. vm_compute. reflexivity. Qed.

Example username_conflict_body :
  (post Sample.taken_both_env Sample.taken_name_request).2
  = Ok (JsonResponse
          {["username" := VList [VDict [("user_message", VStr
              "It looks like pat belongs to an existing account. Try again with a different username.")]]]}
          409).
Proof. vm_compute. reflexivity. Qed.

(** ** C8: an unparsable course id *)

Import UpdateEmailOptInPreference.

(** X22: when the course_id of an email-opt-in submission cannot be
    parsed, no call to [update_email_opt_in] is made and the stored
    preferences are as before.  If the course id is ASCII the response is
    400, plain text, with the text "No course '<course id>' found";
    otherwise building that text raises [UnicodeEncodeError] and there is
    no response. *)
Theorem unparsable_course_id_outcome env request course_id preferences :
  data request !! "course_id" = Some course_id →
  from_string env course_id = None →
  (UpdateEmailOptInPreference.post env request).1 = []
  ∧ perform_all (UpdateEmailOptInPreference.post env request).1 preferences
    = preferences
  ∧ if is_ascii course_id
    then ∃ response,
           (UpdateEmailOptInPreference.post env request).2 = Ok response
           ∧ status_code response = 400%Z
           ∧ content_type response = "text/plain"
           ∧ response_content response
             = PlainText ("No course '" +:+ course_id +:+ "' found")
    else (UpdateEmailOptInPreference.post env request).2
         = Raise UnicodeEncodeError.
Proof.
  intros Hcourse Hparse. unfold UpdateEmailOptInPreference.post.
  rewrite Hcourse, Hparse. cbn [NO_COURSE_FOUND str_format].
  rewrite lookup_singleton_eq. unfold encode_ascii.
  destruct (is_ascii course_id); [|done].
  split; [done|]. split; [done|]. eexists. split; [reflexivity|]. done.
Qed.

Lemma unparsable_course_id_outcome_witness :
  (UpdateEmailOptInPreference.post Sample.plain_env
     Sample.bad_course_request).1 = []
  ∧ perform_all
      (UpdateEmailOptInPreference.post Sample.plain_env
         Sample.bad_course_request).1 ∅
    = ∅
  ∧ ∃ response,
      (UpdateEmailOptInPreference.post Sample.plain_env
         Sample.bad_course_request).2 = Ok response
      ∧ status_code response = 400%Z
      ∧ content_type response = "text/plain"
      ∧ response_content response
        = PlainText "No course 'no such course' found".
Proof.
  apply (unparsable_course_id_outcome Sample.plain_env
           Sample.bad_course_request "no such course" ∅);
    vm_compute; reflexivity.
Defined.

(** C8 at a submission whose course id cannot be parsed and has an accented
    letter: [post] raises [UnicodeEncodeError] where the claim has a 400
    response; no call to [update_email_opt_in] is made. *)
Lemma accented_course_id_raises :
  data Sample.accented_course_request !! "course_id" = Some "café"
  ∧ from_string Sample.plain_env "café" = None
  ∧ UpdateEmailOptInPreference.post Sample.plain_env
      Sample.accented_course_request
    = ([], Raise UnicodeEncodeError).
Proof. repeat split; vm_compute; reflexivity. Qed.

(** ** C10: the stored opt-in value *)



(** Sample strings: only "true", in any case, opts in. *)
Example opt_in_values :
  bool_decide (lower "TRUE" = "true") = true
  ∧ bool_decide (lower "1" = "true") = false
  ∧ bool_decide (lower "yes" = "true") = false
  ∧ bool_decide (lower "TRUE " = "true") = false.
Proof. repeat split; vm_compute; reflexivity. Qed.

(** * Further properties *)

(** ** The field each handler adds *)

Section ExactHandlers.
Context (env : Environment).

Implicit Types (fd : FormDescription) (base : gmap string (gmap string value)).
Implicit Types (self : RegistrationView.RegistrationView).

Lemma first_field_add_field n kwargs :
  first_field (add_field n kwargs) = Some (field_dict n kwargs).
Proof.
  unfold first_field, add_field, new. cbn [fields _field_overrides app head].
  by rewrite no_overrides, (left_id_L ∅ (∪)).
Qed.

Lemma exact_simple base n kwargs r fd :
  kwargs !! "required" = Some (VBool r) →
  keys_ok base → form_inv base fd →
  exact_post base n r fd (add_field n kwargs).
Proof.
  intros Hreq Hkeys Hinv.
  destruct (add_field_spec base n kwargs fd)
    as (fd' & f & Hrun & Hov & Hinv' & Hfields & _); [done..|].
  exists fd', ((_field_overrides fd !!! n) ∪ field_dict n kwargs),
         (field_dict n kwargs).
  split; [done|]. split; [done|]. split.
  { unfold add_field in Hrun. by injection Hrun as <-. }
  split; [apply first_field_add_field|].
  split; [apply field_dict_name|].
  split; [rewrite field_dict_required; unfold arg; by rewrite Hreq|].
  exists (_field_overrides fd !!! n). split; [done|].
  intros k Hne. by apply Hinv.
Qed.

Lemma exact_country base r fd :
  keys_ok base → form_inv base fd →
  exact_post base "country" r fd (RegistrationView._add_country_field env r).
Proof.
  intros Hkeys Hinv.
  set (kwargs := kw [
    ("label", VStr "Country");
    ("field_type", VStr "select");
    ("options", options_of (countries env));
    ("include_default_option", VBool true);
    ("required", VBool r);
    ("error_messages", VDict [
       ("required", VStr (REQUIRED_FIELD_COUNTRY_MSG (accounts env)))])]).
  assert (Hfirst : first_field (RegistrationView._add_country_field env r)
                   = Some (field_dict "country" kwargs)).
  { unfold first_field, RegistrationView._add_country_field.
    erewrite bind_run by reflexivity.
    erewrite bind_run by reflexivity.
    apply first_field_add_field. }
  assert (Hstep : ∀ fd1, fields fd1 = fields fd → form_inv base fd1 →
    RegistrationView._add_country_field env r fd
    = add_field "country" kwargs fd1 →
    exact_post base "country" r fd
      (RegistrationView._add_country_field env r)).
  { intros fd1 Hf1 Hinv1 Heq.
    destruct (exact_simple base "country" kwargs r fd1 eq_refl Hkeys Hinv1)
      as (fd' & f & p & H1 & H2 & H3 & H4 & H5 & H6 & H7).
    rewrite first_field_add_field in H4. injection H4 as <-.
    exists fd', f, (field_dict "country" kwargs).
    rewrite Heq, <- Hf1.
    exact (conj H1 (conj H2 (conj H3 (conj Hfirst (conj H5 (conj H6 H7)))))). }
  destruct Hinv as (Hsame & Hcountry & Hfields).
  assert (Htotal : default ∅ (_field_overrides fd !! "country")
                   = _field_overrides fd !!! "country")
    by by rewrite lookup_total_alt.
  destruct (truthy (default VNone
              ((_field_overrides fd !!! "country") !! "defaultValue")))
    eqn:Htruthy.
  - destruct ((_field_overrides fd !!! "country") !! "defaultValue")
      as [v|] eqn:Hv; [|done]. change (truthy v = true) in Htruthy.
    destruct (Hcountry v) as [s ->]; [done..|].
    destruct (override_run "country"
                (kw [("default",
                      VStr (if is_ascii s then upper s
                            else unicode_upper env s))]) fd)
      as (fd1 & Hrun & Hf1 & Hlk).
    apply (Hstep fd1 Hf1).
    + split; [|split].
      * intros n k Hne. rewrite Hlk, overridden_default. case_decide; [|auto].
        subst n. rewrite lookup_singleton_ne by congruence. auto.
      * intros v. rewrite Hlk, overridden_default. simpl.
        rewrite lookup_singleton_eq. intros [= <-] _. eauto.
      * by rewrite Hf1.
    + unfold RegistrationView._add_country_field.
      erewrite bind_run by reflexivity.
      rewrite Htotal, Hv.
      change (default VNone (Some (VStr s))) with (VStr s). rewrite Htruthy.
      erewrite bind_run; [reflexivity|].
      erewrite bind_run by reflexivity. exact Hrun.
  - apply (Hstep fd eq_refl); [exact (conj Hsame (conj Hcountry Hfields))|].
    unfold RegistrationView._add_country_field.
    erewrite bind_run by reflexivity.
    rewrite Htotal, Htruthy.
    erewrite bind_run by reflexivity. reflexivity.
Qed.

Lemma field_handlers_exact self n :
  n ∈ RegistrationView.valid_fields →
  ∃ handler, RegistrationView.field_handlers env self !! n = Some handler
    ∧ ∀ base r fd, keys_ok base → form_inv base fd →
        exact_post base n r fd (handler r).
Proof.
  intros Hn.
  unfold RegistrationView.valid_fields, RegistrationView.DEFAULT_FIELDS,
    RegistrationView.EXTRA_FIELDS in Hn. simpl in Hn.
  repeat (apply elem_of_cons in Hn as [-> | Hn]);
    [..| by apply elem_of_nil in Hn];
    (eexists; split; [reflexivity|]; cbn [snd]; intros base r fd Hkeys Hinv).
  all: try (apply exact_country; done).
  all: try (unfold RegistrationView._add_honor_code_field;
            destruct (RegistrationView._is_field_visible self
                        "terms_of_service")).
  all: apply exact_simple; [reflexivity | done | done].
Qed.

(** Calling the handler of a valid field appends the handler's own field,
    overlaid with the overrides of that name. *)
Lemma call_handler_exact self base n r fd :
  n ∈ RegistrationView.valid_fields → keys_ok base → form_inv base fd →
  ∃ fd' f, RegistrationView.call_handler env self n r fd = Ok ((), fd')
    ∧ form_inv base fd'
    ∧ fields fd' = fields fd ++ [f]
    ∧ handler_field env self base n r f.
Proof.
  intros Hn Hkeys Hinv.
  destruct (field_handlers_exact self n Hn) as (handler & Hlookup & Hpost).
  destruct (Hpost base r fd Hkeys Hinv)
    as (fd' & f & p & H1 & H2 & H3 & H4 & H5 & H6 & H7).
  exists fd', f. unfold RegistrationView.call_handler. rewrite Hlookup.
  split; [done|]. split; [done|]. split; [done|].
  exists p. unfold pristine, RegistrationView.call_handler. rewrite Hlookup.
  exact (conj H4 (conj H5 (conj H6 H7))).
Qed.

End ExactHandlers.

(** ** The whole form *)

Section ExactForm.
Context (env : Environment).

Implicit Types (fd : FormDescription) (base : gmap string (gmap string value)).
Implicit Types (self : RegistrationView.RegistrationView).

Import RegistrationView.

(** A loop whose iterations append one field, for the selected elements,
    or nothing. *)
Lemma for_each_exact {A} (P : FormDescription → Prop) (sel : A → bool)
    (Φ : A → gmap string value → Prop) (l : list A) (body : A → M unit) :
  (∀ x fd, x ∈ l → P fd →
     if sel x
     then ∃ fd' f, body x fd = Ok ((), fd') ∧ P fd'
            ∧ fields fd' = fields fd ++ [f] ∧ Φ x f
     else body x fd = Ok ((), fd)) →
  ∀ fd, P fd →
    ∃ fd' fs, for_each l body fd = Ok ((), fd') ∧ P fd'
      ∧ fields fd' = fields fd ++ fs
      ∧ Forall2 Φ (List.filter sel l) fs.
Proof.
  induction l as [|x l IH]; intros Hbody fd HP.
  - exists fd, []. split; [done|]. split; [done|].
    split; [by rewrite app_nil_r | constructor].
  - assert (Hrest : ∀ y fd0, y ∈ l → P fd0 →
              if sel y
              then ∃ fd' f, body y fd0 = Ok ((), fd') ∧ P fd'
                     ∧ fields fd' = fields fd0 ++ [f] ∧ Φ y f
              else body y fd0 = Ok ((), fd0)).
    { intros y fd0 Hy. apply Hbody. by right. }
    specialize (Hbody x fd (list_elem_of_here _ _) HP).
    cbn [List.filter for_each]. unfold bind. destruct (sel x).
    + destruct Hbody as (fd1 & f & Hrun & HP1 & Hf1 & HΦ).
      destruct (IH Hrest fd1 HP1) as (fd2 & fs & Hrun2 & HP2 & Hf2 & Hall).
      exists fd2, (f :: fs). rewrite Hrun. split; [done|]. split; [done|].
      split; [|by constructor].
      by rewrite Hf2, Hf1, <- app_assoc.
    + destruct (IH Hrest fd HP) as (fd2 & fs & Hrun2 & HP2 & Hf2 & Hall).
      exists fd2, fs. by rewrite Hbody.
Qed.

Lemma filter_true {A} (l : list A) : List.filter (λ _, true) l = l.
Proof. induction l as [|x l IH]; [done|]. simpl. by rewrite IH. Qed.

Lemma custom_field_exact custom_form base entry fd :
  truthy (custom_field_type env custom_form entry) = true →
  keys_ok base → form_inv base fd →
  ∃ fd' f, add_custom_field env custom_form entry fd = Ok ((), fd')
    ∧ form_inv base fd'
    ∧ fields fd' = fields fd ++ [f]
    ∧ f !! "name" = Some (VStr entry.1).
Proof.
  intros Htyped Hkeys Hinv. unfold add_custom_field.
  destruct entry as [field_name field]. rewrite Htyped. cbn [negb].
  edestruct (add_field_spec base field_name) with (fd := fd)
    as (fd' & f & Hrun & _ & Hinv' & Hfields & Hname & _); [done..|].
  exists fd', f. split; [exact Hrun|]. done.
Qed.

(** The form [get] serialises, field by field. *)
Lemma describe_exact self request :
  __init__ env = Ok self →
  extension_form_typed env = true →
  country_is_text env request = true →
  let base := initial_overrides env request in
  ∃ fd, describe env self request
          (new "post" (reverse env "user_api_registration")) = Ok ((), fd)
    ∧ match get_registration_extension_form env with
      | None =>
          ∃ fs, fields fd = initial_fields env request ++ fs
            ∧ Forall2 (λ n f, handler_field env self base n
                                (shown_required self n) f)
                (List.filter (shown self) (field_order self)) fs
      | Some custom_form =>
          ∃ fs1 fs2 fs3,
            fields fd = initial_fields env request ++ fs1 ++ fs2 ++ fs3
            ∧ Forall2 (λ n f, handler_field env self base n true f)
                DEFAULT_FIELDS fs1
            ∧ Forall2 (λ entry f, f !! "name" = Some (VStr entry.1))
                (form_fields custom_form) fs2
            ∧ Forall2 (λ n f, handler_field env self base n
                                (_is_field_required self n) f)
                (List.filter (_is_field_visible self) EXTRA_FIELDS) fs3
      end.
Proof.
  intros Hinit Htyped Hcountry base.
  destruct (tpa_spec env request Hcountry)
    as (fd0 & Hrun0 & Hov0 & Hkeys & Hinv0 & _).
  assert (Hfields0 : fields fd0 = initial_fields env request).
  { unfold initial_fields. by rewrite Hrun0. }
  subst base. rewrite <- Hov0, <- Hfields0.
  set (base := _field_overrides fd0) in *.
  unfold describe. erewrite bind_run by exact Hrun0.
  unfold extension_form_typed in Htyped.
  destruct (get_registration_extension_form env) as [custom_form|].
  - edestruct (for_each_exact (form_inv base) (λ _, true)
      (λ n f, handler_field env self base n true f) DEFAULT_FIELDS
      (λ field_name, call_handler env self field_name true))
      as (fd1 & fs1 & Hrun1 & Hinv1 & Hf1 & Hall1).
    { intros n fd Hn Hinv. cbv beta.
      destruct (call_handler_exact env self base n true fd)
        as (fd' & f & H1 & H2 & H3 & H4); [|done..|by eauto 10].
      apply elem_of_app. by left. }
    { exact Hinv0. }
    edestruct (for_each_exact (form_inv base) (λ _, true)
      (λ (entry : string * FormField) f, f !! "name" = Some (VStr entry.1))
      (form_fields custom_form) (add_custom_field env custom_form))
      as (fd2 & fs2 & Hrun2 & Hinv2 & Hf2 & Hall2).
    { intros entry fd Hentry Hinv. cbv beta.
      destruct (custom_field_exact custom_form base entry fd)
        as (fd' & f & H1 & H2 & H3 & H4); [|done..|by eauto 10].
      rewrite forallb_forall in Htyped. apply Htyped.
      by apply list_elem_of_In. }
    { exact Hinv1. }
    edestruct (for_each_exact (form_inv base) (_is_field_visible self)
      (λ n f, handler_field env self base n (_is_field_required self n) f)
      EXTRA_FIELDS
      (λ field_name,
         if _is_field_visible self field_name
         then call_handler env self field_name
                (_is_field_required self field_name)
         else ret ()))
      as (fd3 & fs3 & Hrun3 & Hinv3 & Hf3 & Hall3).
    { intros n fd Hn Hinv. destruct (_is_field_visible self n); [|done].
      destruct (call_handler_exact env self base n
                  (_is_field_required self n) fd)
        as (fd' & f & H1 & H2 & H3 & H4); [|done..|by eauto 10].
      apply elem_of_app. by right. }
    { exact Hinv2. }
    exists fd3. split.
    { erewrite bind_run by exact Hrun1. erewrite bind_run by exact Hrun2.
      exact Hrun3. }
    rewrite filter_true in Hall1. rewrite filter_true in Hall2.
    exists fs1, fs2, fs3. split; [|done].
    by rewrite Hf3, Hf2, Hf1, <- !app_assoc.
  - edestruct (for_each_exact (form_inv base) (shown self)
      (λ n f, handler_field env self base n (shown_required self n) f)
      (field_order self)
      (λ field_name,
         if bool_decide (field_name ∈ DEFAULT_FIELDS)
         then call_handler env self field_name true
         else if _is_field_visible self field_name
         then call_handler env self field_name
                (_is_field_required self field_name)
         else ret ()))
      as (fd1 & fs & Hrun1 & Hinv1 & Hf1 & Hall).
    { intros n fd Hn%(init_field_order env self n Hinit) Hinv.
      unfold shown, shown_required.
      destruct (bool_decide (n ∈ DEFAULT_FIELDS)); cbn [orb].
      - destruct (call_handler_exact env self base n true fd)
          as (fd' & f & H1 & H2 & H3 & H4); [done..|by eauto 10].
      - destruct (_is_field_visible self n); [|done].
        destruct (call_handler_exact env self base n
                    (_is_field_required self n) fd)
          as (fd' & f & H1 & H2 & H3 & H4); [done..|by eauto 10]. }
    { exact Hinv0. }
    exists fd1. split; [exact Hrun1|]. by exists fs.
Qed.

End ExactForm.

(** ** What third-party auth records, exactly *)

Section ExactOverrides.
Context (env : Environment).

Implicit Types (fd : FormDescription) (field_overrides : gmap string value).

Import RegistrationView.

Lemma override_from_provider_exact field_overrides hide m fd :
  _field_overrides fd !!! m = ∅ →
  ∃ fd', override_from_provider field_overrides hide m fd = Ok ((), fd')
    ∧ fields fd' = fields fd
    ∧ _field_overrides fd' !!! m = provider_overrides field_overrides hide m
    ∧ ∀ n, n ≠ m → _field_overrides fd' !!! n = _field_overrides fd !!! n.
Proof.
  intros Hempty. unfold override_from_provider, provider_overrides.
  destruct (field_overrides !! m) as [v|]; [|by exists fd].
  erewrite bind_run by reflexivity.
  destruct (bool_decide (m ∉ ["terms_of_service"; "honor_code"])
            && truthy v && hide).
  - eexists. split; [reflexivity|]. cbn [fields _field_overrides].
    split; [done|]. split.
    + rewrite !lookup_total_insert_eq, Hempty, overridden_default,
        overridden_hidden. by rewrite (right_id_L ∅ (∪)).
    + intros n Hne. by rewrite !lookup_total_insert_ne.
  - eexists. split; [reflexivity|]. cbn [fields _field_overrides].
    split; [done|]. split.
    + rewrite lookup_total_insert_eq, Hempty, overridden_default.
      by rewrite (right_id_L ∅ (∪)), (left_id_L ∅ (∪)).
    + intros n Hne. by rewrite lookup_total_insert_ne.
Qed.

Lemma provider_loop_exact field_overrides hide l fd :
  NoDup l →
  (∀ n, n ∈ l → _field_overrides fd !!! n = ∅) →
  ∃ fd', for_each l (override_from_provider field_overrides hide) fd
         = Ok ((), fd')
    ∧ fields fd' = fields fd
    ∧ ∀ n, _field_overrides fd' !!! n =
        if decide (n ∈ l) then provider_overrides field_overrides hide n
        else _field_overrides fd !!! n.
Proof.
  revert fd. induction l as [|m l IH]; intros fd Hnodup Hempty.
  - exists fd. split; [done|]. split; [done|]. intros n.
    case_decide as Hin; [by apply elem_of_nil in Hin | done].
  - apply NoDup_cons in Hnodup as [Hm Hnodup].
    destruct (override_from_provider_exact field_overrides hide m fd)
      as (fd1 & Hrun1 & Hf1 & Hm1 & Hother1); [apply Hempty; by left|].
    destruct (IH fd1 Hnodup) as (fd2 & Hrun2 & Hf2 & Hall2).
    { intros n Hn. rewrite Hother1; [apply Hempty; by right|].
      by intros ->. }
    exists fd2. split; [|split].
    + cbn [for_each]. unfold bind. by rewrite Hrun1.
    + by rewrite Hf2.
    + intros n. rewrite Hall2.
      destruct (decide (n ∈ l)) as [Hin|Hnotin].
      * rewrite decide_True; [done | by right].
      * destruct (decide (n = m)) as [->|Hne].
        -- rewrite decide_True by left. done.
        -- rewrite decide_False; [by apply Hother1|].
           by intros [?|?]%elem_of_cons.
Qed.

(** What [_apply_third_party_auth_overrides] leaves in a new form
    description when a provider is in charge. *)
Lemma tpa_exact request provider :
  current_provider env request = Some provider →
  initial_fields env request = [social_auth_field provider]
  ∧ ∀ n, initial_overrides env request !!! n =
      (if decide (n = "password") then password_overrides else ∅)
      ∪ (if decide (n ∈ valid_fields)
         then provider_overrides (register_form_data env request)
                (hides_registration_fields env request) n
         else ∅).
Proof.
  intros Hprovider.
  destruct (provider_loop_exact (register_form_data env request)
              (hides_registration_fields env request)
              (DEFAULT_FIELDS ++ EXTRA_FIELDS)
              (new "post" (reverse env "user_api_registration")))
    as (fd1 & Hrun1 & Hf1 & Hall1).
  { compute_done. }
  { intros n _. apply no_overrides. }
  assert (Hov : ∀ n,
    (<["password" := overridden_properties password_kwargs
                     ∪ (_field_overrides fd1 !!! "password")]>
       (_field_overrides fd1)) !!! n =
    (if decide (n = "password") then password_overrides else ∅)
    ∪ (if decide (n ∈ valid_fields)
       then provider_overrides (register_form_data env request)
              (hides_registration_fields env request) n
       else ∅)).
  { intros n. destruct (decide (n = "password")) as [->|Hne].
    - rewrite lookup_total_insert_eq, Hall1. unfold password_kwargs.
      by rewrite overridden_password.
    - rewrite lookup_total_insert_ne, Hall1 by done.
      rewrite (left_id_L ∅ (∪)). unfold valid_fields.
      case_decide; [done | apply no_overrides]. }
  assert (Hrun : ∃ fd, _apply_third_party_auth_overrides env request
                   (new "post" (reverse env "user_api_registration"))
                   = Ok ((), fd)
            ∧ fields fd = [social_auth_field provider]
            ∧ _field_overrides fd
              = <["password" := overridden_properties password_kwargs
                                ∪ (_field_overrides fd1 !!! "password")]>
                  (_field_overrides fd1)).
  { eexists. split.
    { rewrite (tpa_run_some env request provider) by done.
      erewrite bind_run by exact Hrun1.
      erewrite bind_run by reflexivity. reflexivity. }
    cbn [fields _field_overrides]. split; [|done].
    rewrite Hf1, Hov. cbn [new fields app].
    rewrite decide_False by done.
    rewrite decide_False by compute_done.
    by rewrite !(left_id_L ∅ (∪)). }
  destruct Hrun as (fd & Hrun & Hfields & Hovs).
  unfold initial_fields, initial_overrides. rewrite Hrun, Hovs.
  split; [done|]. exact Hov.
Qed.

(** Without a provider in charge nothing is recorded and nothing is
    added. *)
Lemma tpa_exact_none request :
  current_provider env request = None →
  initial_fields env request = []
  ∧ initial_overrides env request = ∅.
Proof.
  intros Hnone. unfold initial_fields, initial_overrides.
  by rewrite (tpa_run_none env request _ Hnone).
Qed.

End ExactOverrides.

(** ** Reading the form field by field *)

Section ExactGet.
Context (env : Environment).

Implicit Types (base : gmap string (gmap string value)).
Implicit Types (self : RegistrationView.RegistrationView).

Import RegistrationView.

Lemma Forall2_names {A} (Φ : A → gmap string value → Prop)
    (name_of : A → string) (l : list A) (fs : list (gmap string value)) :
  Forall2 Φ l fs →
  (∀ x f, Φ x f → f !! "name" = Some (VStr (name_of x))) →
  field_names fs = names (name_of <$> l).
Proof.
  intros Hall Hname. induction Hall as [|x f l fs HΦ _ IH]; [done|].
  unfold field_names, names in *. cbn [fmap list_fmap].
  by rewrite (Hname x f HΦ), <- IH.
Qed.

Lemma Forall2_find {A} (Φ : A → gmap string value → Prop)
    (l : list A) (fs : list (gmap string value)) x :
  Forall2 Φ l fs → x ∈ l → ∃ f, f ∈ fs ∧ Φ x f.
Proof.
  intros Hall. induction Hall as [|y f l fs HΦ _ IH]; intros Hx.
  - by apply elem_of_nil in Hx.
  - apply elem_of_cons in Hx as [->|Hx].
    + exists f. split; [left | done].
    + destruct (IH Hx) as (g & Hg & HΦg). exists g. split; [by right | done].
Qed.

Lemma elem_of_filter_bool {A} (sel : A → bool) (l : list A) x :
  x ∈ List.filter sel l ↔ x ∈ l ∧ sel x = true.
Proof. rewrite !list_elem_of_In. apply filter_In. Qed.

Lemma handler_field_name self base n r f :
  keys_ok base → handler_field env self base n r f →
  f !! "name" = Some (VStr n).
Proof.
  intros Hkeys (p & _ & Hname & _ & ov & -> & Hagree).
  rewrite lookup_union_r; [done|]. rewrite Hagree by (intros [=]).
  destruct ((base !!! n) !! "name") eqn:E; [|done].
  assert (Hin : "name" ∈ OVERRIDE_FIELD_PROPERTIES) by (eapply Hkeys; eauto).
  exfalso. revert Hin. compute_done.
Qed.

(** A property nothing overrides is the handler's own. *)
Lemma handler_field_own self base n r f k :
  handler_field env self base n r f →
  (n, k) ≠ ("country", "defaultValue") →
  (base !!! n) !! k = None →
  ∃ p, pristine env self n r = Some p ∧ f !! k = p !! k.
Proof.
  intros (p & Hp & _ & _ & ov & -> & Hagree) Hne Hnone.
  exists p. split; [done|]. rewrite lookup_union_r; [done|].
  by rewrite Hagree.
Qed.

(** An overridden property is the override. *)
Lemma handler_field_overridden self base n r f k v :
  handler_field env self base n r f →
  (n, k) ≠ ("country", "defaultValue") →
  (base !!! n) !! k = Some v →
  f !! k = Some v.
Proof.
  intros (p & Hp & _ & _ & ov & -> & Hagree) Hne Hsome.
  apply lookup_union_Some_l. by rewrite Hagree.
Qed.

Lemma get_of_describe self request fd :
  describe env self request
    (new "post" (reverse env "user_api_registration")) = Ok ((), fd) →
  ∃ response, get env self request = Ok response
    ∧ status_code response = 200%Z
    ∧ form_fields_of response = fields fd.
Proof.
  intros Hrun. eexists. unfold get. rewrite Hrun. by repeat split.
Qed.

Lemma keys_ok_initial request :
  country_is_text env request = true →
  keys_ok (initial_overrides env request).
Proof.
  intros Hcountry.
  destruct (tpa_spec env request Hcountry) as (fd & _ & <- & Hkeys & _).
  done.
Qed.

(** The names of the fields of the form, without an extension form. *)
Lemma get_names_plain self request :
  __init__ env = Ok self →
  get_registration_extension_form env = None →
  country_is_text env request = true →
  ∃ response, get env self request = Ok response
    ∧ field_names (form_fields_of response)
      = field_names (initial_fields env request)
        ++ names (List.filter (shown self) (field_order self)).
Proof.
  intros Hinit Hnone Hcountry.
  assert (Htyped : extension_form_typed env = true)
    by (unfold extension_form_typed; by rewrite Hnone).
  destruct (describe_exact env self request Hinit Htyped Hcountry)
    as (fd & Hrun & Hshape).
  rewrite Hnone in Hshape. destruct Hshape as (fs & Hfields & Hall).
  destruct (get_of_describe self request fd Hrun)
    as (response & Hget & _ & Hform).
  exists response. split; [done|].
  rewrite Hform, Hfields. unfold field_names at 1. rewrite fmap_app.
  f_equal. fold (field_names fs).
  rewrite (Forall2_names _ id _ _ Hall); [by rewrite list_fmap_id|].
  intros n f Hf. eapply handler_field_name; [|exact Hf].
  by apply keys_ok_initial.
Qed.

(** Every field [get] shows is in the form as its handler builds it. *)
Lemma get_handler_field self request n :
  __init__ env = Ok self →
  extension_form_typed env = true →
  country_is_text env request = true →
  n ∈ valid_fields → shown self n = true →
  ∃ response, get env self request = Ok response
    ∧ ∃ f, f ∈ form_fields_of response
        ∧ handler_field env self (initial_overrides env request) n
            (shown_required self n) f.
Proof.
  intros Hinit Htyped Hcountry Hn Hshown.
  destruct (describe_exact env self request Hinit Htyped Hcountry)
    as (fd & Hrun & Hshape).
  destruct (get_of_describe self request fd Hrun)
    as (response & Hget & _ & Hform).
  exists response. split; [done|]. rewrite Hform.
  destruct (get_registration_extension_form env) as [custom_form|].
  - destruct Hshape as (fs1 & fs2 & fs3 & -> & Hall1 & _ & Hall3).
    unfold valid_fields in Hn. apply elem_of_app in Hn as [Hd|He].
    + destruct (Forall2_find _ _ _ n Hall1 Hd) as (f & Hf & HΦ).
      exists f. split; [rewrite !elem_of_app; tauto|].
      unfold shown_required. by rewrite bool_decide_eq_true_2.
    + assert (Hnd : n ∉ DEFAULT_FIELDS) by by apply extra_not_default.
      assert (Hvisible : _is_field_visible self n = true).
      { unfold shown in Hshown. by rewrite bool_decide_eq_false_2 in Hshown. }
      destruct (Forall2_find _ _ _ n Hall3) as (f & Hf & HΦ).
      { apply elem_of_filter_bool. by split. }
      exists f. split; [rewrite !elem_of_app; tauto|].
      unfold shown_required. by rewrite bool_decide_eq_false_2.
  - destruct Hshape as (fs & -> & Hall).
    destruct (Forall2_find _ _ _ n Hall) as (f & Hf & HΦ).
    { apply elem_of_filter_bool. split; [|done].
      by apply (init_field_order env self n Hinit). }
    exists f. split; [rewrite !elem_of_app; tauto | done].
Qed.

End ExactGet.

(** ** Construction of the view *)

Lemma check_extra_fields_ok (extra : gmap string string) names :
  (∀ n, n ∈ names →
     default "hidden" (extra !! n) ∈ ["required"; "optional"; "hidden"]) →
  RegistrationView.check_extra_fields extra names = Ok ().
Proof.
  induction names as [|m names IH]; intros Hall; [done|].
  simpl. rewrite bool_decide_eq_false_2.
  - apply IH. intros n Hn. apply Hall. by right.
  - intros Hbad. apply Hbad, Hall. by left.
Qed.

(** X1: the view is constructed exactly when every value the configured
    REGISTRATION_EXTRA_FIELDS gives to one of the view's EXTRA_FIELDS is
    "required", "optional" or "hidden". *)
Theorem construction_iff env :
  is_ok (__init__ env) = true
  ↔ ∀ n v, n ∈ EXTRA_FIELDS →
      configured_extra_fields env !! n = Some v → v ∈ VISIBILITY.
Proof.
  split.
  - intros Hok n v Hn Hv. destruct (decide (v ∈ VISIBILITY)) as [|Hbad]; [done|].
    exfalso. unfold __init__ in Hok.
    rewrite (check_extra_fields_raises _ _ n) in Hok; [done | done |].
    destruct (decide (n = "honor_code")) as [->|Hne].
    + by rewrite lookup_insert_eq, Hv.
    + by rewrite lookup_insert_ne, Hv.
  - intros Hall. unfold __init__. rewrite check_extra_fields_ok; [done|].
    intros n Hn. destruct (decide (n = "honor_code")) as [->|Hne].
    + rewrite lookup_insert_eq.
      destruct (configured_extra_fields env !! "honor_code") as [v|] eqn:Hv.
      * by apply (Hall "honor_code").
      * compute_done.
    + rewrite lookup_insert_ne by done.
      destruct (configured_extra_fields env !! n) as [v|] eqn:Hv.
      * by apply (Hall n).
      * compute_done.
Qed.

Lemma same_elements_set (l1 l2 : list string) :
  (∀ n, n ∈ l2 ↔ n ∈ l1) → (list_to_set l1 : gset string) = list_to_set l2.
Proof.
  intros Hsame. apply set_eq. intros n.
  rewrite !elem_of_list_to_set. symmetry. apply Hsame.
Qed.

(** X2: the field order of a constructed view lists exactly the valid
    fields; it is the configured order when that order has exactly the
    valid fields as members, and the default order otherwise. *)
Theorem field_order_valid env self :
  __init__ env = Ok self →
  (∀ n, n ∈ field_order self ↔ n ∈ valid_fields)
  ∧ ((∀ n, n ∈ configured_field_order env ↔ n ∈ valid_fields) →
     field_order self = configured_field_order env)
  ∧ (¬ (∀ n, n ∈ configured_field_order env ↔ n ∈ valid_fields) →
     field_order self = valid_fields).
Proof.
  intros Hinit. split; [intros n; by apply (init_field_order env)|].
  unfold __init__ in Hinit. destruct (check_extra_fields _ _); [|done].
  injection Hinit as <-. cbn [field_order].
  destruct (bool_decide _) eqn:Hset.
  - apply bool_decide_eq_true in Hset. split; [|done].
    intros Hsame. exfalso. apply Hset.
    exact (same_elements_set valid_fields (configured_field_order env) Hsame).
  - apply bool_decide_eq_false, dec_stable in Hset. split; [done|].
    intros Hdiff. exfalso. apply Hdiff. intros n.
    exact (same_elements valid_fields (configured_field_order env) n Hset).
Qed.

Lemma field_order_valid_witness :
  (∀ n, n ∈ field_order (Sample.view_of Sample.city_env) ↔ n ∈ valid_fields)
  ∧ ((∀ n, n ∈ configured_field_order Sample.city_env ↔ n ∈ valid_fields) →
     field_order (Sample.view_of Sample.city_env)
     = configured_field_order Sample.city_env)
  ∧ (¬ (∀ n, n ∈ configured_field_order Sample.city_env ↔ n ∈ valid_fields) →
     field_order (Sample.view_of Sample.city_env) = valid_fields).
Proof.
  apply (field_order_valid Sample.city_env (Sample.view_of Sample.city_env)).
  vm_compute. reflexivity.
Defined.

(** ** The order and the presence of the fields *)

Lemma provider_overrides_empty hide n : provider_overrides ∅ hide n = ∅.
Proof. unfold provider_overrides. by rewrite lookup_empty. Qed.

Lemma register_form_data_none env request :
  current_provider env request = None → register_form_data env request = ∅.
Proof.
  intros Hnone. unfold register_form_data. rewrite Hnone.
  by destruct (running_pipeline request).
Qed.

(** The overrides of a field other than the password. *)
Lemma initial_overrides_at env request n :
  n ≠ "password" ∨ current_provider env request = None →
  initial_overrides env request !!! n =
    if decide (n ∈ valid_fields)
    then provider_overrides (register_form_data env request)
           (hides_registration_fields env request) n
    else ∅.
Proof.
  intros Hn. destruct (current_provider env request) as [provider|] eqn:Hp.
  - destruct Hn as [Hne|[=]].
    destruct (tpa_exact env request provider Hp) as [_ Hov].
    rewrite Hov, decide_False by done. by rewrite (left_id_L ∅ (∪)).
  - destruct (tpa_exact_none env request Hp) as [_ ->].
    rewrite no_overrides, (register_form_data_none env request Hp).
    rewrite provider_overrides_empty. by case_decide.
Qed.

Lemma initial_field_names env request :
  field_names (initial_fields env request) =
    match current_provider env request with
    | Some _ => [Some (VStr "social_auth_provider")]
    | None => []
    end.
Proof.
  destruct (current_provider env request) as [provider|] eqn:Hp.
  - destruct (tpa_exact env request provider Hp) as [-> _].
    unfold field_names, social_auth_field. cbn [fmap list_fmap].
    by rewrite field_dict_name.
  - by destruct (tpa_exact_none env request Hp) as [-> _].
Qed.

(** X3: without an extension form, the fields of the registration form are,
    in this order: the social_auth_provider field if a third-party-auth
    provider is in charge, then the fields of the view's field order that
    are default fields or are configured required or optional. *)
Theorem form_order_plain env self request :
  __init__ env = Ok self →
  get_registration_extension_form env = None →
  country_is_text env request = true →
  ∃ response, get env self request = Ok response
    ∧ field_names (form_fields_of response)
      = match current_provider env request with
        | Some _ => [Some (VStr "social_auth_provider")]
        | None => []
        end
        ++ names (List.filter (shown self) (field_order self)).
Proof.
  intros Hinit Hnone Hcountry.
  destruct (get_names_plain env self request Hinit Hnone Hcountry)
    as (response & Hget & Hnames).
  exists response. split; [done|]. by rewrite Hnames, initial_field_names.
Qed.

Lemma form_order_plain_witness :
  ∃ response,
    get Sample.city_env (Sample.view_of Sample.city_env) Sample.tpa_request
    = Ok response
    ∧ field_names (form_fields_of response)
      = match current_provider Sample.city_env Sample.tpa_request with
        | Some _ => [Some (VStr "social_auth_provider")]
        | None => []
        end
        ++ names (List.filter (shown (Sample.view_of Sample.city_env))
                    (field_order (Sample.view_of Sample.city_env))).
Proof.
  apply (form_order_plain Sample.city_env (Sample.view_of Sample.city_env)
           Sample.tpa_request); vm_compute; reflexivity.
Defined.

(** In the sample deployment with its own field order, that is: *)
Example city_form_order :
  names (List.filter (shown (Sample.view_of Sample.city_env))
           (field_order (Sample.view_of Sample.city_env)))
  = names ["username"; "email"; "password"; "name"; "honor_code";
           "country"; "city"].
Proof. vm_compute. reflexivity. Qed.

(** X4: without an extension form, an extra field that is configured
    neither required nor optional is not in the registration form. *)
Theorem hidden_field_absent env self request n :
  __init__ env = Ok self →
  get_registration_extension_form env = None →
  country_is_text env request = true →
  n ∈ EXTRA_FIELDS →
  _is_field_visible self n = false →
  ∃ response, get env self request = Ok response
    ∧ ∀ f, f ∈ form_fields_of response → f !! "name" ≠ Some (VStr n).
Proof.
  intros Hinit Hnone Hcountry Hn Hhidden.
  destruct (get_names_plain env self request Hinit Hnone Hcountry)
    as (response & Hget & Hnames).
  exists response. split; [done|]. intros f Hf Hname.
  assert (Hin : Some (VStr n) ∈ field_names (form_fields_of response)).
  { rewrite <- Hname. unfold field_names.
    apply list_elem_of_fmap. by exists f. }
  rewrite Hnames, initial_field_names in Hin.
  apply elem_of_app in Hin as [Hin|Hin].
  - destruct (current_provider env request);
      [|by apply elem_of_nil in Hin].
    apply list_elem_of_singleton in Hin. injection Hin as ->.
    revert Hn. compute_done.
  - unfold names in Hin. apply list_elem_of_fmap in Hin as (m & [= <-] & Hm).
    apply elem_of_filter_bool in Hm as [_ Hshown].
    unfold shown in Hshown. rewrite Hhidden in Hshown.
    rewrite bool_decide_eq_false_2 in Hshown by by apply extra_not_default.
    done.
Qed.

Lemma hidden_field_absent_witness :
  ∃ response,
    get Sample.city_env (Sample.view_of Sample.city_env) Sample.tpa_request
    = Ok response
    ∧ ∀ f, f ∈ form_fields_of response →
        f !! "name" ≠ Some (VStr "terms_of_service").
Proof.
  apply (hidden_field_absent Sample.city_env (Sample.view_of Sample.city_env)
           Sample.tpa_request "terms_of_service");
    [vm_compute; reflexivity | vm_compute; reflexivity
    | vm_compute; reflexivity | compute_done | vm_compute; reflexivity].
Defined.

(** X5: with an extension form, the fields of the registration form are, in
    this order: the social_auth_provider field if a provider is in charge,
    the four default fields, the fields of the extension form, then the
    extra fields that are configured required or optional, in the order of
    EXTRA_FIELDS; the configured field order is not used. *)
Theorem form_order_extension env self request custom_form :
  __init__ env = Ok self →
  get_registration_extension_form env = Some custom_form →
  extension_form_typed env = true →
  country_is_text env request = true →
  ∃ response, get env self request = Ok response
    ∧ field_names (form_fields_of response)
      = match current_provider env request with
        | Some _ => [Some (VStr "social_auth_provider")]
        | None => []
        end
        ++ names DEFAULT_FIELDS
        ++ names (fst <$> form_fields custom_form)
        ++ names (List.filter (_is_field_visible self) EXTRA_FIELDS).
Proof.
  intros Hinit Hform Htyped Hcountry.
  destruct (describe_exact env self request Hinit Htyped Hcountry)
    as (fd & Hrun & Hshape).
  rewrite Hform in Hshape.
  destruct Hshape as (fs1 & fs2 & fs3 & Hfields & Hall1 & Hall2 & Hall3).
  destruct (get_of_describe env self request fd Hrun)
    as (response & Hget & _ & Hresponse).
  exists response. split; [done|].
  assert (Hkeys := keys_ok_initial env request Hcountry).
  rewrite Hresponse, Hfields. unfold field_names at 1. rewrite !fmap_app.
  fold (field_names (initial_fields env request)) (field_names fs1)
       (field_names fs2) (field_names fs3).
  rewrite initial_field_names.
  rewrite (Forall2_names _ id _ _ Hall1), (Forall2_names _ fst _ _ Hall2),
    (Forall2_names _ id _ _ Hall3), ?list_fmap_id; [done|..].
  - intros n f Hf. by eapply handler_field_name.
  - done.
  - intros n f Hf. by eapply handler_field_name.
Qed.

Lemma form_order_extension_witness :
  ∃ response,
    get Sample.extension_env (Sample.view_of Sample.extension_env)
      Sample.plain_request = Ok response
    ∧ field_names (form_fields_of response)
      = match current_provider Sample.extension_env Sample.plain_request with
        | Some _ => [Some (VStr "social_auth_provider")]
        | None => []
        end
        ++ names DEFAULT_FIELDS
        ++ names (fst <$> form_fields Sample.extension_form)
        ++ names (List.filter
                    (_is_field_visible (Sample.view_of Sample.extension_env))
                    EXTRA_FIELDS).
Proof.
  apply (form_order_extension Sample.extension_env
           (Sample.view_of Sample.extension_env) Sample.plain_request
           Sample.extension_form); vm_compute; reflexivity.
Defined.

(** ** What the fields carry *)

Lemma provider_overrides_default field_overrides hide n v :
  field_overrides !! n = Some v →
  provider_overrides field_overrides hide n !! "defaultValue" = Some v.
Proof.
  intros Hv. unfold provider_overrides. rewrite Hv.
  destruct (_ && _).
  - rewrite lookup_union_r; [apply lookup_singleton_eq | reflexivity].
  - rewrite (left_id_L ∅ (∪)). apply lookup_singleton_eq.
Qed.

(** Only a default value, a type, a label and instructions are recorded
    from the provider. *)
Lemma provider_overrides_other field_overrides hide n k :
  k ∉ ["defaultValue"; "type"; "label"; "instructions"] →
  provider_overrides field_overrides hide n !! k = None.
Proof.
  intros Hk. unfold provider_overrides.
  destruct (field_overrides !! n) as [v|]; [|done].
  assert (Hdefault : ({["defaultValue" := v]} : gmap string value) !! k = None).
  { apply lookup_singleton_ne. intros <-. apply Hk. compute_done. }
  destruct (_ && _).
  - rewrite lookup_union_r; [done|]. unfold kw. cbn [list_to_map foldr].
    rewrite !lookup_insert_ne; [done|..]; intros <-; apply Hk; compute_done.
  - by rewrite (left_id_L ∅ (∪)).
Qed.

(** The two checkboxes are never hidden. *)
Lemma provider_overrides_checkbox field_overrides hide n k :
  n ∈ ["terms_of_service"; "honor_code"] → k ≠ "defaultValue" →
  provider_overrides field_overrides hide n !! k = None.
Proof.
  intros Hn Hk. unfold provider_overrides.
  destruct (field_overrides !! n) as [v|]; [|done].
  rewrite bool_decide_eq_false_2 by (by intros Hnot). cbn [andb].
  rewrite (left_id_L ∅ (∪)). by apply lookup_singleton_ne.
Qed.

(** X6: an extra field configured required or optional is in the
    registration form, marked required exactly when it is configured
    required. *)
Theorem extra_field_flag env self request n :
  __init__ env = Ok self →
  extension_form_typed env = true →
  country_is_text env request = true →
  n ∈ EXTRA_FIELDS →
  _is_field_visible self n = true →
  ∃ response, get env self request = Ok response
    ∧ ∃ f, f ∈ form_fields_of response
        ∧ f !! "name" = Some (VStr n)
        ∧ f !! "required"
          = Some (VBool (bool_decide
              (_extra_fields_setting self !! n = Some "required"))).
Proof.
  intros Hinit Htyped Hcountry Hn Hvisible.
  destruct (get_spec env self request Hinit Htyped Hcountry)
    as (response & Hget & _ & _ & _ & Hextra & Hreq & _).
  exists response. split; [done|].
  destruct (Hextra n Hn Hvisible) as (f & Hf & Hname & Hrequired).
  exists f. split; [done|]. split; [done|]. apply Hrequired, Hreq. left.
  intros ->. revert Hn. compute_done.
Qed.

Lemma extra_field_flag_witness :
  ∃ response,
    get Sample.city_env (Sample.view_of Sample.city_env) Sample.tpa_request
    = Ok response
    ∧ ∃ f, f ∈ form_fields_of response
        ∧ f !! "name" = Some (VStr "city")
        ∧ f !! "required"
          = Some (VBool (bool_decide
              (_extra_fields_setting (Sample.view_of Sample.city_env)
                 !! "city" = Some "required"))).
Proof.
  apply (extra_field_flag Sample.city_env (Sample.view_of Sample.city_env)
           Sample.tpa_request "city");
    [vm_compute; reflexivity | vm_compute; reflexivity
    | vm_compute; reflexivity | compute_done | vm_compute; reflexivity].
Defined.

(** The honor code field as its handler builds it. *)
Lemma pristine_honor_code env self r p :
  pristine env self "honor_code" r = Some p →
  p !! "type" = Some (VStr "checkbox")
  ∧ p !! "label"
    = Some (VStr ("I agree to the " +:+ platform_name env +:+ " "
                  +:+ (if _is_field_visible self "terms_of_service"
                       then "Honor Code"
                       else "Terms of Service and Honor Code"))).
Proof.
  unfold pristine, call_handler.
  change (field_handlers env self !! "honor_code")
    with (Some (_add_honor_code_field env self)).
  unfold _add_honor_code_field.
  destruct (_is_field_visible self "terms_of_service");
    rewrite first_field_add_field; intros [= <-]; split; reflexivity.
Qed.

Lemma pristine_terms_of_service env self r p :
  pristine env self "terms_of_service" r = Some p →
  p !! "type" = Some (VStr "checkbox").
Proof.
  unfold pristine, call_handler.
  change (field_handlers env self !! "terms_of_service")
    with (Some (_add_terms_of_service_field env)).
  unfold _add_terms_of_service_field.
  rewrite first_field_add_field. intros [= <-]. reflexivity.
Qed.

(** X7: the honor code and terms of service fields, when configured
    required or optional, are in the registration form as checkboxes,
    whatever the third-party-auth provider supplies and also when it skips
    the registration form. *)
Theorem checkboxes_stay env self request n :
  __init__ env = Ok self →
  extension_form_typed env = true →
  country_is_text env request = true →
  n ∈ ["terms_of_service"; "honor_code"] →
  _is_field_visible self n = true →
  ∃ response, get env self request = Ok response
    ∧ ∃ f, f ∈ form_fields_of response
        ∧ f !! "name" = Some (VStr n)
        ∧ f !! "type" = Some (VStr "checkbox").
Proof.
  intros Hinit Htyped Hcountry Hn Hvisible.
  assert (Hcases : n = "terms_of_service" ∨ n = "honor_code").
  { apply elem_of_cons in Hn as [->|Hn]; [by left|].
    apply list_elem_of_singleton in Hn. by right. }
  assert (Hvalid : n ∈ valid_fields)
    by (destruct Hcases as [->| ->]; compute_done).
  assert (Hnp : n ≠ "password") by (destruct Hcases as [->| ->]; done).
  destruct (get_handler_field env self request n Hinit Htyped Hcountry Hvalid)
    as (response & Hget & f & Hf & Hfield).
  { unfold shown. by rewrite Hvisible, orb_true_r. }
  exists response. split; [done|]. exists f. split; [done|].
  split; [eapply handler_field_name; [by apply keys_ok_initial | done]|].
  destruct (handler_field_own env self _ n _ f "type" Hfield)
    as (p & Hp & ->).
  { intros [=]. }
  { rewrite initial_overrides_at by (by left). rewrite decide_True by done.
    by apply provider_overrides_checkbox. }
  destruct Hcases as [->| ->].
  - by eapply pristine_terms_of_service.
  - by eapply pristine_honor_code.
Qed.

Lemma checkboxes_stay_witness :
  ∃ response,
    get Sample.plain_env Sample.view Sample.tpa_request = Ok response
    ∧ ∃ f, f ∈ form_fields_of response
        ∧ f !! "name" = Some (VStr "honor_code")
        ∧ f !! "type" = Some (VStr "checkbox").
Proof.
  apply (checkboxes_stay Sample.plain_env Sample.view Sample.tpa_request
           "honor_code");
    [vm_compute; reflexivity | vm_compute; reflexivity
    | vm_compute; reflexivity | compute_done | vm_compute; reflexivity].
Defined.

(** X8: the label of the honor code field names the honor code alone when
    the terms of service have a checkbox of their own (configured required
    or optional), and the terms of service and the honor code together
    otherwise. *)
Theorem honor_code_label env self request :
  __init__ env = Ok self →
  extension_form_typed env = true →
  country_is_text env request = true →
  _is_field_visible self "honor_code" = true →
  ∃ response, get env self request = Ok response
    ∧ ∃ f, f ∈ form_fields_of response
        ∧ f !! "name" = Some (VStr "honor_code")
        ∧ f !! "label"
          = Some (VStr ("I agree to the " +:+ platform_name env +:+ " "
                        +:+ (if _is_field_visible self "terms_of_service"
                             then "Honor Code"
                             else "Terms of Service and Honor Code"))).
Proof.
  intros Hinit Htyped Hcountry Hvisible.
  destruct (get_handler_field env self request "honor_code"
              Hinit Htyped Hcountry)
    as (response & Hget & f & Hf & Hfield).
  { compute_done. }
  { unfold shown. by rewrite Hvisible, orb_true_r. }
  exists response. split; [done|]. exists f. split; [done|].
  split; [eapply handler_field_name; [by apply keys_ok_initial | done]|].
  destruct (handler_field_own env self _ "honor_code" _ f "label" Hfield)
    as (p & Hp & ->).
  { intros [=]. }
  { rewrite initial_overrides_at by (by left).
    rewrite decide_True by compute_done.
    apply provider_overrides_checkbox; [compute_done | done]. }
  by eapply pristine_honor_code.
Qed.

Lemma honor_code_label_witness :
  ∃ response,
    get Sample.plain_env Sample.view Sample.tpa_request = Ok response
    ∧ ∃ f, f ∈ form_fields_of response
        ∧ f !! "name" = Some (VStr "honor_code")
        ∧ f !! "label"
          = Some (VStr ("I agree to the " +:+ platform_name Sample.plain_env
                        +:+ " "
                        +:+ (if _is_field_visible Sample.view
                                  "terms_of_service"
                             then "Honor Code"
                             else "Terms of Service and Honor Code"))).
Proof.
  apply (honor_code_label Sample.plain_env Sample.view Sample.tpa_request);
    vm_compute; reflexivity.
Defined.

(** X9: a value the third-party-auth provider supplies for a field of the
    view other than the password and the country is the default value of
    every field of that name in the registration form. *)
Theorem provider_value_is_default env self request n v :
  __init__ env = Ok self →
  extension_form_typed env = true →
  country_is_text env request = true →
  n ∈ valid_fields →
  n ∉ ["password"; "country"] →
  register_form_data env request !! n = Some v →
  ∃ response, get env self request = Ok response
    ∧ ∀ f, f ∈ form_fields_of response →
        f !! "name" = Some (VStr n) → f !! "defaultValue" = Some v.
Proof.
  intros Hinit Htyped Hcountry Hn Hne Hv.
  destruct (get_spec env self request Hinit Htyped Hcountry)
    as (response & Hget & _ & Hfields & _).
  exists response. split; [done|]. intros f Hf Hname.
  eapply field_ok_lookup; [|exact Hname| |].
  - by eapply Forall_forall in Hfields.
  - intros [= ->]. apply Hne. compute_done.
  - rewrite initial_overrides_at, decide_True; [|done|].
    + by apply provider_overrides_default.
    + left. intros ->. apply Hne. compute_done.
Qed.

Lemma provider_value_is_default_witness :
  ∃ response,
    get Sample.plain_env Sample.view Sample.tpa_request = Ok response
    ∧ ∀ f, f ∈ form_fields_of response →
        f !! "name" = Some (VStr "email") →
        f !! "defaultValue" = Some (VStr "pat@example.com").
Proof.
  apply (provider_value_is_default Sample.plain_env Sample.view
           Sample.tpa_request "email" (VStr "pat@example.com"));
    [vm_compute; reflexivity | vm_compute; reflexivity
    | vm_compute; reflexivity | compute_done | compute_done
    | vm_compute; reflexivity].
Defined.

(** X10: a field for which the provider supplies no value (and which is
    not the password of a request with a provider in charge, nor the
    country) is in the registration form exactly as its handler builds it
    when there is no third-party auth at all. *)
Theorem unprovided_field_untouched env self request n :
  __init__ env = Ok self →
  extension_form_typed env = true →
  country_is_text env request = true →
  n ∈ valid_fields →
  shown self n = true →
  n ≠ "country" →
  n ≠ "password" ∨ current_provider env request = None →
  register_form_data env request !! n = None →
  ∃ response, get env self request = Ok response
    ∧ ∃ f, f ∈ form_fields_of response
        ∧ pristine env self n (shown_required self n) = Some f.
Proof.
  intros Hinit Htyped Hcountry Hn Hshown Hnc Hnp Hnone.
  destruct (get_handler_field env self request n Hinit Htyped Hcountry Hn
              Hshown) as (response & Hget & f & Hf & Hfield).
  exists response. split; [done|]. exists f. split; [done|].
  destruct Hfield as (p & Hp & _ & _ & ov & -> & Hagree).
  rewrite Hp. f_equal.
  assert (Hov : ov = ∅).
  { apply map_eq. intros k. rewrite Hagree by (intros [= ?]; done).
    rewrite initial_overrides_at, decide_True by done.
    unfold provider_overrides. by rewrite Hnone. }
  by rewrite Hov, (left_id_L ∅ (∪)).
Qed.

Lemma unprovided_field_untouched_witness :
  ∃ response,
    get Sample.plain_env Sample.view Sample.tpa_request = Ok response
    ∧ ∃ f, f ∈ form_fields_of response
        ∧ pristine Sample.plain_env Sample.view "name"
            (shown_required Sample.view "name") = Some f.
Proof.
  apply (unprovided_field_untouched Sample.plain_env Sample.view
           Sample.tpa_request "name");
    [vm_compute; reflexivity | vm_compute; reflexivity
    | vm_compute; reflexivity | compute_done | vm_compute; reflexivity
    | discriminate | left; discriminate | vm_compute; reflexivity].
Defined.

(** X11: while a third-party-auth provider is in charge, the first field
    of the registration form is social_auth_provider: hidden, not required,
    and its default value is the provider's name, or "Third Party" when the
    name is empty. *)
Theorem social_auth_field_first env self request provider :
  __init__ env = Ok self →
  extension_form_typed env = true →
  country_is_text env request = true →
  current_provider env request = Some provider →
  ∃ response f rest, get env self request = Ok response
    ∧ form_fields_of response = f :: rest
    ∧ f !! "name" = Some (VStr "social_auth_provider")
    ∧ f !! "type" = Some (VStr "hidden")
    ∧ f !! "required" = Some (VBool false)
    ∧ f !! "defaultValue"
      = Some (VStr (if bool_decide (name provider = "")
                    then "Third Party" else name provider)).
Proof.
  intros Hinit Htyped Hcountry Hprovider.
  destruct (describe_exact env self request Hinit Htyped Hcountry)
    as (fd & Hrun & Hshape).
  destruct (get_of_describe env self request fd Hrun)
    as (response & Hget & _ & Hresponse).
  destruct (tpa_exact env request provider Hprovider) as [Hinitial _].
  assert (Hfields : ∃ rest, fields fd = social_auth_field provider :: rest).
  { destruct (get_registration_extension_form env).
    - destruct Hshape as (fs1 & fs2 & fs3 & -> & _). rewrite Hinitial.
      by eexists.
    - destruct Hshape as (fs & -> & _). rewrite Hinitial. by eexists. }
  destruct Hfields as [rest Hfields].
  exists response, (social_auth_field provider), rest.
  split; [done|]. split; [by rewrite Hresponse|].
  unfold social_auth_field.
  split; [apply field_dict_name|]. split; [reflexivity|].
  split; [reflexivity|].
  replace (field_dict _ _ !! "defaultValue")
    with (Some (VStr (if bool_decide (name provider ≠ "")
                      then name provider else "Third Party")))
    by reflexivity.
  destruct (decide (name provider = "")) as [Hempty|Hname].
  - rewrite (bool_decide_eq_true_2 (name provider = "")) by done.
    rewrite (bool_decide_eq_false_2 (name provider ≠ "")); [done|].
    intros Hne. by apply Hne.
  - rewrite (bool_decide_eq_false_2 (name provider = "")) by done.
    by rewrite (bool_decide_eq_true_2 (name provider ≠ "")).
Qed.

Lemma social_auth_field_first_witness :
  ∃ response f rest,
    get Sample.plain_env Sample.view Sample.tpa_request = Ok response
    ∧ form_fields_of response = f :: rest
    ∧ f !! "name" = Some (VStr "social_auth_provider")
    ∧ f !! "type" = Some (VStr "hidden")
    ∧ f !! "required" = Some (VBool false)
    ∧ f !! "defaultValue"
      = Some (VStr (if bool_decide (name Sample.provider = "")
                    then "Third Party" else name Sample.provider)).
Proof.
  apply (social_auth_field_first Sample.plain_env Sample.view
           Sample.tpa_request Sample.provider); vm_compute; reflexivity.
Defined.

(** ** The login and password-reset forms *)

(** X12: the login form has the fields email, password and remember, in
    this order, whatever the request; the password-reset form has one
    field, which is the email field of the login form, property by
    property. *)
Theorem login_and_reset_forms env request1 request2 :
  ∃ response1 response2 f rest,
    LoginSessionView.get env request1 = Ok response1
    ∧ PasswordResetView.get env request2 = Ok response2
    ∧ form_fields_of response1 = f :: rest
    ∧ form_fields_of response2 = [f]
    ∧ field_names (form_fields_of response1)
      = names ["email"; "password"; "remember"].
Proof.
  unfold LoginSessionView.get, PasswordResetView.get,
    LoginSessionView.describe, PasswordResetView.describe.
  erewrite bind_run by reflexivity. erewrite bind_run by reflexivity.
  do 4 eexists. split; [reflexivity|]. split; [reflexivity|].
  split; [reflexivity|]. split; [reflexivity|].
  unfold field_names, names, form_fields_of.
  cbn [response_content to_json fields _field_overrides new app fmap
       list_fmap add_field].
  rewrite !no_overrides, !(left_id_L ∅ (∪)), !field_dict_name. done.
Qed.

Lemma pristine_email env self r p :
  pristine env self "email" r = Some p →
  p !! "restrictions"
  = Some (VDict [("min_length", VInt (EMAIL_MIN_LENGTH (accounts env)));
                 ("max_length", VInt (EMAIL_MAX_LENGTH (accounts env)))]).
Proof.
  unfold pristine, call_handler.
  change (field_handlers env self !! "email") with (Some (_add_email_field env)).
  unfold _add_email_field. rewrite first_field_add_field.
  intros [= <-]. reflexivity.
Qed.

(** X13: the email field of the registration form has the length
    restrictions of the email field of the login form, whatever a
    third-party-auth provider supplies. *)
Theorem email_restrictions_agree env self request :
  __init__ env = Ok self →
  extension_form_typed env = true →
  country_is_text env request = true →
  ∃ login registration f g,
    LoginSessionView.get env request = Ok login
    ∧ get env self request = Ok registration
    ∧ f ∈ form_fields_of login ∧ f !! "name" = Some (VStr "email")
    ∧ g ∈ form_fields_of registration ∧ g !! "name" = Some (VStr "email")
    ∧ g !! "restrictions" = f !! "restrictions".
Proof.
  intros Hinit Htyped Hcountry.
  destruct (get_handler_field env self request "email" Hinit Htyped Hcountry)
    as (registration & Hget & g & Hg & Hfield); [compute_done..|].
  destruct (handler_field_own env self _ "email" _ g "restrictions" Hfield)
    as (p & Hp & Hown).
  { intros [=]. }
  { rewrite initial_overrides_at by (by left).
    rewrite decide_True by compute_done.
    apply provider_overrides_other. compute_done. }
  rewrite (pristine_email env self _ p Hp) in Hown.
  unfold LoginSessionView.get, LoginSessionView.describe.
  erewrite bind_run by reflexivity. erewrite bind_run by reflexivity.
  eexists _, registration, _, g. split; [reflexivity|]. split; [done|].
  split; [left|]. split.
  { rewrite lookup_union_r; [apply field_dict_name|].
    cbn [new _field_overrides]. by rewrite no_overrides. }
  split; [done|].
  split; [eapply handler_field_name; [by apply keys_ok_initial | done]|].
  rewrite Hown. symmetry.
  rewrite lookup_union_r; [reflexivity|].
  cbn [new _field_overrides]. by rewrite no_overrides.
Qed.

Lemma email_restrictions_agree_witness :
  ∃ login registration f g,
    LoginSessionView.get Sample.plain_env Sample.tpa_request = Ok login
    ∧ get Sample.plain_env Sample.view Sample.tpa_request = Ok registration
    ∧ f ∈ form_fields_of login ∧ f !! "name" = Some (VStr "email")
    ∧ g ∈ form_fields_of registration ∧ g !! "name" = Some (VStr "email")
    ∧ g !! "restrictions" = f !! "restrictions".
Proof.
  apply (email_restrictions_agree Sample.plain_env Sample.view
           Sample.tpa_request); vm_compute; reflexivity.
Defined.

(** ** Submitting the registration form *)

(** X14: when [check_account_exists] reports a conflict, [post] calls
    neither [create_account_with_params] nor [set_logged_in_cookies], and a
    response it returns has status 409. *)
Theorem conflict_stops_creation env request :
  check_account_exists env (POST request !! "email")
    (POST request !! "username") ≠ [] →
  (RegistrationView.post env request).1 = []
  ∧ ∀ response, (RegistrationView.post env request).2 = Ok response →
      status_code response = 409%Z.
Proof.
  intros Hconflict. unfold RegistrationView.post.
  destruct (check_account_exists env _ _) as [|c conflicts]; [done|].
  destruct (format (EMAIL_CONFLICT_MSG _) _); [|by split].
  destruct (format (USERNAME_CONFLICT_MSG _) _); [|by split].
  destruct (conflict_errors _ _ _); [|by split].
  split; [done|]. by intros response [= <-].
Qed.

Lemma conflict_stops_creation_witness :
  (RegistrationView.post Sample.taken_env Sample.taken_email_request).1 = []
  ∧ ∀ response,
      (RegistrationView.post Sample.taken_env Sample.taken_email_request).2
      = Ok response →
      status_code response = 409%Z.
Proof.
  apply (conflict_stops_creation Sample.taken_env Sample.taken_email_request).
  vm_compute. discriminate.
Defined.

(** X15: a response of [post] has status 200, 400, 403 or 409; it has
    status 200 exactly when it carries the logged-in cookies, and then
    account creation was called once, returned the user the cookies are
    for, and was followed by [set_logged_in_cookies] for that user. *)
Theorem post_outcomes env request response :
  (RegistrationView.post env request).2 = Ok response →
  status_code response ∈ [200; 400; 403; 409]%Z
  ∧ (status_code response = 200%Z ↔ is_Some (logged_in_cookies response))
  ∧ ∀ new_user, logged_in_cookies response = Some new_user →
      ∃ params,
        create_account_with_params env request params = Created new_user
        ∧ (RegistrationView.post env request).1
          = [CreateAccountWithParams params; SetLoggedInCookies new_user].
Proof.
  unfold RegistrationView.post.
  destruct (check_account_exists env _ _) as [|c conflicts].
  - match goal with
    | |- context [create_account_with_params env request ?d] =>
        generalize d; intros params
    end.
    destruct (create_account_with_params env request params)
      as [new_user | field message | err |] eqn:Hcreate.
    + intros [= <-]. cbn. split; [compute_done|]. split; [by split; eauto|].
      intros u [= <-]. by exists params.
    + intros [= <-]. cbn. split; [compute_done|].
      split; [split; [done | by intros [? [=]]]|]. by intros u [=].
    + destruct (message_dict err) as [d|]; [|done].
      destruct (bool_decide _); [done|].
      intros [= <-]. cbn. split; [compute_done|].
      split; [split; [done | by intros [? [=]]]|]. by intros u [=].
    + intros [= <-]. cbn. split; [compute_done|].
      split; [split; [done | by intros [? [=]]]|]. by intros u [=].
  - destruct (format (EMAIL_CONFLICT_MSG _) _); [|done].
    destruct (format (USERNAME_CONFLICT_MSG _) _); [|done].
    destruct (conflict_errors _ _ _); [|done].
    intros [= <-]. cbn. split; [compute_done|].
    split; [split; [done | by intros [? [=]]]|]. by intros u [=].
Qed.

Lemma post_outcomes_witness :
  status_code
    (response_of
       (RegistrationView.post (Sample.env [] [] None [] (Created "pat"))
          Sample.taken_email_request).2)
    ∈ [200; 400; 403; 409]%Z
  ∧ (status_code
       (response_of
          (RegistrationView.post (Sample.env [] [] None [] (Created "pat"))
             Sample.taken_email_request).2) = 200%Z
     ↔ is_Some (logged_in_cookies
         (response_of
            (RegistrationView.post (Sample.env [] [] None [] (Created "pat"))
               Sample.taken_email_request).2)))
  ∧ ∀ new_user,
      logged_in_cookies
        (response_of
           (RegistrationView.post (Sample.env [] [] None [] (Created "pat"))
              Sample.taken_email_request).2) = Some new_user →
      ∃ params,
        create_account_with_params (Sample.env [] [] None [] (Created "pat"))
          Sample.taken_email_request params = Created new_user
        ∧ (RegistrationView.post (Sample.env [] [] None [] (Created "pat"))
             Sample.taken_email_request).1
          = [CreateAccountWithParams params; SetLoggedInCookies new_user].
Proof.
  apply (post_outcomes (Sample.env [] [] None [] (Created "pat"))
           Sample.taken_email_request
           (response_of
              (RegistrationView.post (Sample.env [] [] None [] (Created "pat"))
                 Sample.taken_email_request).2)).
  apply response_of_ok. vm_compute. reflexivity.
Defined.

(** X16: the data [post] hands to account creation is the submitted data,
    except that terms_of_service may have been added: every other key is
    passed as submitted, and a submitted terms_of_service is never
    replaced. *)
Theorem post_passes_data env request params :
  CreateAccountWithParams params ∈ (RegistrationView.post env request).1 →
  (∀ k, k ≠ "terms_of_service" → params !! k = POST request !! k)
  ∧ (is_Some (POST request !! "terms_of_service") → params = POST request)
  ∧ (POST request !! "honor_code" = None → params = POST request).
Proof.
  unfold RegistrationView.post.
  destruct (check_account_exists env _ _) as [|c conflicts].
  2: { destruct (format (EMAIL_CONFLICT_MSG _) _);
         [|by intros ?%elem_of_nil].
       destruct (format (USERNAME_CONFLICT_MSG _) _);
         [|by intros ?%elem_of_nil].
       destruct (conflict_errors _ _ _); by intros ?%elem_of_nil. }
  match goal with
  | |- context [create_account_with_params env request ?d] =>
      set (passed := d)
  end.
  assert (Hpassed :
    (∀ k, k ≠ "terms_of_service" → passed !! k = POST request !! k)
    ∧ (is_Some (POST request !! "terms_of_service") → passed = POST request)
    ∧ (POST request !! "honor_code" = None → passed = POST request)).
  { subst passed. destruct (POST request !! "honor_code") as [h|]; [|done].
    destruct (negb _ && _) eqn:Hcond; [|done].
    apply andb_true_iff in Hcond as [_ Hterms%bool_decide_eq_true].
    split; [intros k Hk; by rewrite lookup_insert_ne|].
    split; [rewrite Hterms; by intros [? [=]] | done]. }
  intros Hin. assert (Hparams : params = passed); [|by subst params].
  clearbody passed. clear Hpassed.
  destruct (create_account_with_params env request passed) as [| | err |].
  - cbn in Hin. apply elem_of_cons in Hin as [[= ->]|Hin]; [done|].
    apply list_elem_of_singleton in Hin. done.
  - cbn in Hin. by apply list_elem_of_singleton in Hin as [= ->].
  - destruct (message_dict err); [destruct (bool_decide _)|];
      cbn in Hin; by apply list_elem_of_singleton in Hin as [= ->].
  - cbn in Hin. by apply list_elem_of_singleton in Hin as [= ->].
Qed.

Lemma post_passes_data_witness :
  (∀ k, k ≠ "terms_of_service" →
     <["terms_of_service" := "true"]>
       (POST (Sample.request [("honor_code", "true")] None)) !! k
     = POST (Sample.request [("honor_code", "true")] None) !! k)
  ∧ (is_Some (POST (Sample.request [("honor_code", "true")] None)
                !! "terms_of_service") →
     <["terms_of_service" := "true"]>
       (POST (Sample.request [("honor_code", "true")] None))
     = POST (Sample.request [("honor_code", "true")] None))
  ∧ (POST (Sample.request [("honor_code", "true")] None) !! "honor_code"
     = None →
     <["terms_of_service" := "true"]>
       (POST (Sample.request [("honor_code", "true")] None))
     = POST (Sample.request [("honor_code", "true")] None)).
Proof.
  apply (post_passes_data Sample.plain_env
           (Sample.request [("honor_code", "true")] None)
           (<["terms_of_service" := "true"]>
              (POST (Sample.request [("honor_code", "true")] None)))).
  vm_compute. left.
Defined.

(** ** Updating the email opt-in preference *)

(** X17: [UpdateEmailOptInPreference.post] makes at most one call, and
    only to [update_email_opt_in]: for the requesting user, for the
    organization of the course the course_id parses to, with the value that
    is true exactly when the lowercased email_opt_in is "true"; it then
    answers 200. *)
Theorem opt_in_calls env request c :
  c ∈ (UpdateEmailOptInPreference.post env request).1 →
  (UpdateEmailOptInPreference.post env request).1 = [c]
  ∧ ∃ course_id course_key raw response,
      data request !! "course_id" = Some course_id
      ∧ from_string env course_id = Some course_key
      ∧ data request !! "email_opt_in" = Some raw
      ∧ c = UpdateEmailOptIn (user request) (org course_key)
              (bool_decide (lower raw = "true"))
      ∧ (UpdateEmailOptInPreference.post env request).2 = Ok response
      ∧ status_code response = 200%Z.
Proof.
  unfold UpdateEmailOptInPreference.post.
  destruct (data request !! "course_id") as [course_id|] eqn:Hcourse;
    [|by intros ?%elem_of_nil].
  destruct (from_string env course_id) as [course_key|] eqn:Hparse;
    [|by destruct (str_format _ _); intros ?%elem_of_nil].
  destruct (data request !! "email_opt_in") as [raw|] eqn:Hraw;
    [|by intros ?%elem_of_nil].
  cbn [fst snd]. intros ->%list_elem_of_singleton. split; [done|].
  eexists course_id, course_key, raw, _.
  split; [done|]. split; [done|]. split; [done|]. repeat split; reflexivity.
Qed.

Lemma opt_in_calls_witness :
  (UpdateEmailOptInPreference.post Sample.plain_env Sample.opt_in_request).1
  = [UpdateEmailOptIn "pat" "edX" true]
  ∧ ∃ course_id course_key raw response,
      data Sample.opt_in_request !! "course_id" = Some course_id
      ∧ from_string Sample.plain_env course_id = Some course_key
      ∧ data Sample.opt_in_request !! "email_opt_in" = Some raw
      ∧ UpdateEmailOptIn "pat" "edX" true
        = UpdateEmailOptIn (user Sample.opt_in_request) (org course_key)
            (bool_decide (lower raw = "true"))
      ∧ (UpdateEmailOptInPreference.post Sample.plain_env
           Sample.opt_in_request).2 = Ok response
      ∧ status_code response = 200%Z.
Proof.
  apply (opt_in_calls Sample.plain_env Sample.opt_in_request
           (UpdateEmailOptIn "pat" "edX" true)).
  vm_compute. left.
Defined.

Lemma lower_t c :
  lower_ascii c = Ascii.ascii_of_nat 116 →
  c = Ascii.ascii_of_nat 116 ∨ c = Ascii.ascii_of_nat 84.
Proof.
  destruct c as [[] [] [] [] [] [] [] []]; vm_compute; intros H;
    try discriminate H; auto.
Qed.

Lemma lower_r c :
  lower_ascii c = Ascii.ascii_of_nat 114 →
  c = Ascii.ascii_of_nat 114 ∨ c = Ascii.ascii_of_nat 82.
Proof.
  destruct c as [[] [] [] [] [] [] [] []]; vm_compute; intros H;
    try discriminate H; auto.
Qed.

Lemma lower_u c :
  lower_ascii c = Ascii.ascii_of_nat 117 →
  c = Ascii.ascii_of_nat 117 ∨ c = Ascii.ascii_of_nat 85.
Proof.
  destruct c as [[] [] [] [] [] [] [] []]; vm_compute; intros H;
    try discriminate H; auto.
Qed.

Lemma lower_e c :
  lower_ascii c = Ascii.ascii_of_nat 101 →
  c = Ascii.ascii_of_nat 101 ∨ c = Ascii.ascii_of_nat 69.
Proof.
  destruct c as [[] [] [] [] [] [] [] []]; vm_compute; intros H;
    try discriminate H; auto.
Qed.

Lemma lower_true raw : lower raw = "true" ↔ raw ∈ TRUE_SPELLINGS.
Proof.
  split.
  - destruct raw as [|c1 [|c2 [|c3 [|c4 [|c5 raw]]]]]; try discriminate.
    cbn [lower]. intros [= H1%lower_t H2%lower_r H3%lower_u H4%lower_e].
    destruct H1 as [-> | ->], H2 as [-> | ->], H3 as [-> | ->],
      H4 as [-> | ->]; compute_done.
  - intros Hin. revert raw Hin. apply Forall_forall. compute_done.
Qed.

(** X18: the value handed to [update_email_opt_in] is true exactly for the
    sixteen spellings of "true" in upper and lower case; surrounding blanks
    or any other string give false. *)
Theorem opt_in_spellings env request course_id course_key raw :
  data request !! "course_id" = Some course_id →
  from_string env course_id = Some course_key →
  data request !! "email_opt_in" = Some raw →
  (UpdateEmailOptInPreference.post env request).1
  = [UpdateEmailOptIn (user request) (org course_key)
       (bool_decide (raw ∈ TRUE_SPELLINGS))].
Proof.
  intros Hcourse Hparse Hraw. unfold UpdateEmailOptInPreference.post.
  rewrite Hcourse, Hparse, Hraw. cbn [fst]. do 2 f_equal.
  apply bool_decide_ext, lower_true.
Qed.

Lemma opt_in_spellings_witness :
  (UpdateEmailOptInPreference.post Sample.plain_env Sample.opt_in_request).1
  = [UpdateEmailOptIn (user Sample.opt_in_request) "edX"
       (bool_decide ("True" ∈ TRUE_SPELLINGS))].
Proof.
  apply (opt_in_spellings Sample.plain_env Sample.opt_in_request
           "course-v1:edX+DemoX+2017"
           {| org := "edX"; course := "DemoX"; run := "2017" |} "True");
    vm_compute; reflexivity.
Defined.

(** ** Listing the users of a forum role *)

Section ForumRoles.
Import ForumRoleUsersListView.
Context (from_deprecated_string : string → option string).

(** X19: without a course_id in the query, or with an empty one,
    [get_queryset] raises ParseError before it parses anything or touches
    the roles. *)
Theorem course_id_must_be_specified kwargs query_params roles name :
  kwargs !! "name" = Some name →
  query_params !! "course_id" = None ∨ query_params !! "course_id" = Some "" →
  get_queryset from_deprecated_string kwargs query_params roles
  = (ParseError "course_id must be specified", roles).
Proof.
  intros Hname Hmissing. unfold get_queryset. rewrite Hname.
  by destruct Hmissing as [-> | ->].
Qed.

Lemma matches_new course_id name :
  matches course_id name
    {| role_course_id := course_id; role_name := name; role_users := [] |}
  = true.
Proof. unfold matches. cbn. by rewrite !String.eqb_refl. Qed.

(** X20: listing the users of a role that does not exist creates the role,
    without users, at the end of the table and lists nobody; otherwise the
    table is left as it is.  Listing again gives the same users and changes
    nothing. *)
Theorem listing_is_idempotent kwargs query_params roles users roles' :
  get_queryset from_deprecated_string kwargs query_params roles
  = (Users users, roles') →
  get_queryset from_deprecated_string kwargs query_params roles'
  = (Users users, roles')
  ∧ (roles' = roles
     ∨ ∃ role, roles' = roles ++ [role] ∧ role_users role = []
         ∧ users = []).
Proof.
  unfold get_queryset.
  destruct (kwargs !! "name") as [name|]; [|done].
  destruct (query_params !! "course_id") as [[|c s]|]; [done| |done].
  destruct (from_deprecated_string (String c s)) as [course_id|]; [|done].
  unfold get_or_create.
  destruct (List.filter (matches course_id name) roles)
    as [|role [|role2 rest]] eqn:Hfilter.
  - intros [= <- <-]. rewrite List.filter_app, Hfilter. cbn [List.filter].
    rewrite matches_new. cbn. split; [done|]. right. by eexists.
  - intros [= <- <-]. rewrite Hfilter. split; [done | by left].
  - done.
Qed.

End ForumRoles.

Lemma course_id_must_be_specified_witness :
  ForumRoleUsersListView.get_queryset (λ s, Some s)
    {["name" := "Moderator"]} ∅ []
  = (ForumRoleUsersListView.ParseError "course_id must be specified", []).
Proof.
  apply (course_id_must_be_specified (λ s, Some s) {["name" := "Moderator"]}
           ∅ [] "Moderator"); [vm_compute; reflexivity | by left].
Defined.

Lemma listing_is_idempotent_witness :
  ForumRoleUsersListView.get_queryset (λ s, Some s)
    {["name" := "Moderator"]} {["course_id" := "edX/DemoX/2017"]}
    [{| ForumRoleUsersListView.role_course_id := "edX/DemoX/2017";
        ForumRoleUsersListView.role_name := "Moderator";
        ForumRoleUsersListView.role_users := [] |}]
  = (ForumRoleUsersListView.Users [],
     [{| ForumRoleUsersListView.role_course_id := "edX/DemoX/2017";
         ForumRoleUsersListView.role_name := "Moderator";
         ForumRoleUsersListView.role_users := [] |}])
  ∧ ([{| ForumRoleUsersListView.role_course_id := "edX/DemoX/2017";
         ForumRoleUsersListView.role_name := "Moderator";
         ForumRoleUsersListView.role_users := [] |}] = []
     ∨ ∃ role,
         [{| ForumRoleUsersListView.role_course_id := "edX/DemoX/2017";
             ForumRoleUsersListView.role_name := "Moderator";
             ForumRoleUsersListView.role_users := [] |}] = [] ++ [role]
         ∧ ForumRoleUsersListView.role_users role = []
         ∧ ([] : list string) = []).
Proof.
  apply (listing_is_idempotent (λ s, Some s) {["name" := "Moderator"]}
           {["course_id" := "edX/DemoX/2017"]} [] []
           [{| ForumRoleUsersListView.role_course_id := "edX/DemoX/2017";
               ForumRoleUsersListView.role_name := "Moderator";
               ForumRoleUsersListView.role_users := [] |}]).
  vm_compute. reflexivity.
Defined.

(** ** The country field *)

(** X21: when a non-empty default country in ASCII is overridden on the
    form, [_add_country_field] adds a country field whose default value is
    that country with its letters a-z turned into A-Z, and records that
    value as the override. *)
Theorem country_default_uppercased env required fd s :
  (_field_overrides fd !!! "country") !! "defaultValue" = Some (VStr s) →
  s ≠ "" →
  is_ascii s = true →
  ∃ fd' f, _add_country_field env required fd = Ok ((), fd')
    ∧ fields fd' = fields fd ++ [f]
    ∧ f !! "defaultValue" = Some (VStr (upper s))
    ∧ (_field_overrides fd' !!! "country") !! "defaultValue"
      = Some (VStr (upper s)).
Proof.
  intros Hdefault Hne Hascii.
  assert (Htruthy : truthy (VStr s) = true).
  { cbn. apply String.eqb_neq in Hne. by rewrite Hne. }
  unfold _add_country_field. erewrite bind_run by reflexivity.
  replace (default ∅ (_field_overrides fd !! "country"))
    with (_field_overrides fd !!! "country") by by rewrite lookup_total_alt.
  rewrite Hdefault. change (default VNone (Some (VStr s))) with (VStr s).
  rewrite Htruthy. cbn [py_upper]. rewrite Hascii.
  erewrite bind_run; [|erewrite bind_run by reflexivity; reflexivity].
  eexists _, _. split; [reflexivity|]. cbn [fields _field_overrides].
  split; [reflexivity|].
  assert (Hupper : ∀ old : gmap string value,
    (overridden_properties (kw [("default", VStr (upper s))]) ∪ old)
      !! "defaultValue" = Some (VStr (upper s))).
  { intros old. apply lookup_union_Some_l.
    rewrite overridden_default. apply lookup_singleton_eq. }
  split.
  - apply lookup_union_Some_l. rewrite lookup_total_insert_eq. apply Hupper.
  - rewrite lookup_total_insert_eq. apply Hupper.
Qed.

Lemma country_default_uppercased_witness :
  ∃ fd' f,
    _add_country_field Sample.plain_env true
      {| method := "post"; submit_url := "/";
         fields := [];
         _field_overrides := {["country" := {["defaultValue" := VStr "fr"]}]} |}
    = Ok ((), fd')
    ∧ fields fd' = [] ++ [f]
    ∧ f !! "defaultValue" = Some (VStr "FR")
    ∧ (_field_overrides fd' !!! "country") !! "defaultValue"
      = Some (VStr "FR").
Proof.
  apply (country_default_uppercased Sample.plain_env true
           {| method := "post"; submit_url := "/"; fields := [];
              _field_overrides :=
                {["country" := {["defaultValue" := VStr "fr"]}]} |} "fr");
    [vm_compute; reflexivity | discriminate | reflexivity].
Defined.
